(** * The execution core of the eZ80 emulator (core/cpu.c)

    A shallow embedding of [core/cpu.c]: the register file and mode bits as
    records, the C globals as one [machine] record, and every [static]
    function of the file as a Rocq function of the same name in a small
    state-and-abort monad.  The theorems at the end of the file state what
    the interpreter does for calls and returns, DAA, the repeating block
    instructions, EI, interrupt entry, the boundary normalisation, the
    refresh register, opcode traps and LD MB,A. *)

From Stdlib Require Import ZArith List Bool Lia.
Import ListNotations.
Local Open Scope Z_scope.

(** ** Fixed-width integers

    The C code computes in [uint8_t], [uint16_t], [uint32_t] and [int].
    Values are kept as [Z]; every store into a narrower object is written
    out as the truncation C performs. *)

Definition u8 (x : Z) : Z := Z.land x 0xFF.
Definition u16 (x : Z) : Z := Z.land x 0xFFFF.
Definition u24 (x : Z) : Z := Z.land x 0xFFFFFF.
(** [(int8_t)b] for a byte [b]. *)
Definition s8 (b : Z) : Z := if Z.testbit b 7 then u8 b - 256 else u8 b.
(** a C scalar used as a condition *)
Definition truthy (x : Z) : bool := negb (x =? 0).

(** Byte views of a multi-byte register ([.l], [.h], [.u] of the register
    unions; [PCL], [PCH], [PCU]; [C], [B] of [BC]). *)
Definition byte_l (w : Z) : Z := Z.land w 0xFF.
Definition byte_h (w : Z) : Z := Z.land (Z.shiftr w 8) 0xFF.
Definition byte_u (w : Z) : Z := Z.land (Z.shiftr w 16) 0xFF.
Definition with_l (w b : Z) : Z := Z.lor (Z.land w 0xFFFF00) (u8 b).
Definition with_h (w b : Z) : Z := Z.lor (Z.land w 0xFF00FF) (Z.shiftl (u8 b) 8).
(** the 16-bit alias of a 24-bit register ([BCS]): the upper byte stays *)
Definition with_s (w v : Z) : Z := Z.lor (Z.land w 0xFF0000) (u16 v).

(** ** Architectural state *)

(** Modelled from the spec: [registers.h] is not part of the sources.  The
    register file follows section 3 of the specification: 8-bit A, F, R and
    MBASE; 24-bit BC, DE, HL, IX, IY, PC and SPL with byte views; the 16-bit
    SPS and I; the shadow bank.  [r->I] is the field [I_reg]. *)
Record eZ80registers_t : Type := mk_registers {
  A : Z; F : Z; BC : Z; DE : Z; HL : Z;
  _AF : Z; _BC : Z; _DE : Z; _HL : Z;
  IX : Z; IY : Z; SPS : Z; SPL : Z; PC : Z;
  I_reg : Z; R : Z; MBASE : Z }.

(** Modelled from the spec: [cpu.h] is not part of the sources.  The mode
    bits of section 3: one-bit fields as [bool], the two-bit [IM] and
    [PREFIX] as [Z]. *)
Record eZ80cpu_t : Type := mk_cpu {
  registers : eZ80registers_t;
  IEF1 : bool; IEF2 : bool; ADL : bool; MADL : bool;
  IM : Z; PREFIX : Z;
  SUFFIX : bool; L : bool; IL : bool; IEF_wait : bool; halted : bool;
  cycles : Z; prefetch : Z }.

(** What the core does on its collaborators' interfaces, newest first. *)
Inductive bus_event : Type :=
  | MemRead (address value : Z)
  | MemWrite (address value : Z)
  | PortRead (pio value : Z)
  | PortWrite (pio value : Z).

(** The global [cpu] together with the other globals [cpu_execute] touches:
    the memory and port collaborators, the cycle budget [cycle_count_delta],
    [cpu_events], [exiting] and the interrupt controller's request
    registers. *)
Record machine : Type := mk_machine {
  cpu : eZ80cpu_t;
  mem : Z -> Z;
  port_in : Z -> Z;
  bus : list bus_event;
  cycle_count_delta : Z;
  cpu_events : Z;
  exiting : bool;
  intrpt_status : Z;
  intrpt_enabled : Z }.

Definition set_A (v : Z) (r : eZ80registers_t) : eZ80registers_t :=
  mk_registers v (F r) (BC r) (DE r) (HL r) (_AF r) (_BC r) (_DE r) (_HL r) (IX r) (IY r) (SPS r) (SPL r) (PC r) (I_reg r) (R r) (MBASE r).
Definition set_F (v : Z) (r : eZ80registers_t) : eZ80registers_t :=
  mk_registers (A r) v (BC r) (DE r) (HL r) (_AF r) (_BC r) (_DE r) (_HL r) (IX r) (IY r) (SPS r) (SPL r) (PC r) (I_reg r) (R r) (MBASE r).
Definition set_BC (v : Z) (r : eZ80registers_t) : eZ80registers_t :=
  mk_registers (A r) (F r) v (DE r) (HL r) (_AF r) (_BC r) (_DE r) (_HL r) (IX r) (IY r) (SPS r) (SPL r) (PC r) (I_reg r) (R r) (MBASE r).
Definition set_DE (v : Z) (r : eZ80registers_t) : eZ80registers_t :=
  mk_registers (A r) (F r) (BC r) v (HL r) (_AF r) (_BC r) (_DE r) (_HL r) (IX r) (IY r) (SPS r) (SPL r) (PC r) (I_reg r) (R r) (MBASE r).
Definition set_HL (v : Z) (r : eZ80registers_t) : eZ80registers_t :=
  mk_registers (A r) (F r) (BC r) (DE r) v (_AF r) (_BC r) (_DE r) (_HL r) (IX r) (IY r) (SPS r) (SPL r) (PC r) (I_reg r) (R r) (MBASE r).
Definition set__AF (v : Z) (r : eZ80registers_t) : eZ80registers_t :=
  mk_registers (A r) (F r) (BC r) (DE r) (HL r) v (_BC r) (_DE r) (_HL r) (IX r) (IY r) (SPS r) (SPL r) (PC r) (I_reg r) (R r) (MBASE r).
Definition set__BC (v : Z) (r : eZ80registers_t) : eZ80registers_t :=
  mk_registers (A r) (F r) (BC r) (DE r) (HL r) (_AF r) v (_DE r) (_HL r) (IX r) (IY r) (SPS r) (SPL r) (PC r) (I_reg r) (R r) (MBASE r).
Definition set__DE (v : Z) (r : eZ80registers_t) : eZ80registers_t :=
  mk_registers (A r) (F r) (BC r) (DE r) (HL r) (_AF r) (_BC r) v (_HL r) (IX r) (IY r) (SPS r) (SPL r) (PC r) (I_reg r) (R r) (MBASE r).
Definition set__HL (v : Z) (r : eZ80registers_t) : eZ80registers_t :=
  mk_registers (A r) (F r) (BC r) (DE r) (HL r) (_AF r) (_BC r) (_DE r) v (IX r) (IY r) (SPS r) (SPL r) (PC r) (I_reg r) (R r) (MBASE r).
Definition set_IX (v : Z) (r : eZ80registers_t) : eZ80registers_t :=
  mk_registers (A r) (F r) (BC r) (DE r) (HL r) (_AF r) (_BC r) (_DE r) (_HL r) v (IY r) (SPS r) (SPL r) (PC r) (I_reg r) (R r) (MBASE r).
Definition set_IY (v : Z) (r : eZ80registers_t) : eZ80registers_t :=
  mk_registers (A r) (F r) (BC r) (DE r) (HL r) (_AF r) (_BC r) (_DE r) (_HL r) (IX r) v (SPS r) (SPL r) (PC r) (I_reg r) (R r) (MBASE r).
Definition set_SPS (v : Z) (r : eZ80registers_t) : eZ80registers_t :=
  mk_registers (A r) (F r) (BC r) (DE r) (HL r) (_AF r) (_BC r) (_DE r) (_HL r) (IX r) (IY r) v (SPL r) (PC r) (I_reg r) (R r) (MBASE r).
Definition set_SPL (v : Z) (r : eZ80registers_t) : eZ80registers_t :=
  mk_registers (A r) (F r) (BC r) (DE r) (HL r) (_AF r) (_BC r) (_DE r) (_HL r) (IX r) (IY r) (SPS r) v (PC r) (I_reg r) (R r) (MBASE r).
Definition set_PC (v : Z) (r : eZ80registers_t) : eZ80registers_t :=
  mk_registers (A r) (F r) (BC r) (DE r) (HL r) (_AF r) (_BC r) (_DE r) (_HL r) (IX r) (IY r) (SPS r) (SPL r) v (I_reg r) (R r) (MBASE r).
Definition set_I_reg (v : Z) (r : eZ80registers_t) : eZ80registers_t :=
  mk_registers (A r) (F r) (BC r) (DE r) (HL r) (_AF r) (_BC r) (_DE r) (_HL r) (IX r) (IY r) (SPS r) (SPL r) (PC r) v (R r) (MBASE r).
Definition set_R (v : Z) (r : eZ80registers_t) : eZ80registers_t :=
  mk_registers (A r) (F r) (BC r) (DE r) (HL r) (_AF r) (_BC r) (_DE r) (_HL r) (IX r) (IY r) (SPS r) (SPL r) (PC r) (I_reg r) v (MBASE r).
Definition set_MBASE (v : Z) (r : eZ80registers_t) : eZ80registers_t :=
  mk_registers (A r) (F r) (BC r) (DE r) (HL r) (_AF r) (_BC r) (_DE r) (_HL r) (IX r) (IY r) (SPS r) (SPL r) (PC r) (I_reg r) (R r) v.

Definition set_registers (v : eZ80registers_t) (c : eZ80cpu_t) : eZ80cpu_t :=
  mk_cpu v (IEF1 c) (IEF2 c) (ADL c) (MADL c) (IM c) (PREFIX c) (SUFFIX c) (L c) (IL c) (IEF_wait c) (halted c) (cycles c) (prefetch c).
Definition set_IEF1 (v : bool) (c : eZ80cpu_t) : eZ80cpu_t :=
  mk_cpu (registers c) v (IEF2 c) (ADL c) (MADL c) (IM c) (PREFIX c) (SUFFIX c) (L c) (IL c) (IEF_wait c) (halted c) (cycles c) (prefetch c).
Definition set_IEF2 (v : bool) (c : eZ80cpu_t) : eZ80cpu_t :=
  mk_cpu (registers c) (IEF1 c) v (ADL c) (MADL c) (IM c) (PREFIX c) (SUFFIX c) (L c) (IL c) (IEF_wait c) (halted c) (cycles c) (prefetch c).
Definition set_ADL (v : bool) (c : eZ80cpu_t) : eZ80cpu_t :=
  mk_cpu (registers c) (IEF1 c) (IEF2 c) v (MADL c) (IM c) (PREFIX c) (SUFFIX c) (L c) (IL c) (IEF_wait c) (halted c) (cycles c) (prefetch c).
Definition set_MADL (v : bool) (c : eZ80cpu_t) : eZ80cpu_t :=
  mk_cpu (registers c) (IEF1 c) (IEF2 c) (ADL c) v (IM c) (PREFIX c) (SUFFIX c) (L c) (IL c) (IEF_wait c) (halted c) (cycles c) (prefetch c).
Definition set_IM (v : Z) (c : eZ80cpu_t) : eZ80cpu_t :=
  mk_cpu (registers c) (IEF1 c) (IEF2 c) (ADL c) (MADL c) v (PREFIX c) (SUFFIX c) (L c) (IL c) (IEF_wait c) (halted c) (cycles c) (prefetch c).
Definition set_PREFIX (v : Z) (c : eZ80cpu_t) : eZ80cpu_t :=
  mk_cpu (registers c) (IEF1 c) (IEF2 c) (ADL c) (MADL c) (IM c) v (SUFFIX c) (L c) (IL c) (IEF_wait c) (halted c) (cycles c) (prefetch c).
Definition set_SUFFIX (v : bool) (c : eZ80cpu_t) : eZ80cpu_t :=
  mk_cpu (registers c) (IEF1 c) (IEF2 c) (ADL c) (MADL c) (IM c) (PREFIX c) v (L c) (IL c) (IEF_wait c) (halted c) (cycles c) (prefetch c).
Definition set_L (v : bool) (c : eZ80cpu_t) : eZ80cpu_t :=
  mk_cpu (registers c) (IEF1 c) (IEF2 c) (ADL c) (MADL c) (IM c) (PREFIX c) (SUFFIX c) v (IL c) (IEF_wait c) (halted c) (cycles c) (prefetch c).
Definition set_IL (v : bool) (c : eZ80cpu_t) : eZ80cpu_t :=
  mk_cpu (registers c) (IEF1 c) (IEF2 c) (ADL c) (MADL c) (IM c) (PREFIX c) (SUFFIX c) (L c) v (IEF_wait c) (halted c) (cycles c) (prefetch c).
Definition set_IEF_wait (v : bool) (c : eZ80cpu_t) : eZ80cpu_t :=
  mk_cpu (registers c) (IEF1 c) (IEF2 c) (ADL c) (MADL c) (IM c) (PREFIX c) (SUFFIX c) (L c) (IL c) v (halted c) (cycles c) (prefetch c).
Definition set_halted (v : bool) (c : eZ80cpu_t) : eZ80cpu_t :=
  mk_cpu (registers c) (IEF1 c) (IEF2 c) (ADL c) (MADL c) (IM c) (PREFIX c) (SUFFIX c) (L c) (IL c) (IEF_wait c) v (cycles c) (prefetch c).
Definition set_cycles (v : Z) (c : eZ80cpu_t) : eZ80cpu_t :=
  mk_cpu (registers c) (IEF1 c) (IEF2 c) (ADL c) (MADL c) (IM c) (PREFIX c) (SUFFIX c) (L c) (IL c) (IEF_wait c) (halted c) v (prefetch c).
Definition set_prefetch (v : Z) (c : eZ80cpu_t) : eZ80cpu_t :=
  mk_cpu (registers c) (IEF1 c) (IEF2 c) (ADL c) (MADL c) (IM c) (PREFIX c) (SUFFIX c) (L c) (IL c) (IEF_wait c) (halted c) (cycles c) v.

Definition set_cpu (v : eZ80cpu_t) (s : machine) : machine :=
  mk_machine v (mem s) (port_in s) (bus s) (cycle_count_delta s) (cpu_events s) (exiting s) (intrpt_status s) (intrpt_enabled s).
Definition set_mem (v : Z -> Z) (s : machine) : machine :=
  mk_machine (cpu s) v (port_in s) (bus s) (cycle_count_delta s) (cpu_events s) (exiting s) (intrpt_status s) (intrpt_enabled s).
Definition set_port_in (v : Z -> Z) (s : machine) : machine :=
  mk_machine (cpu s) (mem s) v (bus s) (cycle_count_delta s) (cpu_events s) (exiting s) (intrpt_status s) (intrpt_enabled s).
Definition set_bus (v : list bus_event) (s : machine) : machine :=
  mk_machine (cpu s) (mem s) (port_in s) v (cycle_count_delta s) (cpu_events s) (exiting s) (intrpt_status s) (intrpt_enabled s).
Definition set_cycle_count_delta (v : Z) (s : machine) : machine :=
  mk_machine (cpu s) (mem s) (port_in s) (bus s) v (cpu_events s) (exiting s) (intrpt_status s) (intrpt_enabled s).
Definition set_cpu_events (v : Z) (s : machine) : machine :=
  mk_machine (cpu s) (mem s) (port_in s) (bus s) (cycle_count_delta s) v (exiting s) (intrpt_status s) (intrpt_enabled s).
Definition set_exiting (v : bool) (s : machine) : machine :=
  mk_machine (cpu s) (mem s) (port_in s) (bus s) (cycle_count_delta s) (cpu_events s) v (intrpt_status s) (intrpt_enabled s).
Definition set_intrpt_status (v : Z) (s : machine) : machine :=
  mk_machine (cpu s) (mem s) (port_in s) (bus s) (cycle_count_delta s) (cpu_events s) (exiting s) v (intrpt_enabled s).
Definition set_intrpt_enabled (v : Z) (s : machine) : machine :=
  mk_machine (cpu s) (mem s) (port_in s) (bus s) (cycle_count_delta s) (cpu_events s) (exiting s) (intrpt_status s) v.

Definition regs (s : machine) : eZ80registers_t := registers (cpu s).
Definition upd_cpu (f : eZ80cpu_t -> eZ80cpu_t) (s : machine) : machine :=
  set_cpu (f (cpu s)) s.
Definition upd_regs (f : eZ80registers_t -> eZ80registers_t) (s : machine) : machine :=
  upd_cpu (fun c => set_registers (f (registers c)) c) s.

(** 16-bit [AF]: F is the low byte, A the high byte. *)
Definition AF (r : eZ80registers_t) : Z := Z.lor (Z.shiftl (A r) 8) (F r).
Definition set_AF (v : Z) (r : eZ80registers_t) : eZ80registers_t :=
  set_A (byte_h v) (set_F (byte_l v) r).
Definition B (r : eZ80registers_t) : Z := byte_h (BC r).
Definition C (r : eZ80registers_t) : Z := byte_l (BC r).
Definition set_B (v : Z) (r : eZ80registers_t) := set_BC (with_h (BC r) v) r.
Definition set_C (v : Z) (r : eZ80registers_t) := set_BC (with_l (BC r) v) r.
Definition D (r : eZ80registers_t) : Z := byte_h (DE r).
Definition E (r : eZ80registers_t) : Z := byte_l (DE r).
Definition set_D (v : Z) (r : eZ80registers_t) := set_DE (with_h (DE r) v) r.
Definition set_E (v : Z) (r : eZ80registers_t) := set_DE (with_l (DE r) v) r.
Definition set_BCS (v : Z) (r : eZ80registers_t) := set_BC (with_s (BC r) v) r.
Definition PCL (r : eZ80registers_t) : Z := byte_l (PC r).
Definition PCH (r : eZ80registers_t) : Z := byte_h (PC r).
Definition PCU (r : eZ80registers_t) : Z := byte_u (PC r).

(** ** Flags *)

(** Modelled from the spec: the flag macros of [registers.h].  Bit 7 S,
    6 Z, 5 and 3 undefined, 4 H, 2 P/V, 1 N, 0 C; each flag is a small pure
    function of operands and result, or-ed into F. *)
Definition FLAG_C : Z := 1.
Definition FLAG_N : Z := 2.
Definition FLAG_PV : Z := 4.
Definition FLAG_3 : Z := 8.
Definition FLAG_H : Z := 16.
Definition FLAG_5 : Z := 32.
Definition FLAG_Z : Z := 64.
Definition FLAG_S : Z := 128.

Definition __flag_s (a : bool) : Z := if a then FLAG_S else 0.
Definition __flag_z (a : bool) : Z := if a then FLAG_Z else 0.
Definition __flag_h (a : bool) : Z := if a then FLAG_H else 0.
Definition __flag_pv (a : bool) : Z := if a then FLAG_PV else 0.
Definition __flag_n (a : bool) : Z := if a then FLAG_N else 0.
Definition __flag_c (a : bool) : Z := if a then FLAG_C else 0.

Definition word_bits (mode : bool) : Z := if mode then 24 else 16.

(** even parity of the low eight bits *)
Definition parity_even (a : Z) : bool :=
  negb (fold_right xorb false (map (Z.testbit a) [0; 1; 2; 3; 4; 5; 6; 7])).

Definition _flag_sign_b (a : Z) : Z := __flag_s (Z.testbit a 7).
Definition _flag_sign_w (a : Z) (mode : bool) : Z :=
  __flag_s (Z.testbit a (word_bits mode - 1)).
Definition _flag_zero (a : Z) : Z := __flag_z (a =? 0).
Definition _flag_undef (f : Z) : Z := Z.land f (Z.lor FLAG_3 FLAG_5).
Definition _flag_parity (a : Z) : Z := __flag_pv (parity_even a).
Definition _flag_subtract (a : bool) : Z := __flag_n a.
Definition _flag_carry_b (a : Z) : Z := __flag_c (Z.testbit a 8).
Definition _flag_carry_w (a : Z) (mode : bool) : Z :=
  __flag_c (Z.testbit a (word_bits mode)).
Definition _flag_overflow_b_add (op1 op2 result : Z) : Z :=
  __flag_pv (Z.testbit (Z.land (Z.lxor op1 result) (Z.lxor op2 result)) 7).
Definition _flag_overflow_b_sub (op1 op2 result : Z) : Z :=
  __flag_pv (Z.testbit (Z.land (Z.lxor op1 op2) (Z.lxor op1 result)) 7).
Definition _flag_overflow_w_add (op1 op2 result : Z) (mode : bool) : Z :=
  __flag_pv (Z.testbit (Z.land (Z.lxor op1 result) (Z.lxor op2 result))
                       (word_bits mode - 1)).
Definition _flag_overflow_w_sub (op1 op2 result : Z) (mode : bool) : Z :=
  __flag_pv (Z.testbit (Z.land (Z.lxor op1 op2) (Z.lxor op1 result))
                       (word_bits mode - 1)).
Definition _flag_halfcarry_b_add (op1 op2 carry : Z) : Z :=
  __flag_h (Z.testbit (Z.land op1 0xF + Z.land op2 0xF + carry) 4).
Definition _flag_halfcarry_b_sub (op1 op2 carry : Z) : Z :=
  __flag_h (Z.testbit (Z.land op1 0xF - Z.land op2 0xF - carry) 4).
Definition _flag_halfcarry_w_add (op1 op2 carry : Z) : Z :=
  __flag_h (Z.testbit (Z.land op1 0xFFF + Z.land op2 0xFFF + carry) 12).
Definition _flag_halfcarry_w_sub (op1 op2 carry : Z) : Z :=
  __flag_h (Z.testbit (Z.land op1 0xFFF - Z.land op2 0xFFF - carry) 12).

(** The bit-field view [r->flags] of F. *)
Definition flag (m : Z) (r : eZ80registers_t) : bool := truthy (Z.land (F r) m).
Definition set_flag (m : Z) (b : bool) (r : eZ80registers_t) : eZ80registers_t :=
  set_F (if b then Z.lor (F r) m else Z.land (F r) (0xFF - m)) r.

(** ** The state-and-abort monad

    Every C function of the file reads and writes the globals; [abort()]
    ends the process.  [M A] is a computation over [machine] that returns
    an [A] or aborts ([None]). *)

Definition M (T : Type) : Type := machine -> option (T * machine).

Definition ret {T} (x : T) : M T := fun s => Some (x, s).
Definition bind {T U} (m : M T) (k : T -> M U) : M U :=
  fun s => match m s with
           | Some (x, s') => k x s'
           | None => None
           end.
Definition abort {T} : M T := fun _ => None.
Definition gets {T} (f : machine -> T) : M T := fun s => Some (f s, s).
Definition modify (f : machine -> machine) : M unit := fun s => Some (tt, f s).

Declare Scope cpu_scope.
Delimit Scope cpu_scope with cpu.
Notation "x <- m ;; k" := (bind m (fun x => k))
  (at level 61, m at next level, right associativity) : cpu_scope.
Notation "m ;; k" := (bind m (fun _ => k))
  (at level 61, right associativity) : cpu_scope.
Notation "' ( x , y ) <- m ;; k" := (bind m (fun '(x, y) => k))
  (at level 61, m at next level, x name, y name, right associativity) : cpu_scope.
Local Open Scope cpu_scope.

(** [r->X] and [cpu.X], read and written. *)
Definition rget {T} (f : eZ80registers_t -> T) : M T := gets (fun s => f (regs s)).
Definition rset {T} (set : T -> eZ80registers_t -> eZ80registers_t) (v : T) : M unit :=
  modify (upd_regs (set v)).
Definition cget {T} (f : eZ80cpu_t -> T) : M T := gets (fun s => f (cpu s)).
Definition cset {T} (set : T -> eZ80cpu_t -> eZ80cpu_t) (v : T) : M unit :=
  modify (upd_cpu (set v)).
(** [if (b) { m }] *)
Definition when (b : bool) (m : M unit) : M unit :=
  fun s => if b then m s else Some (tt, s).
(** [cpu.cycles += n] *)
Definition add_cycles (n : Z) : M unit :=
  modify (upd_cpu (fun c => set_cycles (cycles c + n) c)).
(** [cycle_count_delta += n] *)
Definition add_delta (n : Z) : M unit :=
  modify (fun s => set_cycle_count_delta (cycle_count_delta s + n) s).

(** ** Collaborators *)

Definition log_event (e : bus_event) (s : machine) : machine :=
  set_bus (e :: bus s) s.

(** Modelled from the spec: the memory collaborator [memory_read_byte] /
    [memory_write_byte] (section 6: [read_byte(a24) -> u8],
    [write_byte(a24, u8)]) as a flat byte store; each access is recorded on
    [bus] in program order. *)
Definition memory_read_byte (address : Z) : M Z :=
  v <- gets (fun s => u8 (mem s address)) ;;
  modify (log_event (MemRead address v)) ;;
  ret v.
Definition store (address v : Z) (s : machine) : machine :=
  set_mem (fun a => if a =? address then v else mem s a) s.
Definition memory_write_byte (address value : Z) : M unit :=
  modify (store address (u8 value)) ;;
  modify (log_event (MemWrite address (u8 value))).

(** Modelled from the spec: the port collaborator ([port_read(u16) -> u8],
    [port_write(u16, u8)]); [port_in] is what the ports answer. *)
Definition port_read_byte (pio : Z) : M Z :=
  v <- gets (fun s => u8 (port_in s pio)) ;;
  modify (log_event (PortRead pio v)) ;;
  ret v.
Definition port_write_byte (pio value : Z) : M unit :=
  modify (log_event (PortWrite pio (u8 value))).

(** ** Mode plumbing, fetch and memory access *)

Definition cpu_get_cntrl_data_blocks_format : M unit :=
  cset set_PREFIX 0 ;; cset set_SUFFIX false ;;
  adl <- cget ADL ;; cset set_L adl ;;
  adl <- cget ADL ;; cset set_IL adl.

Definition cpu_mask_mode (value : Z) (mode : bool) : Z :=
  Z.land value (if mode then 0xFFFFFF else 0xFFFF).

Definition cpu_address_mode (address : Z) (mode : bool) (s : machine) : Z :=
  if mode then Z.land address 0xFFFFFF
  else Z.lor (Z.shiftl (MBASE (regs s)) 16) (Z.land address 0xFFFF).

Definition cpu_prefetch (address : Z) (mode : bool) : M unit :=
  cset set_ADL mode ;;
  pc <- gets (cpu_address_mode address mode) ;;
  rset set_PC pc ;;
  v <- memory_read_byte pc ;;
  cset set_prefetch v.

(** The debugger gate at fetch time only notifies the debugger; it is not
    part of the modelled state. *)
Definition cpu_fetch_byte : M Z :=
  value <- cget prefetch ;;
  pc <- rget PC ;;
  adl <- cget ADL ;;
  cpu_prefetch (pc + 1) adl ;;
  ret value.

Definition cpu_fetch_offset : M Z :=
  b <- cpu_fetch_byte ;; ret (s8 b).

Definition cpu_fetch_word : M Z :=
  b0 <- cpu_fetch_byte ;;
  b1 <- cpu_fetch_byte ;;
  let value := Z.lor b0 (Z.shiftl b1 8) in
  il <- cget IL ;;
  if il then b2 <- cpu_fetch_byte ;; ret (Z.lor value (Z.shiftl b2 16))
  else ret value.

Definition cpu_fetch_word_no_prefetch : M Z :=
  b0 <- cpu_fetch_byte ;;
  p1 <- cget prefetch ;;
  let value := Z.lor b0 (Z.shiftl p1 8) in
  il <- cget IL ;;
  value <- (if il then
              cpu_fetch_byte ;;
              p2 <- cget prefetch ;;
              ret (Z.lor value (Z.shiftl p2 16))
            else ret value) ;;
  pc <- rget PC ;;
  rset set_PC (u24 (pc + 1)) ;;
  ret value.

Definition cpu_read_byte (address : Z) : M Z :=
  l <- cget L ;;
  a <- gets (cpu_address_mode address l) ;;
  memory_read_byte a.
Definition cpu_write_byte (address value : Z) : M unit :=
  l <- cget L ;;
  a <- gets (cpu_address_mode address l) ;;
  memory_write_byte a value.

Definition cpu_read_word (address : Z) : M Z :=
  b0 <- cpu_read_byte address ;;
  b1 <- cpu_read_byte (address + 1) ;;
  let value := Z.lor b0 (Z.shiftl b1 8) in
  l <- cget L ;;
  if l then b2 <- cpu_read_byte (address + 2) ;; ret (Z.lor value (Z.shiftl b2 16))
  else ret value.
Definition cpu_write_word (address value : Z) : M unit :=
  cpu_write_byte address value ;;
  cpu_write_byte (address + 1) (Z.shiftr value 8) ;;
  l <- cget L ;;
  when l (cpu_write_byte (address + 2) (Z.shiftr value 16)).

(** [cpu.registers.stack[i].hl]: entry 0 is SPS, entry 1 is SPL. *)
Definition stack (i : bool) (r : eZ80registers_t) : Z :=
  if i then SPL r else SPS r.
Definition set_stack (i : bool) (v : Z) (r : eZ80registers_t) : eZ80registers_t :=
  if i then set_SPL (u24 v) r else set_SPS (u16 v) r.

Definition cpu_pop_byte : M Z :=
  l <- cget L ;;
  sp <- rget (stack l) ;;
  rset (set_stack l) (sp + 1) ;;
  cpu_read_byte sp.
Definition cpu_push_byte (value : Z) : M unit :=
  l <- cget L ;;
  sp <- rget (stack l) ;;
  rset (set_stack l) (sp - 1) ;;
  sp' <- rget (stack l) ;;
  cpu_write_byte sp' value.

Definition cpu_push_word (value : Z) : M unit :=
  l <- cget L ;;
  when l (cpu_push_byte (Z.shiftr value 16)) ;;
  cpu_push_byte (Z.shiftr value 8) ;;
  cpu_push_byte value.

Definition cpu_pop_word : M Z :=
  b0 <- cpu_pop_byte ;;
  b1 <- cpu_pop_byte ;;
  let value := Z.lor b0 (Z.shiftl b1 8) in
  l <- cget L ;;
  if l then b2 <- cpu_pop_byte ;; ret (Z.lor value (Z.shiftl b2 16))
  else ret value.

Definition cpu_read_in (pio : Z) : M Z := port_read_byte (u16 pio).
Definition cpu_write_out (pio value : Z) : M unit := port_write_byte (u16 pio) value.

Definition cpu_read_sp : M Z :=
  l <- cget L ;; rget (stack l).
Definition cpu_write_sp (value : Z) : M unit :=
  l <- cget L ;; rset (set_stack l) value.

(** [cpu.registers.index[i]]: 0 is HL, 2 is IX, 3 is IY (the values PREFIX
    takes); entry 1 is never selected by a reachable PREFIX and is taken to
    be HL'. *)
Definition index (i : Z) (r : eZ80registers_t) : Z :=
  match i with 0 => HL r | 1 => _HL r | 2 => IX r | _ => IY r end.
Definition set_index (i : Z) (v : Z) (r : eZ80registers_t) : eZ80registers_t :=
  match i with
  | 0 => set_HL (u24 v) r | 1 => set__HL (u24 v) r
  | 2 => set_IX (u24 v) r | _ => set_IY (u24 v) r
  end.

Definition cpu_read_index_low : M Z :=
  p <- cget PREFIX ;; rget (fun r => byte_l (index p r)).
Definition cpu_write_index_low (value : Z) : M unit :=
  p <- cget PREFIX ;; r <- rget id ;; rset (set_index p) (with_l (index p r) value).
Definition cpu_read_index_high : M Z :=
  p <- cget PREFIX ;; rget (fun r => byte_h (index p r)).
Definition cpu_write_index_high (value : Z) : M unit :=
  p <- cget PREFIX ;; r <- rget id ;; rset (set_index p) (with_h (index p r) value).
Definition cpu_read_index : M Z :=
  p <- cget PREFIX ;; rget (index p).
Definition cpu_write_index (value : Z) : M unit :=
  p <- cget PREFIX ;; rset (set_index p) value.
Definition cpu_read_other_index : M Z :=
  p <- cget PREFIX ;; rget (index (Z.lxor p 1)).
Definition cpu_write_other_index (value : Z) : M unit :=
  p <- cget PREFIX ;; rset (set_index (Z.lxor p 1)) value.

Definition cpu_index_address : M Z :=
  value <- cpu_read_index ;;
  p <- cget PREFIX ;;
  value <- (if truthy p then o <- cpu_fetch_offset ;; ret (value + o)
            else ret value) ;;
  l <- cget L ;;
  ret (cpu_mask_mode value l).

Definition cpu_read_reg (i : Z) : M Z :=
  match i with
  | 0 => rget B
  | 1 => rget C
  | 2 => rget D
  | 3 => rget E
  | 4 => cpu_read_index_high
  | 5 => cpu_read_index_low
  | 6 => a <- cpu_index_address ;; cpu_read_byte a
  | 7 => rget A
  | _ => abort
  end.
Definition cpu_write_reg (i : Z) (value : Z) : M unit :=
  match i with
  | 0 => rset set_B value
  | 1 => rset set_C value
  | 2 => rset set_D value
  | 3 => rset set_E value
  | 4 => cpu_write_index_high value
  | 5 => cpu_write_index_low value
  | 6 => a <- cpu_index_address ;; cpu_write_byte a value
  | 7 => rset set_A (u8 value)
  | _ => abort
  end.
Definition cpu_read_write_reg (read write : Z) : M unit :=
  old_prefix <- cget PREFIX ;;
  cset set_PREFIX (if negb (write =? 6) then old_prefix else 0) ;;
  value <- cpu_read_reg read ;;
  cset set_PREFIX (if negb (read =? 6) then old_prefix else 0) ;;
  cpu_write_reg write value.

Definition cpu_read_reg_prefetched (i : Z) (address : Z) : M Z :=
  match i with
  | 0 => rget B
  | 1 => rget C
  | 2 => rget D
  | 3 => rget E
  | 4 => cpu_read_index_high
  | 5 => cpu_read_index_low
  | 6 => cpu_read_byte address
  | 7 => rget A
  | _ => abort
  end.
Definition cpu_write_reg_prefetched (i : Z) (address : Z) (value : Z) : M unit :=
  match i with
  | 0 => rset set_B value
  | 1 => rset set_C value
  | 2 => rset set_D value
  | 3 => rset set_E value
  | 4 => cpu_write_index_high value
  | 5 => cpu_write_index_low value
  | 6 => cpu_write_byte address value
  | 7 => rset set_A (u8 value)
  | _ => abort
  end.

Definition cpu_read_rp (i : Z) : M Z :=
  value <- match i with
           | 0 => rget BC
           | 1 => rget DE
           | 2 => cpu_read_index
           | 3 => cpu_read_sp
           | _ => abort
           end ;;
  l <- cget L ;;
  ret (cpu_mask_mode value l).
Definition cpu_write_rp (i : Z) (value : Z) : M unit :=
  l <- cget L ;;
  let value := cpu_mask_mode value l in
  match i with
  | 0 => rset set_BC value
  | 1 => rset set_DE value
  | 2 => cpu_write_index value
  | 3 => cpu_write_sp value
  | _ => abort
  end.

Definition cpu_read_rp2 (i : Z) : M Z :=
  if i =? 3 then rget AF else cpu_read_rp i.
Definition cpu_write_rp2 (i : Z) (value : Z) : M unit :=
  if i =? 3 then rset set_AF value else cpu_write_rp i value.

Definition cpu_read_rp3 (i : Z) : M Z :=
  value <- match i with
           | 0 => rget BC
           | 1 => rget DE
           | 2 => rget HL
           | 3 => cpu_read_index
           | _ => abort
           end ;;
  l <- cget L ;;
  ret (cpu_mask_mode value l).
Definition cpu_write_rp3 (i : Z) (value : Z) : M unit :=
  l <- cget L ;;
  let value := cpu_mask_mode value l in
  match i with
  | 0 => rset set_BC value
  | 1 => rset set_DE value
  | 2 => rset set_HL value
  | 3 => cpu_write_index value
  | _ => abort
  end.

Definition cpu_read_cc (i : Z) : M bool :=
  match i with
  | 0 => rget (fun r => negb (flag FLAG_Z r))
  | 1 => rget (flag FLAG_Z)
  | 2 => rget (fun r => negb (flag FLAG_C r))
  | 3 => rget (flag FLAG_C)
  | 4 => rget (fun r => negb (flag FLAG_PV r))
  | 5 => rget (flag FLAG_PV)
  | 6 => rget (fun r => negb (flag FLAG_S r))
  | 7 => rget (flag FLAG_S)
  | _ => abort
  end.

(** ** DAA, calls and returns *)

(** C's [|] on flag bytes *)
Infix ".|" := Z.lor (at level 50, left associativity) : Z_scope.

Definition cpu_execute_daa : M unit :=
  r <- rget id ;;
  let old := A r in
  let v := 0 in
  let v := if (9 <? Z.land (A r) 0xF) || flag FLAG_H r then u8 (v + 6) else v in
  let v := if (9 <? Z.shiftr (A r + v) 4) || truthy (_flag_carry_b (A r + v))
              || flag FLAG_C r
           then u8 (v + 0x60) else v in
  if flag FLAG_N r then
    rset set_A (u8 (A r - v)) ;;
    a <- rget A ;;
    rset set_F (_flag_sign_b a .| _flag_zero a
                .| _flag_undef (F r) .| _flag_parity a
                .| _flag_subtract (flag FLAG_N r) .| __flag_c (0x60 <=? v)
                .| _flag_halfcarry_b_sub old v 0)
  else
    rset set_A (u8 (A r + v)) ;;
    a <- rget A ;;
    rset set_F (_flag_sign_b a .| _flag_zero a
                .| _flag_undef (F r) .| _flag_parity a
                .| _flag_subtract (flag FLAG_N r) .| __flag_c (0x60 <=? v)
                .| _flag_halfcarry_b_add old v 0).

Definition cpu_dec_bc_partial_mode : M Z :=
  bc <- rget BC ;;
  l <- cget L ;;
  let value := cpu_mask_mode (bc - 1) l in
  l <- cget L ;;
  (if l then rset set_BC value else rset set_BCS value) ;;
  ret value.

(** [--r->SPL], [--r->SPS], [r->SPL++] and [r->SPS++] as expressions: the
    register is updated and the value of the expression returned. *)
Definition predec (i : bool) : M Z :=
  sp <- rget (stack i) ;; rset (set_stack i) (sp - 1) ;; rget (stack i).
Definition postinc (i : bool) : M Z :=
  sp <- rget (stack i) ;; rset (set_stack i) (sp + 1) ;; ret sp.

Definition cpu_call (address : Z) (mixed : bool) : M unit :=
  (if mixed then
     adl <- cget ADL ;;
     when adl (a <- predec true ;; v <- rget PCU ;; cpu_write_byte a v) ;;
     il <- cget IL ;; l <- cget L ;; adl <- cget ADL ;;
     (if il || (l && negb adl) then
        a <- predec true ;; v <- rget PCH ;; cpu_write_byte a v ;;
        a <- predec true ;; v <- rget PCL ;; cpu_write_byte a v
      else
        a <- predec false ;; v <- rget PCH ;; cpu_write_byte a v ;;
        a <- predec false ;; v <- rget PCL ;; cpu_write_byte a v) ;;
     a <- predec true ;;
     madl <- cget MADL ;; adl <- cget ADL ;;
     cpu_write_byte a (Z.lor (Z.shiftl (Z.b2z madl) 1) (Z.b2z adl))
   else
     pc <- rget PC ;; cpu_push_word pc) ;;
  il <- cget IL ;;
  cpu_prefetch address il.

Definition cpu_return : M unit :=
  mode <- cget ADL ;;
  add_cycles 1 ;;
  suffix <- cget SUFFIX ;;
  ' (address, mode) <-
    (if suffix then
       a <- postinc true ;; b <- cpu_read_byte a ;;
       let mode := Z.testbit b 0 in
       adl <- cget ADL ;;
       address <-
         (if adl then
            a <- postinc true ;; b0 <- cpu_read_byte a ;;
            a <- postinc true ;; b1 <- cpu_read_byte a ;;
            ret (Z.lor b0 (Z.shiftl b1 8))
          else
            a <- postinc false ;; b0 <- cpu_read_byte a ;;
            a <- postinc false ;; b1 <- cpu_read_byte a ;;
            ret (Z.lor b0 (Z.shiftl b1 8))) ;;
       (if mode then
          a <- postinc true ;; b2 <- cpu_read_byte a ;;
          adl <- cget ADL ;; l <- cget L ;;
          ret (Z.lor address (cpu_mask_mode (Z.shiftl b2 16) (adl || l)), mode)
        else ret (address, mode))
     else
       address <- cpu_pop_word ;; ret (address, mode)) ;;
  cpu_prefetch address mode.

(** ** ALU, rotates and shifts *)

(** [r->flags.C] and the like read as an integer *)
Definition flagz (m : Z) (r : eZ80registers_t) : Z := Z.b2z (flag m r).

Definition cpu_execute_alu (i : Z) (v : Z) : M unit :=
  r <- rget id ;;
  match i with
  | 0 => (* ADD A, v *)
      add_cycles 1 ;;
      let old := A r in
      let a := u8 (A r + v) in
      rset set_A a ;;
      rset set_F (_flag_sign_b a .| _flag_zero a
                  .| _flag_undef (F r) .| _flag_overflow_b_add old v a
                  .| _flag_subtract false .| _flag_carry_b (old + v)
                  .| _flag_halfcarry_b_add old v 0)
  | 1 => (* ADC A, v *)
      add_cycles 1 ;;
      let old := A r in
      let a := u8 (A r + (v + flagz FLAG_C r)) in
      rset set_A a ;;
      rset set_F (_flag_sign_b a .| _flag_zero a
                  .| _flag_undef (F r) .| _flag_overflow_b_add old v a
                  .| _flag_subtract false .| _flag_carry_b (old + v + flagz FLAG_C r)
                  .| _flag_halfcarry_b_add old v (flagz FLAG_C r))
  | 2 => (* SUB v *)
      add_cycles 1 ;;
      let old := A r in
      let a := u8 (A r - v) in
      rset set_A a ;;
      rset set_F (_flag_sign_b a .| _flag_zero a
                  .| _flag_undef (F r) .| _flag_overflow_b_sub old v a
                  .| _flag_subtract true .| _flag_carry_b (old - v)
                  .| _flag_halfcarry_b_sub old v 0)
  | 3 => (* SBC v *)
      add_cycles 1 ;;
      let old := A r in
      let a := u8 (A r - (v + flagz FLAG_C r)) in
      rset set_A a ;;
      rset set_F (_flag_sign_b a .| _flag_zero a
                  .| _flag_undef (F r) .| _flag_overflow_b_sub old v a
                  .| _flag_subtract true .| _flag_carry_b (old - v - flagz FLAG_C r)
                  .| _flag_halfcarry_b_sub old v (flagz FLAG_C r))
  | 4 => (* AND v *)
      add_cycles 1 ;;
      let a := Z.land (A r) v in
      rset set_A a ;;
      rset set_F (_flag_sign_b a .| _flag_zero a
                  .| _flag_undef (F r) .| _flag_parity a
                  .| FLAG_H)
  | 5 => (* XOR v *)
      add_cycles 1 ;;
      let a := Z.lxor (A r) v in
      rset set_A a ;;
      rset set_F (_flag_sign_b a .| _flag_zero a
                  .| _flag_undef (F r) .| _flag_parity a)
  | 6 => (* OR v *)
      add_cycles 1 ;;
      let a := Z.lor (A r) v in
      rset set_A a ;;
      rset set_F (_flag_sign_b a .| _flag_zero a
                  .| _flag_undef (F r) .| _flag_parity a)
  | 7 => (* CP v *)
      add_cycles 1 ;;
      let old := u8 (A r - v) in
      rset set_F (_flag_sign_b old .| _flag_zero old
                  .| _flag_undef (F r) .| _flag_subtract true
                  .| _flag_carry_b (A r - v)
                  .| _flag_overflow_b_sub (A r) v old
                  .| _flag_halfcarry_b_sub (A r) v 0)
  | _ => ret tt
  end.

(** [cpu.IEF_wait = 1], the statement behind every [// OPCODETRAP]. *)
Definition opcode_trap : M unit := cset set_IEF_wait true.

Definition cpu_execute_rot (y z address value : Z) : M unit :=
  r <- rget id ;;
  let old_7 := Z.b2z (truthy (Z.land value 0x80)) in
  let old_0 := Z.b2z (truthy (Z.land value 0x01)) in
  let old_c := flagz FLAG_C r in
  let finish (value new_c : Z) : M unit :=
    cpu_write_reg_prefetched z address value ;;
    f <- rget F ;;
    rset set_F (__flag_c (truthy new_c) .| _flag_sign_b value .| _flag_parity value
                .| _flag_undef f .| _flag_zero value) in
  match y with
  | 0 => (* RLC value[z] *)
      add_cycles 2 ;;
      finish (u8 (Z.shiftl value 1) .| old_7) old_7
  | 1 => (* RRC value[z] *)
      add_cycles 2 ;;
      finish (u8 (Z.shiftr value 1 .| Z.shiftl old_0 7)) old_0
  | 2 => (* RL value[z] *)
      add_cycles 2 ;;
      finish (u8 (Z.shiftl value 1) .| old_c) old_7
  | 3 => (* RR value[z] *)
      add_cycles 2 ;;
      finish (u8 (Z.shiftr value 1 .| Z.shiftl old_c 7)) old_0
  | 4 => (* SLA value[z] *)
      add_cycles 2 ;;
      finish (u8 (Z.shiftl value 1)) old_7
  | 5 => (* SRA value[z] *)
      add_cycles 2 ;;
      finish (u8 (Z.shiftr value 1 .| Z.shiftl old_7 7)) old_0
  | 6 => (* OPCODETRAP *)
      opcode_trap
  | 7 => (* SRL value[z] *)
      add_cycles 2 ;;
      finish (u8 (Z.shiftr value 1)) old_0
  | _ => abort
  end.

Definition cpu_execute_rot_acc (y : Z) : M unit :=
  r <- rget id ;;
  match y with
  | 0 => (* RLCA *)
      add_cycles 1 ;;
      let old := Z.b2z (0 <? Z.land (A r) 0x80) in
      rset (set_flag FLAG_C) (truthy old) ;;
      rset set_A (u8 (Z.shiftl (A r) 1) .| old) ;;
      rset (set_flag FLAG_H) false ;; rset (set_flag FLAG_N) false
  | 1 => (* RRCA *)
      add_cycles 1 ;;
      let old := Z.b2z (0 <? Z.land (A r) 1) in
      rset (set_flag FLAG_C) (truthy old) ;;
      rset set_A (u8 (Z.shiftr (A r) 1 .| Z.shiftl old 7)) ;;
      rset (set_flag FLAG_H) false ;; rset (set_flag FLAG_N) false
  | 2 => (* RLA *)
      add_cycles 1 ;;
      let old := flagz FLAG_C r in
      rset (set_flag FLAG_C) (0 <? Z.land (A r) 0x80) ;;
      rset set_A (u8 (Z.shiftl (A r) 1) .| old) ;;
      rset (set_flag FLAG_H) false ;; rset (set_flag FLAG_N) false
  | 3 => (* RRA *)
      add_cycles 1 ;;
      let old := flagz FLAG_C r in
      rset (set_flag FLAG_C) (0 <? Z.land (A r) 1) ;;
      rset set_A (u8 (Z.shiftr (A r) 1 .| Z.shiftl old 7)) ;;
      rset (set_flag FLAG_H) false ;; rset (set_flag FLAG_N) false
  | 4 => (* DAA *)
      add_cycles 1 ;;
      cpu_execute_daa
  | 5 => (* CPL *)
      add_cycles 1 ;;
      rset set_A (u8 (Z.lnot (A r))) ;;
      rset (set_flag FLAG_H) true ;; rset (set_flag FLAG_N) true
  | 6 => (* SCF *)
      add_cycles 1 ;;
      rset (set_flag FLAG_C) true ;;
      rset (set_flag FLAG_H) false ;; rset (set_flag FLAG_N) false
  | 7 => (* CCF *)
      add_cycles 1 ;;
      rset (set_flag FLAG_H) (flag FLAG_C r) ;;
      rset (set_flag FLAG_C) (negb (flag FLAG_C r)) ;;
      rset (set_flag FLAG_N) false
  | _ => ret tt
  end.

(** ** Block instructions *)

(** [r->X++] or [r->X--] on a 24-bit register, then the statement macro
    [mask_mode(r->X, cpu.L)].  Modelled from the spec: the macro is declared
    outside the sources; it masks the register in place to the mode width. *)
Definition step (get : eZ80registers_t -> Z)
    (set : Z -> eZ80registers_t -> eZ80registers_t) (d : Z) : M unit :=
  v <- rget get ;; rset set (u24 (v + d)).
Definition mask_mode (get : eZ80registers_t -> Z)
    (set : Z -> eZ80registers_t -> eZ80registers_t) : M unit :=
  v <- rget get ;; l <- cget L ;; rset set (cpu_mask_mode v l).
(** [r->HL++; mask_mode(r->HL, cpu.L);] and its siblings *)
Definition step_HL (d : Z) : M unit := step HL set_HL d ;; mask_mode HL set_HL.
Definition step_DE (d : Z) : M unit := step DE set_DE d ;; mask_mode DE set_DE.
Definition step_BC (d : Z) : M unit := step BC set_BC d ;; mask_mode BC set_BC.
(** [r->C++], [r->C--], [r->B--] *)
Definition step_C (d : Z) : M unit := c <- rget C ;; rset set_C (c + d).
Definition step_B (d : Z) : M unit := b <- rget B ;; rset set_B (b + d).

(** [r->F = _flag_sign_b(r->B) | _flag_zero(r->B)
          | _flag_halfcarry_b_sub(old, 0, 1)
          | _flag_subtract(_flag_sign_b(new)) | _flag_undef(r->F);] *)
Definition bli_flags_m (old new : Z) : M unit :=
  r <- rget id ;;
  rset set_F (_flag_sign_b (B r) .| _flag_zero (B r)
              .| _flag_halfcarry_b_sub old 0 1
              .| _flag_subtract (truthy (_flag_sign_b new)) .| _flag_undef (F r)).
(** [r->flags.Z = _flag_zero(x) != 0; r->flags.N = _flag_sign_b(new) != 0;] *)
Definition bli_flags_zn (x new : Z) : M unit :=
  rset (set_flag FLAG_Z) (truthy (_flag_zero x)) ;;
  rset (set_flag FLAG_N) (truthy (_flag_sign_b new)).
(** the flags of CPI, CPD, CPIR and CPDR *)
Definition bli_flags_cp (old new : Z) : M unit :=
  r <- rget id ;;
  rset set_F (_flag_sign_b new .| _flag_zero new
              .| _flag_halfcarry_b_sub (A r) old 0 .| __flag_pv (truthy (BC r))
              .| _flag_subtract true .| __flag_c (flag FLAG_C r)
              .| _flag_undef (F r)).
(** [r->flags.PV = r->BC != 0; r->flags.N = 0;] *)
Definition bli_flags_ld : M unit :=
  bc <- rget BC ;;
  rset (set_flag FLAG_PV) (negb (bc =? 0)) ;;
  rset (set_flag FLAG_N) false.
(** [cpu_prefetch(r->PC - 2 - cpu.SUFFIX, cpu.ADL);] *)
Definition bli_repeat : M unit :=
  pc <- rget PC ;; suffix <- cget SUFFIX ;; adl <- cget ADL ;;
  cpu_prefetch (pc - 2 - Z.b2z suffix) adl.

(** [cpu_write_byte(r->HL, new = cpu_read_in(port))] *)
Definition bli_in (port : eZ80registers_t -> Z) : M Z :=
  hl <- rget HL ;; p <- rget port ;;
  new <- cpu_read_in p ;; cpu_write_byte hl new ;; ret new.
(** [cpu_write_out(port, new = cpu_read_byte(r->HL))] *)
Definition bli_out (port : eZ80registers_t -> Z) : M Z :=
  p <- rget port ;; hl <- rget HL ;;
  new <- cpu_read_byte hl ;; cpu_write_out p new ;; ret new.

(** [old] and [new] are [uint8_t]: the value [cpu_dec_bc_partial_mode]
    returns is truncated when it is assigned to [old]. *)
Definition cpu_execute_bli (y z : Z) : M unit :=
  (* INIM, INDM, OTIM, OTDM: d is the direction *)
  let inm (d : Z) :=
    add_cycles 1 ;;
    new <- bli_in C ;;
    step_HL d ;; step_C d ;;
    old <- rget B ;; step_B (-1) ;;
    bli_flags_m old new in
  let otm (d : Z) :=
    add_cycles 1 ;;
    new <- bli_out C ;;
    step_HL d ;; step_C d ;;
    old <- rget B ;; step_B (-1) ;;
    bli_flags_m old new in
  (* INI2, IND2 *)
  let in2 (d : Z) :=
    add_cycles 1 ;;
    new <- bli_in BC ;;
    step_HL d ;; step_C d ;; step_B (-1) ;;
    b <- rget B ;; bli_flags_zn b new in
  (* INIMR, INDMR *)
  let inmr (d : Z) :=
    add_cycles 1 ;;
    new <- bli_in C ;;
    step_HL d ;; step_C d ;; step_B (-1) ;;
    b <- rget B ;; bli_flags_zn b new ;;
    b <- rget B ;; when (truthy b) bli_repeat in
  (* OTIMR, OTDMR *)
  let otmr (d : Z) :=
    add_cycles 1 ;;
    new <- bli_out C ;;
    step_HL d ;; step_C d ;;
    old <- rget B ;; step_B (-1) ;;
    bli_flags_m old new ;;
    b <- rget B ;; when (truthy b) bli_repeat in
  (* INI2R, IND2R *)
  let in2r (d : Z) :=
    add_cycles 1 ;;
    new <- bli_in DE ;;
    step_HL d ;; step_DE d ;;
    v <- cpu_dec_bc_partial_mode ;; (* Do not mask BC *)
    let old := u8 v in
    bli_flags_zn old new ;;
    when (truthy old) bli_repeat in
  (* OTI2R, OTD2R *)
  let ot2r (d : Z) :=
    add_cycles 1 ;;
    new <- bli_out DE ;;
    step_HL d ;; step_DE d ;;
    v <- cpu_dec_bc_partial_mode ;; (* Do not mask BC *)
    let old := u8 v in
    bli_flags_zn old new ;;
    when (truthy old) bli_repeat in
  (* INI, IND and OUTI, OUTD *)
  let ini (d : Z) :=
    add_cycles 1 ;;
    new <- bli_in BC ;;
    step_HL d ;; step_B (-1) ;;
    b <- rget B ;; bli_flags_zn b new in
  let outi (d : Z) :=
    add_cycles 1 ;;
    new <- bli_out BC ;;
    step_HL d ;; step_B (-1) ;;
    b <- rget B ;; bli_flags_zn b new in
  (* OUTI2, OUTD2 *)
  let out2 (d : Z) :=
    add_cycles 1 ;;
    new <- bli_out BC ;;
    step_HL d ;; step_C d ;; step_B (-1) ;;
    b <- rget B ;; bli_flags_zn b new in
  (* LDI, LDD, LDDR up to the repeat test *)
  let ldi (d : Z) :=
    add_cycles 1 ;;
    hl <- rget HL ;; old <- cpu_read_byte hl ;;
    step_HL d ;;
    de <- rget DE ;; cpu_write_byte de old ;;
    step_DE d ;; step_BC (-1) ;;
    bli_flags_ld in
  (* CPI, CPD (which add no cycle), CPIR, CPDR up to the repeat test *)
  let cpi (d : Z) :=
    hl <- rget HL ;; old <- cpu_read_byte hl ;;
    step_HL d ;; step_BC (-1) ;;
    a <- rget A ;;
    bli_flags_cp old (u8 (a - old)) in
  let cpir (d : Z) :=
    add_cycles 1 ;;
    cpi d ;;
    r <- rget id ;;
    when (truthy (BC r) && negb (flag FLAG_Z r)) (add_cycles 1 ;; bli_repeat) in
  (* INIR, INDR and OTIR, OTDR *)
  let inir (d : Z) :=
    ini d ;; b <- rget B ;; when (truthy b) bli_repeat in
  let otir (d : Z) :=
    outi d ;; b <- rget B ;; when (truthy b) bli_repeat in
  match y with
  | 0 => match z with
         | 2 => inm 1      (* INIM *)
         | 3 => otm 1      (* OTIM *)
         | 4 => in2 1      (* INI2 *)
         | _ => ret tt
         end
  | 1 => match z with
         | 2 => inm (-1)   (* INDM *)
         | 3 => otm (-1)   (* OTDM *)
         | 4 => in2 (-1)   (* IND2 *)
         | _ => ret tt
         end
  | 2 => match z with
         | 2 => inmr 1     (* INIMR *)
         | 3 => otmr 1     (* OTIMR *)
         | 4 => in2r 1     (* INI2R *)
         | _ => ret tt
         end
  | 3 => match z with
         | 2 => inmr (-1)  (* INDMR *)
         | 3 => otmr (-1)  (* OTDMR *)
         | 4 => in2r (-1)  (* IND2R *)
         | _ => ret tt
         end
  | 4 => match z with
         | 0 => ldi 1      (* LDI *)
         | 1 => cpi 1      (* CPI *)
         | 2 => ini 1      (* INI *)
         | 3 => outi 1     (* OUTI *)
         | 4 => out2 1     (* OUTI2 *)
         | _ => ret tt
         end
  | 5 => match z with
         | 0 => ldi (-1)   (* LDD *)
         | 1 => cpi (-1)   (* CPD *)
         | 2 => ini (-1)   (* IND *)
         | 3 => outi (-1)  (* OUTD *)
         | 4 => out2 (-1)  (* OUTD2 *)
         | _ => ret tt
         end
  | 6 => match z with
         | 0 => (* LDIR *)
             add_cycles 1 ;;
             hl <- rget HL ;; old <- cpu_read_byte hl ;;
             de <- rget DE ;; cpu_write_byte de old ;;
             step_HL 1 ;; step_DE 1 ;; step_BC (-1) ;;
             bli_flags_ld ;;
             bc <- rget BC ;; when (truthy bc) bli_repeat
         | 1 => cpir 1     (* CPIR *)
         | 2 => inir 1     (* INIR *)
         | 3 => otir 1     (* OTIR *)
         | 4 => ot2r 1     (* OTI2R *)
         | _ => ret tt
         end
  | 7 => match z with
         | 0 => (* LDDR *)
             ldi (-1) ;;
             bc <- rget BC ;; when (truthy bc) bli_repeat
         | 1 => cpir (-1)  (* CPDR *)
         | 2 => inir (-1)  (* INDR *)
         | 3 => otir (-1)  (* OTDR *)
         | 4 => ot2r (-1)  (* OTD2R *)
         | _ => ret tt
         end
  | _ => ret tt
  end.

(** ** The interpreter loop *)

(** The bit fields of the [context] union. *)
Definition ctx_x (opcode : Z) : Z := Z.land (Z.shiftr opcode 6) 3.
Definition ctx_y (opcode : Z) : Z := Z.land (Z.shiftr opcode 3) 7.
Definition ctx_z (opcode : Z) : Z := Z.land opcode 7.
Definition ctx_p (opcode : Z) : Z := Z.land (Z.shiftr opcode 4) 3.
Definition ctx_q (opcode : Z) : Z := Z.land (Z.shiftr opcode 3) 1.

Definition EVENT_DEBUG_STEP : Z := 2.

(** How an opcode's case leaves the big [switch]: by [break] (falling out
    of the switch to the boundary code), by [goto exit_loop] (prefix and
    suffix bytes), or by [continue] (EI), which carries the value EI has
    assigned to the local [cycle_offset]. *)
Inductive flow : Type :=
  | Break
  | Goto_exit_loop
  | Continue (cycle_offset : Z).

Definition u32 (x : Z) : Z := Z.land x 0xFFFFFFFF.

(** Modelled from the spec: [rswap] and [exx] are declared outside the
    sources; they are the EX AF,AF', EX DE,HL and EXX swaps. *)
Definition rswap_AF : M unit :=
  r <- rget id ;; rset set_AF (_AF r) ;; rset set__AF (AF r).
Definition rswap_HL_DE : M unit :=
  r <- rget id ;; rset set_HL (DE r) ;; rset set_DE (HL r).
Definition exx : M unit :=
  r <- rget id ;;
  rset set_BC (_BC r) ;; rset set__BC (BC r) ;;
  rset set_DE (_DE r) ;; rset set__DE (DE r) ;;
  rset set_HL (_HL r) ;; rset set__HL (HL r).

(** [memset(mem.flash.block + base, 0xFF, 0x4000)].  Modelled from the spec:
    the flash array is declared outside the sources; the erase writes 0xFF
    across the sector [base, base + 0x4000). *)
Definition flash_erase (base : Z) (s : machine) : machine :=
  set_mem (fun a => if (base <=? a) && (a <? base + 0x4000) then 0xFF else mem s a) s.

(** [cpu_prefetch(cpu_mask_mode(r->PC + s, cpu.L), cpu.ADL);] *)
Definition jump_relative (s : Z) : M unit :=
  pc <- rget PC ;; l <- cget L ;; adl <- cget ADL ;;
  cpu_prefetch (cpu_mask_mode (pc + s) l) adl.

(** The 0xCB prefixed opcodes *)
Definition execute_cb : M unit :=
  w <- cpu_index_address ;;
  opcode <- cpu_fetch_byte ;;
  let x := ctx_x opcode in
  let y := ctx_y opcode in
  let z := ctx_z opcode in
  old <- cpu_read_reg_prefetched z w ;;
  match x with
  | 0 => (* rot[y] r[z] *)
      cpu_execute_rot y z w old
  | 1 => (* BIT y, r[z] *)
      add_cycles 2 ;;
      let old := Z.land old (Z.shiftl 1 y) in
      r <- rget id ;;
      rset set_F (_flag_sign_b old .| _flag_zero old .| _flag_undef (F r)
                  .| _flag_parity old .| __flag_c (flag FLAG_C r)
                  .| FLAG_H)
  | 2 => (* RES y, r[z] *)
      add_cycles 2 ;;
      let old := u8 (Z.land old (Z.lnot (Z.shiftl 1 y))) in
      cpu_write_reg_prefetched z w old
  | _ => (* SET y, r[z] *)
      add_cycles 2 ;;
      let old := u8 (Z.lor old (Z.shiftl 1 y)) in
      cpu_write_reg_prefetched z w old
  end.

(** [r->F = _flag_sign_b(new) | _flag_zero(new) | _flag_undef(r->F)
          | _flag_parity(new) | __flag_c(r->flags.C);] *)
Definition flags_in (new : Z) : M unit :=
  r <- rget id ;;
  rset set_F (_flag_sign_b new .| _flag_zero new
              .| _flag_undef (F r) .| _flag_parity new
              .| __flag_c (flag FLAG_C r)).
(** [r->F = _flag_sign_b(new) | _flag_zero(new) | _flag_undef(r->F)
          | _flag_parity(new) | FLAG_H;] *)
Definition flags_tst (new : Z) : M unit :=
  r <- rget id ;;
  rset set_F (_flag_sign_b new .| _flag_zero new
              .| _flag_undef (F r) .| _flag_parity new
              .| FLAG_H).

(** The eZ80 block instructions decoded on the whole opcode (ED, x = 3). *)
Definition execute_bli_rx (input : bool) (d : Z) : M unit :=
  add_cycles 1 ;;
  new <- (if input then bli_in DE else bli_out DE) ;;
  step_HL d ;;
  v <- cpu_dec_bc_partial_mode ;; (* Do not mask BC *)
  let old := u8 v in
  bli_flags_zn old new ;;
  when (truthy old) bli_repeat.

(** The 0xED prefixed opcodes, after [cpu.cycles += 1; cpu.PREFIX = 0;]
    and the fetch of the second opcode byte. *)
Definition execute_ed (opcode : Z) : M unit :=
  let x := ctx_x opcode in
  let y := ctx_y opcode in
  let z := ctx_z opcode in
  let p := ctx_p opcode in
  let q := ctx_q opcode in
  match x with
  | 0 =>
      match z with
      | 0 =>
          if y =? 6 then (* OPCODETRAP *)
            opcode_trap
          else (* IN0 r[y], (n) *)
            add_cycles 2 ;;
            n <- cpu_fetch_byte ;;
            new <- cpu_read_in n ;;
            cpu_write_reg y new ;;
            flags_in new
      | 1 =>
          if y =? 6 then (* LD IY, (HL) *)
            add_cycles 5 ;;
            hl <- rget HL ;; w <- cpu_read_word hl ;; rset set_IY w
          else (* OUT0 (n), r[y] *)
            add_cycles 2 ;;
            n <- cpu_fetch_byte ;;
            v <- cpu_read_reg y ;;
            cpu_write_out n v
      | 2 | 3 => (* LEA rp3[p], IX / IY *)
          if truthy q then (* OPCODETRAP *)
            opcode_trap
          else
            add_cycles 3 ;;
            cset set_PREFIX z ;;
            a <- cpu_index_address ;;
            cpu_write_rp3 p a
      | 4 => (* TST A, r[y] *)
          add_cycles 2 ;;
          v <- cpu_read_reg y ;;
          a <- rget A ;;
          flags_tst (Z.land a v)
      | 6 =>
          if y =? 7 then (* LD (HL), IY *)
            add_cycles 5 ;;
            r <- rget id ;; cpu_write_word (HL r) (IY r)
          else (* falls into case 5: OPCODETRAP *)
            opcode_trap
      | 5 => (* OPCODETRAP *)
          opcode_trap
      | _ => (* case 7 *)
          cset set_PREFIX 2 ;;
          if truthy q then (* LD (HL), rp3[p] *)
            add_cycles 5 ;;
            hl <- rget HL ;; v <- cpu_read_rp3 p ;; cpu_write_word hl v
          else (* LD rp3[p], (HL) *)
            add_cycles 5 ;;
            hl <- rget HL ;; v <- cpu_read_word hl ;; cpu_write_rp3 p v
      end
  | 1 =>
      match z with
      | 0 =>
          if y =? 6 then (* OPCODETRAP (ADL) *)
            opcode_trap
          else (* IN r[y], (BC) *)
            add_cycles 3 ;;
            bc <- rget BC ;;
            new <- cpu_read_in bc ;;
            cpu_write_reg y new ;;
            flags_in new
      | 1 =>
          if y =? 6 then (* OPCODETRAP (ADL) *)
            opcode_trap
          else (* OUT (BC), r[y] *)
            add_cycles 3 ;;
            bc <- rget BC ;;
            v <- cpu_read_reg y ;;
            cpu_write_out bc v
      | 2 =>
          hl <- rget HL ;; l <- cget L ;;
          let old_word := cpu_mask_mode hl l in
          v <- cpu_read_rp p ;; l <- cget L ;;
          let op_word := cpu_mask_mode v l in
          r <- rget id ;;
          let c := flagz FLAG_C r in
          if q =? 0 then (* SBC HL, rp[p] *)
            add_cycles 2 ;;
            let hl := cpu_mask_mode (old_word - op_word - c) l in
            rset set_HL hl ;;
            rset set_F (_flag_sign_w hl l .| _flag_zero hl
                        .| _flag_undef (F r) .| _flag_overflow_w_sub old_word op_word hl l
                        .| _flag_subtract true .| _flag_carry_w (old_word - op_word - c) l
                        .| _flag_halfcarry_w_sub old_word op_word c)
          else (* ADC HL, rp[p] *)
            add_cycles 2 ;;
            let hl := cpu_mask_mode (old_word + op_word + c) l in
            rset set_HL hl ;;
            rset set_F (_flag_sign_w hl l .| _flag_zero hl
                        .| _flag_undef (F r) .| _flag_overflow_w_add old_word op_word hl l
                        .| _flag_subtract false .| _flag_carry_w (old_word + op_word + c) l
                        .| _flag_halfcarry_w_add old_word op_word c)
      | 3 =>
          if q =? 0 then (* LD (nn), rp[p] *)
            add_cycles 8 ;;
            a <- cpu_fetch_word ;; v <- cpu_read_rp p ;; cpu_write_word a v
          else (* LD rp[p], (nn) *)
            add_cycles 8 ;;
            a <- cpu_fetch_word ;; v <- cpu_read_word a ;; cpu_write_rp p v
      | 4 =>
          if q =? 0 then
            match p with
            | 0 => (* NEG *)
                add_cycles 2 ;;
                r <- rget id ;;
                let old := A r in
                let a := u8 (- A r) in
                rset set_A a ;;
                rset set_F (_flag_sign_b a .| _flag_zero a
                            .| _flag_undef (F r) .| __flag_pv (old =? 0x80)
                            .| _flag_subtract true .| __flag_c (negb (old =? 0))
                            .| _flag_halfcarry_b_sub 0 old 0)
            | 1 => (* LEA IX, IY + d *)
                add_cycles 3 ;;
                cset set_PREFIX 3 ;;
                a <- cpu_index_address ;; rset set_IX a
            | 2 => (* TST A, n *)
                add_cycles 2 ;;
                a <- rget A ;; n <- cpu_fetch_byte ;;
                flags_tst (Z.land a n)
            | _ => (* TSTIO n *)
                add_cycles 2 ;;
                c <- rget C ;; v <- cpu_read_in c ;; n <- cpu_fetch_byte ;;
                flags_tst (Z.land v n)
            end
          else (* MLT rp[p] *)
            add_cycles 4 ;;
            old_word <- cpu_read_rp p ;;
            let new_word := Z.land old_word 0xFF * Z.land (Z.shiftr old_word 8) 0xFF in
            cpu_write_rp p new_word
      | 5 =>
          match y with
          | 0 (* RETN *) | 1 => (* RETI *)
              add_cycles 7 ;;
              ief2 <- cget IEF2 ;; cset set_IEF1 ief2 ;;
              cpu_return
          | 2 => (* LEA IY, IX + d *)
              add_cycles 3 ;;
              cset set_PREFIX 2 ;;
              a <- cpu_index_address ;; rset set_IY a
          | 3 | 6 => (* OPCODETRAP *)
              opcode_trap
          | 4 => (* PEA IX + d *)
              add_cycles 6 ;;
              ix <- rget IX ;; o <- cpu_fetch_offset ;;
              cpu_push_word (u32 (ix + o))
          | 5 => (* LD MB, A *)
              add_cycles 2 ;;
              adl <- cget ADL ;;
              when adl (a <- rget A ;; rset set_MBASE a)
          | _ => (* STMIX *)
              add_cycles 2 ;;
              cset set_MADL true
          end
      | 6 => (* IM im[y] *)
          match y with
          | 0 | 2 | 3 => (* IM im[y] *)
              add_cycles 2 ;;
              cset set_IM y
          | 1 => (* OPCODETRAP *)
              opcode_trap
          | 4 => (* PEA IY + d *)
              add_cycles 6 ;;
              iy <- rget IY ;; o <- cpu_fetch_offset ;;
              cpu_push_word (u32 (iy + o))
          | 5 => (* LD A, MB *)
              add_cycles 2 ;;
              mb <- rget MBASE ;; rset set_A mb
          | 6 => (* SLP -- NOT IMPLEMENTED *)
              add_cycles 1
          | _ => (* RSMIX *)
              add_cycles 2 ;;
              cset set_MADL false
          end
      | _ => (* case 7 *)
          match y with
          | 0 => (* LD I, A *)
              add_cycles 2 ;;
              r <- rget id ;;
              rset set_I_reg (A r .| Z.land (I_reg r) 0xF0)
          | 1 => (* LD R, A *)
              add_cycles 2 ;;
              a <- rget A ;; rset set_R a
          | 2 => (* LD A, I *)
              add_cycles 2 ;;
              r <- rget id ;; ief1 <- cget IEF1 ;;
              let a := Z.land (I_reg r) 0x0F in
              rset set_A a ;;
              rset set_F (_flag_sign_b a .| _flag_zero a
                          .| _flag_undef (F r) .| __flag_pv ief1
                          .| _flag_subtract false .| __flag_c (flag FLAG_C r))
          | 3 => (* LD A, R *)
              add_cycles 2 ;;
              r <- rget id ;; ief1 <- cget IEF1 ;;
              let a := R r in
              rset set_A a ;;
              rset set_F (_flag_sign_b a .| _flag_zero a
                          .| _flag_undef (F r) .| __flag_pv ief1
                          .| _flag_subtract false .| __flag_c (flag FLAG_C r))
          | 4 => (* RRD *)
              add_cycles 5 ;;
              r <- rget id ;;
              let old := A r in
              new <- cpu_read_byte (HL r) ;;
              let a := Z.land (A r) 0xF0 .| Z.land new 0x0F in
              rset set_A a ;;
              let new := u8 (Z.shiftr new 4 .| Z.shiftl old 4) in
              cpu_write_byte (HL r) new ;;
              rset set_F (__flag_c (flag FLAG_C r) .| _flag_sign_b a .| _flag_zero a
                          .| _flag_parity a .| _flag_undef (F r))
          | 5 => (* RLD *)
              add_cycles 5 ;;
              r <- rget id ;;
              let old := A r in
              new <- cpu_read_byte (HL r) ;;
              let a := Z.land (A r) 0xF0 .| Z.shiftr new 4 in
              rset set_A a ;;
              let new := u8 (Z.shiftl new 4) .| Z.land old 0x0F in
              cpu_write_byte (HL r) new ;;
              rset set_F (__flag_c (flag FLAG_C r) .| _flag_sign_b a .| _flag_zero a
                          .| _flag_parity a .| _flag_undef (F r))
          | _ => (* OPCODETRAP *)
              opcode_trap
          end
      end
  | 2 =>
      if (0 <=? y) && (z <=? 4) then (* bli[y,z] *)
        cpu_execute_bli y z
      else (* OPCODETRAP *)
        opcode_trap
  | _ => (* case 3 *)
      match opcode with
      | 0xC2 => execute_bli_rx true 1       (* INIRX *)
      | 0xC3 => execute_bli_rx false 1      (* OTIRX *)
      | 0xC7 => (* LD I, HL *)
          add_cycles 2 ;;
          hl <- rget HL ;; rset set_I_reg (Z.land hl 0xFFFF)
      | 0xD7 => (* LD HL, I *)
          add_cycles 2 ;;
          r <- rget id ;; rset set_HL (I_reg r .| Z.shiftl (MBASE r) 16)
      | 0xCA => execute_bli_rx true (-1)    (* INDRX *)
      | 0xCB => execute_bli_rx false (-1)   (* OTDRX *)
      | 0xEE => (* flash erase *)
          hl <- rget HL ;;
          let base := Z.land hl (Z.lnot 0x3FFF) in
          modify (flash_erase base)
      | _ => (* OPCODETRAP *)
          opcode_trap
      end
  end.

(** The case of EI, up to its [continue] *)
Definition execute_ei : M flow :=
  cset set_IEF_wait true ;;
  c <- cget cycles ;; add_delta c ;;
  delta <- gets cycle_count_delta ;;
  let cycle_offset := delta + 1 in
  modify (set_cycle_count_delta (-1)) ;; (* execute one more instruction *)
  ret (Continue cycle_offset).

(** [if (cycle_count_delta + cpu.cycles < 0) cpu.cycles = -cycle_count_delta;]
    of HALT *)
Definition halt_cycles : M unit :=
  modify (fun s =>
    if cycle_count_delta s + cycles (cpu s) <? 0
    then upd_cpu (set_cycles (- cycle_count_delta s)) s else s).

(** The body of the [switch (context.x)] of [cpu_execute], for the first
    opcode byte of a loop iteration. *)
Definition execute_opcode (opcode : Z) : M flow :=
  let x := ctx_x opcode in
  let y := ctx_y opcode in
  let z := ctx_z opcode in
  let p := ctx_p opcode in
  let q := ctx_q opcode in
  match x with
  | 0 =>
      match z with
      | 0 =>
          match y with
          | 0 => (* NOP *)
              add_cycles 1 ;; ret Break
          | 1 => (* EX af,af' *)
              add_cycles 1 ;; rswap_AF ;; ret Break
          | 2 => (* DJNZ d *)
              add_cycles 1 ;;
              s <- cpu_fetch_offset ;;
              step_B (-1) ;;
              b <- rget B ;;
              when (truthy b) (add_cycles 1 ;; jump_relative s) ;;
              ret Break
          | 3 => (* JR d *)
              add_cycles 2 ;;
              s <- cpu_fetch_offset ;;
              jump_relative s ;; ret Break
          | _ => (* JR cc[y-4], d *)
              add_cycles 1 ;;
              s <- cpu_fetch_offset ;;
              cc <- cpu_read_cc (y - 4) ;;
              when cc (add_cycles 1 ;; jump_relative s) ;;
              ret Break
          end
      | 1 =>
          if q =? 0 then (* LD rr, Mmn *)
            prefix <- cget PREFIX ;;
            if (p =? 3) && truthy prefix then (* LD IY/IX, (IX/IY + d) *)
              add_cycles 6 ;;
              a <- cpu_index_address ;; w <- cpu_read_word a ;;
              cpu_write_other_index w ;; ret Break
            else
              add_cycles 4 ;;
              w <- cpu_fetch_word ;; cpu_write_rp p w ;; ret Break
          else (* ADD HL,rr *)
            add_cycles 1 ;;
            v <- cpu_read_index ;; l <- cget L ;;
            let old_word := cpu_mask_mode v l in
            v <- cpu_read_rp p ;; l <- cget L ;;
            let op_word := cpu_mask_mode v l in
            let new_word := old_word + op_word in
            cpu_write_index (cpu_mask_mode new_word l) ;;
            r <- rget id ;;
            rset set_F (__flag_s (flag FLAG_S r) .| _flag_zero (Z.b2z (negb (flag FLAG_Z r)))
                        .| _flag_undef (F r) .| __flag_pv (flag FLAG_PV r)
                        .| _flag_subtract false .| _flag_carry_w new_word l
                        .| _flag_halfcarry_w_add old_word op_word 0) ;;
            ret Break
      | 2 =>
          if q =? 0 then
            match p with
            | 0 => (* LD (BC), A *)
                add_cycles 2 ;;
                r <- rget id ;; cpu_write_byte (BC r) (A r) ;; ret Break
            | 1 => (* LD (DE), A *)
                add_cycles 2 ;;
                r <- rget id ;; cpu_write_byte (DE r) (A r) ;; ret Break
            | 2 => (* LD (Mmn), HL *)
                add_cycles 7 ;;
                a <- cpu_fetch_word ;; v <- cpu_read_index ;;
                cpu_write_word a v ;; ret Break
            | _ => (* LD (Mmn), A *)
                add_cycles 5 ;;
                a <- cpu_fetch_word ;; v <- rget A ;;
                cpu_write_byte a v ;; ret Break
            end
          else
            match p with
            | 0 => (* LD A, (BC) *)
                add_cycles 2 ;;
                bc <- rget BC ;; v <- cpu_read_byte bc ;; rset set_A v ;; ret Break
            | 1 => (* LD A, (DE) *)
                add_cycles 2 ;;
                de <- rget DE ;; v <- cpu_read_byte de ;; rset set_A v ;; ret Break
            | 2 => (* LD HL, (Mmn) *)
                add_cycles 7 ;;
                a <- cpu_fetch_word ;; v <- cpu_read_word a ;;
                cpu_write_index v ;; ret Break
            | _ => (* LD A, (Mmn) *)
                add_cycles 5 ;;
                a <- cpu_fetch_word ;; v <- cpu_read_byte a ;;
                rset set_A v ;; ret Break
            end
      | 3 =>
          if q =? 0 then (* INC rp[p] *)
            add_cycles 1 ;;
            v <- cpu_read_rp p ;; cpu_write_rp p (v + 1) ;; ret Break
          else (* DEC rp[p] *)
            add_cycles 1 ;;
            v <- cpu_read_rp p ;; cpu_write_rp p (v - 1) ;; ret Break
      | 4 => (* INC r[y] *)
          add_cycles 1 ;;
          w <- (if y =? 6 then cpu_index_address else ret 0) ;;
          old <- cpu_read_reg_prefetched y w ;;
          let new := u8 (old + 1) in
          cpu_write_reg_prefetched y w new ;;
          r <- rget id ;;
          rset set_F (__flag_c (flag FLAG_C r) .| _flag_sign_b new .| _flag_zero new
                      .| _flag_halfcarry_b_add old 0 1 .| __flag_pv (new =? 0x80)
                      .| _flag_subtract false .| _flag_undef (F r)) ;;
          ret Break
      | 5 => (* DEC r[y] *)
          add_cycles 1 ;;
          w <- (if y =? 6 then cpu_index_address else ret 0) ;;
          old <- cpu_read_reg_prefetched y w ;;
          let new := u8 (old - 1) in
          cpu_write_reg_prefetched y w new ;;
          r <- rget id ;;
          rset set_F (__flag_c (flag FLAG_C r) .| _flag_sign_b new .| _flag_zero new
                      .| _flag_halfcarry_b_sub old 0 1 .| __flag_pv (old =? 0x80)
                      .| _flag_subtract true .| _flag_undef (F r)) ;;
          ret Break
      | 6 => (* LD r[y], n *)
          add_cycles 2 ;;
          prefix <- cget PREFIX ;;
          if (y =? 7) && truthy prefix then (* LD (IX/IY + d), IY/IX *)
            a <- cpu_index_address ;; v <- cpu_read_other_index ;;
            cpu_write_word a v ;; ret Break
          else
            w <- (if y =? 6 then cpu_index_address else ret 0) ;;
            n <- cpu_fetch_byte ;;
            cpu_write_reg_prefetched y w n ;; ret Break
      | _ => (* case 7 *)
          prefix <- cget PREFIX ;;
          if truthy prefix then
            add_cycles 6 ;;
            (if truthy q then (* LD (IX/IY + d), rp3[p] *)
               a <- cpu_index_address ;; v <- cpu_read_rp3 p ;; cpu_write_word a v
             else (* LD rp3[p], (IX/IY + d) *)
               a <- cpu_index_address ;; v <- cpu_read_word a ;; cpu_write_rp3 p v) ;;
            ret Break
          else
            cpu_execute_rot_acc y ;; ret Break
      end
  | 1 => (* ignore prefixed prefixes *)
      if z =? y then
        match z with
        | 0 => (* .SIS *)
            add_cycles 1 ;;
            cset set_SUFFIX true ;;
            cset set_L false ;; cset set_IL false ;;
            ret Goto_exit_loop
        | 1 => (* .LIS *)
            add_cycles 1 ;;
            cset set_SUFFIX true ;;
            cset set_L true ;; cset set_IL false ;;
            ret Goto_exit_loop
        | 2 => (* .SIL *)
            add_cycles 1 ;;
            cset set_SUFFIX true ;;
            cset set_L false ;; cset set_IL true ;;
            ret Goto_exit_loop
        | 3 => (* .LIL *)
            add_cycles 1 ;;
            cset set_SUFFIX true ;;
            cset set_L true ;; cset set_IL true ;;
            ret Goto_exit_loop
        | 6 => (* HALT *)
            cset set_halted true ;;
            halt_cycles ;;
            ret Break
        | 4 (* LD H, H *) | 5 (* LD L, L *) | 7 => (* LD A, A *)
            ret Break
        | _ => abort
        end
      else
        cpu_read_write_reg z y ;; ret Break
  | 2 => (* ALU[y] r[z] *)
      v <- cpu_read_reg z ;; cpu_execute_alu y v ;; ret Break
  | _ => (* case 3 *)
      match z with
      | 0 => (* RET cc[y] *)
          add_cycles 2 ;;
          cc <- cpu_read_cc y ;;
          when cc (add_cycles 5 ;; cpu_return) ;;
          ret Break
      | 1 =>
          if q =? 0 then (* POP rp2[p] *)
            add_cycles 4 ;;
            w <- cpu_pop_word ;; cpu_write_rp2 p w ;; ret Break
          else
            match p with
            | 0 => (* RET *)
                add_cycles 7 ;; cpu_return ;; ret Break
            | 1 => (* EXX *)
                add_cycles 1 ;; exx ;; ret Break
            | 2 => (* JP (rr) *)
                add_cycles 3 ;;
                a <- cpu_read_index ;; l <- cget L ;;
                cpu_prefetch a l ;; ret Break
            | _ => (* LD SP, HL *)
                add_cycles 1 ;;
                v <- cpu_read_index ;; cpu_write_sp v ;; ret Break
            end
      | 2 => (* JP cc[y], nn *)
          cc <- cpu_read_cc y ;;
          if cc then
            add_cycles 5 ;;
            a <- cpu_fetch_word_no_prefetch ;; l <- cget L ;;
            cpu_prefetch a l ;; ret Break
          else
            add_cycles 4 ;;
            cpu_fetch_word ;; ret Break
      | 3 =>
          match y with
          | 0 => (* JP nn *)
              add_cycles 5 ;;
              a <- cpu_fetch_word_no_prefetch ;; l <- cget L ;;
              cpu_prefetch a l ;; ret Break
          | 1 => (* 0xCB prefixed opcodes *)
              execute_cb ;; ret Break
          | 2 => (* OUT (n), A *)
              add_cycles 3 ;;
              a <- rget A ;; n <- cpu_fetch_byte ;;
              cpu_write_out (Z.shiftl a 8 .| n) a ;; ret Break
          | 3 => (* IN A, (n) *)
              add_cycles 3 ;;
              a <- rget A ;; n <- cpu_fetch_byte ;;
              v <- cpu_read_in (Z.shiftl a 8 .| n) ;;
              rset set_A v ;; ret Break
          | 4 => (* EX (SP), HL/I *)
              add_cycles 7 ;;
              w <- cpu_read_sp ;;
              old_word <- cpu_read_word w ;;
              new_word <- cpu_read_index ;;
              cpu_write_index old_word ;;
              cpu_write_word w new_word ;; ret Break
          | 5 => (* EX DE, HL *)
              add_cycles 1 ;; rswap_HL_DE ;; ret Break
          | 6 => (* DI *)
              add_cycles 1 ;;
              cset set_IEF2 false ;; cset set_IEF1 false ;; ret Break
          | _ => (* EI *)
              execute_ei
          end
      | 4 => (* CALL cc[y], nn *)
          cc <- cpu_read_cc y ;;
          if cc then
            add_cycles 7 ;;
            a <- cpu_fetch_word_no_prefetch ;; suffix <- cget SUFFIX ;;
            cpu_call a suffix ;; ret Break
          else
            add_cycles 4 ;;
            cpu_fetch_word ;; ret Break
      | 5 =>
          if q =? 0 then (* PUSH r2p[p] *)
            add_cycles 4 ;;
            v <- cpu_read_rp2 p ;; cpu_push_word v ;; ret Break
          else
            match p with
            | 0 => (* CALL nn *)
                add_cycles 7 ;;
                a <- cpu_fetch_word_no_prefetch ;; suffix <- cget SUFFIX ;;
                cpu_call a suffix ;; ret Break
            | 1 => (* 0xDD prefixed opcodes *)
                add_cycles 1 ;;
                cset set_PREFIX 2 ;;
                ret Goto_exit_loop
            | 2 => (* 0xED prefixed opcodes *)
                add_cycles 1 ;;
                cset set_PREFIX 0 ;; (* ED cancels effect of DD/FD prefix *)
                opcode <- cpu_fetch_byte ;;
                execute_ed opcode ;; ret Break
            | _ => (* 0xFD prefixed opcodes *)
                add_cycles 1 ;;
                cset set_PREFIX 3 ;;
                ret Goto_exit_loop
            end
      | 6 => (* alu[y] n *)
          n <- cpu_fetch_byte ;; cpu_execute_alu y n ;; ret Break
      | _ => (* RST y*8 *)
          add_cycles 1 ;;
          suffix <- cget SUFFIX ;;
          cpu_call (Z.shiftl y 3) suffix ;; ret Break
      end
  end.

(** [exit_loop:] the cycle accounting at the end of the inner loop body *)
Definition exit_loop : M unit :=
  modify (fun s => set_cycle_count_delta (cycle_count_delta s + cycles (cpu s)) s) ;;
  c <- cget cycles ;; when (c =? 0) (add_delta 1).

(** The head of the inner loop body: [cpu.cycles = 0], the opcode fetch and
    the increment of R. *)
Definition fetch_opcode : M Z :=
  cset set_cycles 0 ;;
  (* fetch opcode *)
  opcode <- cpu_fetch_byte ;;
  r <- rget R ;;
  rset set_R (Z.land (r + 1) 0x7F .| Z.land r 0x80) ;;
  ret opcode.

(** The tail of the inner loop body, by the way the opcode's case left the
    switch.  The result is [true] when the pass leaves the loop by [break]
    (a debugger step), and the value of the local [cycle_offset]. *)
Definition boundary (cycle_offset : Z) (fl : flow) : M (bool * Z) :=
  match fl with
  | Continue cycle_offset' => ret (false, cycle_offset')
  | Goto_exit_loop => exit_loop ;; ret (false, cycle_offset)
  | Break =>
      cpu_get_cntrl_data_blocks_format ;;
      ev <- gets cpu_events ;;
      if truthy (Z.land ev EVENT_DEBUG_STEP) then
        (* Flush the cycles *)
        modify (set_cycle_count_delta 0) ;; ret (true, cycle_offset)
      else
        exit_loop ;; ret (false, cycle_offset)
  end.

(** One pass through the body of the inner [while]. *)
Definition inner_body (cycle_offset : Z) : M (bool * Z) :=
  opcode <- fetch_opcode ;;
  fl <- execute_opcode opcode ;;
  boundary cycle_offset fl.

(** [!exiting && (cpu.PREFIX || cpu.SUFFIX || cycle_count_delta < 0)] *)
Definition inner_cond (s : machine) : bool :=
  negb (exiting s) &&
  (truthy (PREFIX (cpu s)) || SUFFIX (cpu s) || (cycle_count_delta s <? 0)).

(** The inner [while]; [None] when [fuel] passes do not finish it. *)
Fixpoint inner_loop (fuel : nat) (cycle_offset : Z) : M (option Z) :=
  fun s =>
    if inner_cond s then
      match fuel with
      | O => Some (None, s)
      | S fuel' =>
          ('(stop, cycle_offset') <- inner_body cycle_offset ;;
           if stop : bool then ret (Some cycle_offset')
           else inner_loop fuel' cycle_offset') s
      end
    else Some (Some cycle_offset, s).

(** [intrpt.request->status & intrpt.request->enabled] *)
Definition intrpt_pending (s : machine) : bool :=
  truthy (Z.land (intrpt_status s) (intrpt_enabled s)).

(** The interrupt is recognised: the body of
    [if (cpu.IEF1 && (intrpt.request->status & intrpt.request->enabled))]. *)
Definition interrupt_acknowledge : M unit :=
  cset set_halted false ;; cset set_IEF2 false ;; cset set_IEF1 false ;;
  add_delta 1 ;;
  im <- cget IM ;;
  if negb (im =? 3) then
    madl <- cget MADL ;; cpu_call 0x38 madl
  else
    add_delta 1 ;;
    r <- rget id ;;
    vector <- cpu_read_word (u32 (Z.shiftl (I_reg r) 8 .| Z.lnot (R r))) ;;
    madl <- cget MADL ;;
    cpu_call vector madl ;;
    c <- cget cycles ;; add_delta c.

(** [cpu.IEF_wait = 0; cpu.IEF1 = cpu.IEF2 = 1;] *)
Definition ei_enable : M unit :=
  cset set_IEF_wait false ;; cset set_IEF2 true ;; cset set_IEF1 true.

(** The head of the outer [while] body, up to the inner loop. *)
Definition interrupt_check : M unit :=
  iw <- cget IEF_wait ;;
  when iw ei_enable ;;
  ief1 <- cget IEF1 ;; pending <- gets intrpt_pending ;;
  if ief1 && pending then
    interrupt_acknowledge
  else
    halted <- cget halted ;;
    when halted (modify (set_cycle_count_delta 0)). (* consume all of the cycles *)

(** [!exiting && cycle_count_delta < 0] *)
Definition outer_cond (s : machine) : bool :=
  negb (exiting s) && (cycle_count_delta s <? 0).

(** One pass through the body of the outer [while]. *)
Definition outer_body (fuel : nat) : M bool :=
  interrupt_check ;;
  off <- inner_loop fuel 0 ;;
  match off with
  | Some cycle_offset => add_delta cycle_offset ;; ret true
  | None => ret false
  end.

(** [cpu_execute]; the result is [false] when the fuel does not suffice. *)
Fixpoint cpu_execute (passes fuel : nat) : M bool :=
  fun s =>
    if outer_cond s then
      match passes with
      | O => Some (false, s)
      | S passes' =>
          (ok <- outer_body fuel ;;
           if ok : bool then cpu_execute passes' fuel else ret false) s
      end
    else Some (true, s).

(** [cpu_flush] and [cpu_reset] *)
Definition cpu_flush (address : Z) (mode : bool) : M unit :=
  cpu_prefetch address mode ;;
  cpu_get_cntrl_data_blocks_format.

(** [memset(&cpu, 0, sizeof cpu)] *)
Definition zero_registers : eZ80registers_t :=
  mk_registers 0 0 0 0 0 0 0 0 0 0 0 0 0 0 0 0 0.

Definition zero_cpu : eZ80cpu_t :=
  mk_cpu zero_registers false false false false 0 0 false false false false false 0 0.
Definition cpu_init : M unit := modify (upd_cpu (fun _ => zero_cpu)).

Definition cpu_reset : M unit :=
  modify (upd_regs (fun _ => zero_registers)) ;;
  cset set_halted false ;; cset set_IEF_wait false ;; cset set_IM 0 ;;
  cset set_MADL false ;; cset set_ADL false ;;
  cset set_IEF2 false ;; cset set_IEF1 false ;;
  cpu_flush 0 false.

(** * Reasoning tools *)

(** Symbolic execution: unfold the model on a state given by its
    constructors, in one call-by-value pass. *)
(** [run_keep] leaves the boolean connectives folded, [run] computes them. *)
Ltac run_keep :=
  cbv [cpu_address_mode cpu_call cpu_return cpu_prefetch cpu_push_word cpu_push_byte cpu_pop_word cpu_pop_byte
       cpu_read_byte cpu_write_byte cpu_read_word cpu_write_word
       memory_read_byte memory_write_byte port_read_byte port_write_byte store
       cpu_read_in cpu_write_out predec postinc
       cpu_fetch_byte cpu_fetch_offset cpu_fetch_word cpu_fetch_word_no_prefetch
       cpu_get_cntrl_data_blocks_format cpu_read_sp cpu_write_sp
       cpu_read_index_low cpu_write_index_low cpu_read_index_high cpu_write_index_high
       cpu_read_index cpu_write_index cpu_read_other_index cpu_write_other_index
       cpu_index_address cpu_dec_bc_partial_mode opcode_trap
       step mask_mode step_HL step_DE step_BC step_C step_B
       bli_flags_m bli_flags_zn bli_flags_cp bli_flags_ld bli_repeat bli_in bli_out
       exit_loop interrupt_check interrupt_acknowledge ei_enable intrpt_pending halt_cycles execute_ei fetch_opcode boundary flash_erase
       bind ret gets modify rget rset cget cset when add_cycles add_delta log_event abort
       upd_regs upd_cpu regs stack set_stack id
       set_B set_C set_D set_E set_BCS set_AF set_flag
       set_A set_F set_BC set_DE set_HL set__AF set__BC set__DE set__HL set_IX set_IY
       set_SPS set_SPL set_PC set_I_reg set_R set_MBASE
       set_registers set_IEF1 set_IEF2 set_ADL set_MADL set_IM set_PREFIX set_SUFFIX
       set_L set_IL set_IEF_wait set_halted set_cycles set_prefetch
       set_cpu set_mem set_port_in set_bus set_cycle_count_delta set_cpu_events
       set_exiting set_intrpt_status set_intrpt_enabled
       A F BC DE HL _AF _BC _DE _HL IX IY SPS SPL PC I_reg R MBASE
       registers IEF1 IEF2 ADL MADL IM PREFIX SUFFIX L IL IEF_wait halted cycles prefetch
       cpu mem port_in bus cycle_count_delta cpu_events exiting intrpt_status intrpt_enabled
       B C D E AF PCL PCH PCU flag flagz index set_index
       fst snd].
Ltac run :=
  cbv [cpu_address_mode cpu_call cpu_return cpu_prefetch cpu_push_word cpu_push_byte cpu_pop_word cpu_pop_byte
       cpu_read_byte cpu_write_byte cpu_read_word cpu_write_word
       memory_read_byte memory_write_byte port_read_byte port_write_byte store
       cpu_read_in cpu_write_out predec postinc
       cpu_fetch_byte cpu_fetch_offset cpu_fetch_word cpu_fetch_word_no_prefetch
       cpu_get_cntrl_data_blocks_format cpu_read_sp cpu_write_sp
       cpu_read_index_low cpu_write_index_low cpu_read_index_high cpu_write_index_high
       cpu_read_index cpu_write_index cpu_read_other_index cpu_write_other_index
       cpu_index_address cpu_dec_bc_partial_mode opcode_trap
       step mask_mode step_HL step_DE step_BC step_C step_B
       bli_flags_m bli_flags_zn bli_flags_cp bli_flags_ld bli_repeat bli_in bli_out
       exit_loop interrupt_check interrupt_acknowledge ei_enable intrpt_pending halt_cycles execute_ei fetch_opcode boundary flash_erase
       bind ret gets modify rget rset cget cset when add_cycles add_delta log_event abort
       upd_regs upd_cpu regs stack set_stack id
       set_B set_C set_D set_E set_BCS set_AF set_flag
       set_A set_F set_BC set_DE set_HL set__AF set__BC set__DE set__HL set_IX set_IY
       set_SPS set_SPL set_PC set_I_reg set_R set_MBASE
       set_registers set_IEF1 set_IEF2 set_ADL set_MADL set_IM set_PREFIX set_SUFFIX
       set_L set_IL set_IEF_wait set_halted set_cycles set_prefetch
       set_cpu set_mem set_port_in set_bus set_cycle_count_delta set_cpu_events
       set_exiting set_intrpt_status set_intrpt_enabled
       A F BC DE HL _AF _BC _DE _HL IX IY SPS SPL PC I_reg R MBASE
       registers IEF1 IEF2 ADL MADL IM PREFIX SUFFIX L IL IEF_wait halted cycles prefetch
       cpu mem port_in bus cycle_count_delta cpu_events exiting intrpt_status intrpt_enabled
       B C D E AF PCL PCH PCU flag flagz index set_index
       fst snd
       orb andb negb].

Ltac destruct_machine s :=
  destruct s as [[[rA rF rBC rDE rHL rAF' rBC' rDE' rHL' rIX rIY rSPS rSPL rPC rI rR rMB]
                  ief1 ief2 adl madl im pre suf l il iw hlt cy pf]
                 m pin b delta ev ex ist ien].

Lemma u8_byte_l w : u8 (byte_l w) = byte_l w.
Proof. unfold u8, byte_l. rewrite <- Z.land_assoc. reflexivity. Qed.
Lemma u8_byte_h w : u8 (byte_h w) = byte_h w.
Proof. unfold u8, byte_h. rewrite <- Z.land_assoc. reflexivity. Qed.
Lemma u8_byte_u w : u8 (byte_u w) = byte_u w.
Proof. unfold u8, byte_u. rewrite <- Z.land_assoc. reflexivity. Qed.
Lemma u8_u8 w : u8 (u8 w) = u8 w.
Proof. unfold u8. rewrite <- Z.land_assoc. reflexivity. Qed.
Lemma u8_mode_byte m a :
  u8 (Z.shiftl (Z.b2z m) 1 .| Z.b2z a) = Z.shiftl (Z.b2z m) 1 .| Z.b2z a.
Proof. destruct m, a; reflexivity. Qed.
Lemma u8_range w : 0 <= u8 w < 256.
Proof.
  unfold u8. change 0xFF with (Z.ones 8). rewrite Z.land_ones by lia.
  apply Z.mod_pos_bound. reflexivity.
Qed.

(** * Concrete machines *)

(** A machine just after [cpu_init], with the given memory contents. *)
Definition init_machine (m : Z -> Z) : machine :=
  mk_machine zero_cpu m (fun _ => 0) [] 0 0 false 0 0.

(** Memory holding the bytes of [l] from address [base] on, zero elsewhere. *)
Definition mem_of_list (base : Z) (l : list Z) : Z -> Z :=
  fun a => if (base <=? a) then nth (Z.to_nat (a - base)) l 0 else 0.

(** The state a computation ends in. *)
Definition final {T} (m : M T) (s : machine) : machine :=
  match m s with Some (_, s') => s' | None => s end.

(** A concrete run is settled by computing the value it returns. *)
Lemma run_final {T} (m : M T) (s : machine) (x : T) :
  option_map fst (m s) = Some x -> m s = Some (x, final m s).
Proof.
  unfold final. destruct (m s) as [[y s']|]; cbn; intros H.
  - injection H as ->. reflexivity.
  - discriminate H.
Qed.

(** A machine after [cpu_init] and [cpu_reset], with the given bytes at
    address 0 and a cycle budget. *)
Definition boot (program : list Z) (budget : Z) : machine :=
  final cpu_reset (set_cycle_count_delta (- budget) (init_machine (mem_of_list 0 program))).


(** * Decoding *)

Lemma land_small (a n : Z) : 0 <= Z.land a (Z.ones n) < 2 ^ n \/ n < 0.
Proof.
  destruct (Z.ltb_spec n 0); [right; assumption | left].
  rewrite Z.land_ones by assumption. apply Z.mod_pos_bound. apply Z.pow_pos_nonneg; lia.
Qed.

Lemma ctx_x_cases op : ctx_x op = 0 \/ ctx_x op = 1 \/ ctx_x op = 2 \/ ctx_x op = 3.
Proof.
  unfold ctx_x. destruct (land_small (Z.shiftr op 6) 2) as [H|H]; [|lia].
  change (Z.ones 2) with 3 in H. change (2 ^ 2) with 4 in H. lia.
Qed.
Lemma ctx_p_cases op : ctx_p op = 0 \/ ctx_p op = 1 \/ ctx_p op = 2 \/ ctx_p op = 3.
Proof.
  unfold ctx_p. destruct (land_small (Z.shiftr op 4) 2) as [H|H]; [|lia].
  change (Z.ones 2) with 3 in H. change (2 ^ 2) with 4 in H. lia.
Qed.
Lemma ctx_q_cases op : ctx_q op = 0 \/ ctx_q op = 1.
Proof.
  unfold ctx_q. destruct (land_small (Z.shiftr op 3) 1) as [H|H]; [|lia].
  change (Z.ones 1) with 1 in H. change (2 ^ 1) with 2 in H. lia.
Qed.
Lemma ctx_y_cases op :
  ctx_y op = 0 \/ ctx_y op = 1 \/ ctx_y op = 2 \/ ctx_y op = 3 \/
  ctx_y op = 4 \/ ctx_y op = 5 \/ ctx_y op = 6 \/ ctx_y op = 7.
Proof.
  unfold ctx_y. destruct (land_small (Z.shiftr op 3) 3) as [H|H]; [|lia].
  change (Z.ones 3) with 7 in H. change (2 ^ 3) with 8 in H. lia.
Qed.
Lemma ctx_z_cases op :
  ctx_z op = 0 \/ ctx_z op = 1 \/ ctx_z op = 2 \/ ctx_z op = 3 \/
  ctx_z op = 4 \/ ctx_z op = 5 \/ ctx_z op = 6 \/ ctx_z op = 7.
Proof.
  unfold ctx_z. destruct (land_small op 3) as [H|H]; [|lia].
  change (Z.ones 3) with 7 in H. change (2 ^ 3) with 8 in H. lia.
Qed.

Lemma ctx_x_div op : ctx_x op = (op / 64) mod 4.
Proof.
  unfold ctx_x. rewrite (Z.land_ones _ 2), Z.shiftr_div_pow2 by lia. reflexivity.
Qed.
Lemma ctx_y_div op : ctx_y op = (op / 8) mod 8.
Proof.
  unfold ctx_y. rewrite (Z.land_ones _ 3), Z.shiftr_div_pow2 by lia. reflexivity.
Qed.
Lemma ctx_z_div op : ctx_z op = op mod 8.
Proof. unfold ctx_z. rewrite (Z.land_ones _ 3) by lia. reflexivity. Qed.

Lemma ctx_x_range op : 0 <= ctx_x op < 4.
Proof. pose proof (ctx_x_cases op). lia. Qed.
Lemma ctx_y_range op : 0 <= ctx_y op < 8.
Proof. pose proof (ctx_y_cases op). lia. Qed.
Lemma ctx_z_range op : 0 <= ctx_z op < 8.
Proof. pose proof (ctx_z_cases op). lia. Qed.

Lemma ctx_p_range op : 0 <= ctx_p op < 4.
Proof. pose proof (ctx_p_cases op). lia. Qed.
Lemma ctx_q_range op : 0 <= ctx_q op < 2.
Proof. pose proof (ctx_q_cases op). lia. Qed.

Lemma ctx_y_pq op : ctx_y op = 2 * ctx_p op + ctx_q op.
Proof.
  rewrite ctx_y_div. unfold ctx_p, ctx_q.
  rewrite (Z.land_ones _ 2), (Z.land_ones _ 1), !Z.shiftr_div_pow2 by lia.
  change (2 ^ 4) with 16. change (2 ^ 3) with 8. change (2 ^ 2) with 4. change (2 ^ 1) with 2.
  Z.div_mod_to_equations. lia.
Qed.

(** An opcode byte is its three fields. *)
Lemma opcode_fields op :
  0 <= op < 256 -> op = 64 * ctx_x op + 8 * ctx_y op + ctx_z op.
Proof.
  intros H. rewrite ctx_x_div, ctx_y_div, ctx_z_div.
  Z.div_mod_to_equations. lia.
Qed.

(** * Frame reasoning

    [stable Rel m]: every run of [m] relates the state before to the state
    after.  With a reflexive and transitive [Rel] this follows from the
    state updates [m] is built from. *)

Definition stable {T} (Rel : machine -> machine -> Prop) (m : M T) : Prop :=
  forall s x s', m s = Some (x, s') -> Rel s s'.

(** [total m]: [m] never aborts. *)
Definition total {T} (m : M T) : Prop :=
  forall s, exists x s', m s = Some (x, s').

(** [yields P m]: every value [m] returns satisfies [P]. *)
Definition yields {T} (P : T -> Prop) (m : M T) : Prop :=
  forall s x s', m s = Some (x, s') -> P x.

Section Stable.
Variable Rel : machine -> machine -> Prop.
Hypothesis Rel_refl : forall s, Rel s s.
Hypothesis Rel_trans : forall s1 s2 s3, Rel s1 s2 -> Rel s2 s3 -> Rel s1 s3.

Lemma stable_ret {T} (x : T) : stable Rel (ret x).
Proof. intros s y s' H. injection H as _ <-. apply Rel_refl. Qed.

Lemma stable_abort {T} : stable Rel (@abort T).
Proof. intros s y s' H. discriminate H. Qed.

Lemma stable_gets {T} (f : machine -> T) : stable Rel (gets f).
Proof. intros s y s' H. injection H as _ <-. apply Rel_refl. Qed.

Lemma stable_modify (f : machine -> machine) :
  (forall s, Rel s (f s)) -> stable Rel (modify f).
Proof. intros Hf s y s' H. injection H as _ <-. apply Hf. Qed.

Lemma stable_bind {T U} (m : M T) (k : T -> M U) :
  stable Rel m -> (forall x, stable Rel (k x)) -> stable Rel (bind m k).
Proof.
  intros Hm Hk s y s' H. unfold bind in H.
  destruct (m s) as [[x s1]|] eqn:E; [|discriminate H].
  eapply Rel_trans; [eapply Hm; exact E | eapply Hk; exact H].
Qed.

Lemma stable_when (b : bool) (m : M unit) : stable Rel m -> stable Rel (when b m).
Proof.
  intros Hm s y s' H. unfold when in H. destruct b.
  - eapply Hm; exact H.
  - injection H as _ <-. apply Rel_refl.
Qed.
End Stable.

Lemma total_ret {T} (x : T) : total (ret x).
Proof. intros s. do 2 eexists. reflexivity. Qed.
Lemma total_gets {T} (f : machine -> T) : total (gets f).
Proof. intros s. do 2 eexists. reflexivity. Qed.
Lemma total_modify (f : machine -> machine) : total (modify f).
Proof. intros s. do 2 eexists. reflexivity. Qed.
Lemma total_bind {T U} (m : M T) (k : T -> M U) :
  total m -> (forall x, total (k x)) -> total (bind m k).
Proof.
  intros Hm Hk s. destruct (Hm s) as (x & s1 & E).
  destruct (Hk x s1) as (y & s' & E'). exists y, s'.
  unfold bind. rewrite E. exact E'.
Qed.
Lemma total_when (b : bool) (m : M unit) : total m -> total (when b m).
Proof.
  intros Hm s. unfold when. destruct b; [apply Hm | do 2 eexists; reflexivity].
Qed.

Lemma yields_ret {T} (P : T -> Prop) (x : T) : P x -> yields P (ret x).
Proof. intros Hx s y s' H. injection H as <- _. exact Hx. Qed.
Lemma yields_abort {T} (P : T -> Prop) : yields P abort.
Proof. intros s y s' H. discriminate H. Qed.
Lemma yields_bind {T U} (P : U -> Prop) (m : M T) (k : T -> M U) :
  (forall x, yields P (k x)) -> yields P (bind m k).
Proof.
  intros Hk s y s' H. unfold bind in H.
  destruct (m s) as [[x s1]|]; [|discriminate H]. eapply Hk; exact H.
Qed.

Lemma bind_inv {T U} (m : M T) (k : T -> M U) s y s' :
  bind m k s = Some (y, s') ->
  exists x s1, m s = Some (x, s1) /\ k x s1 = Some (y, s').
Proof.
  unfold bind. destruct (m s) as [[x s1]|]; [|discriminate].
  intros H. exists x, s1. split; [reflexivity | exact H].
Qed.

Ltac head_of t := lazymatch t with ?f _ => head_of f | _ => t end.

Ltac is_pos_lit p :=
  lazymatch p with xH => idtac | xO ?q => is_pos_lit q | xI ?q => is_pos_lit q end.
Ltac is_lit v :=
  lazymatch v with
  | Z0 => idtac | Zpos ?p => is_pos_lit p | Zneg ?p => is_pos_lit p
  | true => idtac | false => idtac
  end.

(** Case analysis on the scrutinee of a [match] or [if] at the head of a
    computation: an opcode field by its range, a closed term by
    computation, anything else by [destruct]. *)
Ltac split_scrutinee x :=
  lazymatch x with
  | ctx_x ?o => let E := fresh "Ex" in
      destruct (ctx_x_cases o) as [E|[E|[E|E]]]; rewrite E in *
  | ctx_p ?o => let E := fresh "Ep" in
      destruct (ctx_p_cases o) as [E|[E|[E|E]]]; rewrite E in *
  | ctx_q ?o => let E := fresh "Eq" in
      destruct (ctx_q_cases o) as [E|E]; rewrite E in *
  | ctx_y ?o => let E := fresh "Ey" in
      destruct (ctx_y_cases o) as [E|[E|[E|[E|[E|[E|[E|E]]]]]]]; rewrite E in *
  | ctx_z ?o => let E := fresh "Ez" in
      destruct (ctx_z_cases o) as [E|[E|[E|[E|[E|[E|[E|E]]]]]]]; rewrite E in *
  | _ => first [ is_lit x; fail 1
               | let v := eval cbv in x in is_lit v; change x with v
               | destruct x eqn:? ]
  end.

(** The obligation of a state update: the state is given by its
    constructors, the update is analysed by cases, [tac] concludes. *)
Ltac leaf_with tac :=
  let s := fresh "s" in
  intro s;
  destruct s as [[[? ? ? ? ? ? ? ? ? ? ? ? ? ? ? ? ?] ? ? ? ? ? ? ? ? ? ? ? ? ?] ? ? ? ? ? ? ? ?];
  run;
  repeat match goal with |- context [match ?x with _ => _ end] => destruct x eqn:? end;
  tac.
Ltac leaf_refl := leaf_with reflexivity.

(** A case the hypotheses on the opcode exclude: its fields determine the
    opcode byte. *)
Ltac by_fields :=
  repeat match goal with
         | H : (_ =? _) = true |- _ => apply Z.eqb_eq in H
         | H : (_ =? _) = false |- _ => apply Z.eqb_neq in H
         end;
  match goal with
  | H : 0 <= ?op < 256 |- _ =>
      pose proof (opcode_fields op H); pose proof (ctx_y_pq op);
      pose proof (ctx_x_range op); pose proof (ctx_y_range op);
      pose proof (ctx_z_range op); pose proof (ctx_p_range op);
      pose proof (ctx_q_range op)
  end;
  first [ lia | exfalso; lia ].

Create HintDb frame discriminated.

(** Walk through a computation: binds are split, conditionals and matches
    are analysed by cases, functions proved earlier are looked up and the
    others unfolded; [leaf] closes the obligation of a state update. *)
Ltac stable_walk refl trans leaf :=
  repeat (cbv beta iota zeta;
    lazymatch goal with
    | |- stable _ (bind _ _) => apply (stable_bind _ trans); [|intro]
    | |- stable _ (ret _) => apply (stable_ret _ refl)
    | |- stable _ abort => apply stable_abort
    | |- stable _ (gets _) => apply (stable_gets _ refl)
    | |- stable _ (modify _) => apply stable_modify; leaf
    | |- stable _ (when _ _) => apply (stable_when _ refl)
    | |- stable _ (match ?x with _ => _ end) => split_scrutinee x
    | |- stable _ ?m =>
        first [ solve [auto 1 with frame nocore]
              | let h := head_of m in unfold h ]
    end).

Ltac total_walk :=
  repeat (cbv beta iota zeta;
    lazymatch goal with
    | |- total (bind _ _) => apply total_bind; [|intro]
    | |- total (ret _) => apply total_ret
    | |- total (gets _) => apply total_gets
    | |- total (modify _) => apply total_modify
    | |- total (when _ _) => apply total_when
    | |- total abort => fail 1 "abort"
    | |- total (match ?x with _ => _ end) => split_scrutinee x
    | |- total ?m =>
        first [ solve [auto 1 with frame nocore]
              | let h := head_of m in unfold h ]
    end).

Ltac yields_walk leaf :=
  repeat (cbv beta iota zeta;
    lazymatch goal with
    | |- yields _ (bind _ _) => apply yields_bind; intro
    | |- yields _ (ret _) => apply yields_ret; leaf
    | |- yields _ abort => apply yields_abort
    | |- yields _ (match ?x with _ => _ end) => split_scrutinee x
    | |- yields _ ?m => let h := head_of m in unfold h
    end).
(** * Calls *)

(** The bus writes of a mixed-mode call, oldest first, as section 4.6 of the
    specification lists them. *)
Definition mixed_call_writes (s : machine) : list bus_event :=
  let c := cpu s in
  let r := regs s in
  let am a := cpu_address_mode a (L c) s in
  let spl1 := if ADL c then u24 (SPL r - 1) else SPL r in
  let on_spl := IL c || (L c && negb (ADL c)) in
  let hi := if on_spl then u24 (spl1 - 1) else u16 (SPS r - 1) in
  let lo := if on_spl then u24 (hi - 1) else u16 (hi - 1) in
  let spl2 := if on_spl then lo else spl1 in
  (if ADL c then [MemWrite (am spl1) (PCU r)] else []) ++
  [MemWrite (am hi) (PCH r); MemWrite (am lo) (PCL r);
   MemWrite (am (u24 (spl2 - 1)))
            (Z.shiftl (Z.b2z (MADL c)) 1 .| Z.b2z (ADL c))].

(** The stack pointers a mixed-mode call leaves: each one on the last byte
    pushed through it.  SPL is decremented once for PCU when ADL = 1, twice
    for PCH and PCL when they go to SPL, and once for the mode byte; SPS is
    decremented twice when PCH and PCL go to SPS and is not touched
    otherwise. *)
Definition mixed_call_SPL (s : machine) : Z :=
  let c := cpu s in
  let r := regs s in
  let spl1 := if ADL c then u24 (SPL r - 1) else SPL r in
  let spl2 := if IL c || (L c && negb (ADL c))
              then u24 (u24 (spl1 - 1) - 1) else spl1 in
  u24 (spl2 - 1).
Definition mixed_call_SPS (s : machine) : Z :=
  let c := cpu s in
  let r := regs s in
  if IL c || (L c && negb (ADL c)) then SPS r
  else u16 (u16 (SPS r - 1) - 1).

(** The bus writes of [cpu_push_word(r->PC)] on the stack selected by L. *)
Definition plain_call_writes (s : machine) : list bus_event :=
  let c := cpu s in
  let r := regs s in
  let am a := cpu_address_mode a (L c) s in
  if L c then
    [MemWrite (am (u24 (SPL r - 1))) (PCU r);
     MemWrite (am (u24 (u24 (SPL r - 1) - 1))) (PCH r);
     MemWrite (am (u24 (u24 (u24 (SPL r - 1) - 1) - 1))) (PCL r)]
  else
    [MemWrite (am (u16 (SPS r - 1))) (PCH r);
     MemWrite (am (u16 (u16 (SPS r - 1) - 1))) (PCL r)].

(** The stack pointers [cpu_push_word(r->PC)] leaves: the one L selects is
    decremented once per byte, three times in long mode and twice in short
    mode; the other one is not touched. *)
Definition plain_call_SPL (s : machine) : Z :=
  if L (cpu s) then u24 (u24 (u24 (SPL (regs s) - 1) - 1) - 1) else SPL (regs s).
Definition plain_call_SPS (s : machine) : Z :=
  if L (cpu s) then SPS (regs s) else u16 (u16 (SPS (regs s) - 1) - 1).

(** The memory a sequence of bus writes, oldest first, leaves: each byte
    holds the last value written to it. *)
Definition written (ws : list bus_event) (m : Z -> Z) : Z -> Z :=
  fold_left (fun m e => match e with
                        | MemWrite a v => fun x => if x =? a then v else m x
                        | _ => m
                        end) ws m.

(** C1.  A call with [mixed = 1] pushes, in this order: PCU to SPL when
    ADL = 1; PCH then PCL to SPL when IL = 1 or (L = 1 and ADL = 0), to SPS
    otherwise; the byte (MADL << 1) | ADL to SPL.  With [mixed = 0] the
    whole PC is pushed, high byte first, on the stack selected by L.  The
    pushes are real: each byte is stored in memory at the decremented stack
    pointer, in that order, SPL and SPS are left on the last byte pushed
    through them, and no other register but PC changes.  In both cases the
    call then prefetches the target in mode IL, reading the memory the
    pushes left. *)
Theorem cpu_call_push_order (address : Z) (s : machine) :
  (exists s' v,
     cpu_call address true s = Some (tt, s') /\
     bus s' = MemRead (cpu_address_mode address (IL (cpu s)) s) v
                :: rev (mixed_call_writes s) ++ bus s /\
     ADL (cpu s') = IL (cpu s) /\
     regs s' = set_PC (cpu_address_mode address (IL (cpu s)) s)
                 (set_SPL (mixed_call_SPL s)
                    (set_SPS (mixed_call_SPS s) (regs s))) /\
     (forall a, mem s' a = written (mixed_call_writes s) (mem s) a) /\
     v = u8 (mem s' (PC (regs s'))) /\ prefetch (cpu s') = v) /\
  (exists s' v,
     cpu_call address false s = Some (tt, s') /\
     bus s' = MemRead (cpu_address_mode address (IL (cpu s)) s) v
                :: rev (plain_call_writes s) ++ bus s /\
     ADL (cpu s') = IL (cpu s) /\
     regs s' = set_PC (cpu_address_mode address (IL (cpu s)) s)
                 (set_SPL (plain_call_SPL s)
                    (set_SPS (plain_call_SPS s) (regs s))) /\
     (forall a, mem s' a = written (plain_call_writes s) (mem s) a) /\
     v = u8 (mem s' (PC (regs s'))) /\ prefetch (cpu s') = v).
Proof.
  destruct_machine s.
  split.
  - destruct adl, il, l; run;
      cbv [mixed_call_writes mixed_call_SPL mixed_call_SPS written fold_left]; run;
      do 2 eexists; (split; [reflexivity|]); cbn [rev app];
      cbv [cpu_address_mode PCU PCH PCL]; run;
      rewrite ?u8_byte_l, ?u8_byte_h, ?u8_byte_u, ?u8_mode_byte;
      repeat match goal with |- _ /\ _ => split end; try reflexivity;
      intros a; rewrite ?u8_byte_l, ?u8_byte_h, ?u8_byte_u, ?u8_mode_byte; reflexivity.
  - destruct il, l; run;
      cbv [plain_call_writes plain_call_SPL plain_call_SPS written fold_left]; run;
      do 2 eexists; (split; [reflexivity|]); cbn [rev app];
      cbv [cpu_address_mode PCU PCH PCL u8 byte_u byte_h byte_l]; run;
      repeat match goal with |- _ /\ _ => split end; try reflexivity;
      intros a; reflexivity.
Qed.
(** * Returns *)

(** The byte on top of the SPL stack, where a mixed-mode call left the mode
    byte. *)
Definition saved_mode_byte (s : machine) : Z :=
  u8 (mem s (cpu_address_mode (SPL (regs s)) (L (cpu s)) s)).

(** The bus reads of a return under a suffix, oldest first: the mode byte
    from SPL, two bytes from the stack the current ADL selects, and the
    upper byte from SPL when bit 0 of the mode byte is set. *)
Definition return_reads (s : machine) : list bus_event :=
  let c := cpu s in
  let r := regs s in
  let rd a := let a' := cpu_address_mode a (L c) s in MemRead a' (u8 (mem s a')) in
  let spl1 := u24 (SPL r + 1) in
  let spl3 := if ADL c then u24 (u24 (spl1 + 1) + 1) else spl1 in
  [rd (SPL r)] ++
  (if ADL c then [rd spl1; rd (u24 (spl1 + 1))]
   else [rd (SPS r); rd (u16 (SPS r + 1))]) ++
  (if Z.testbit (saved_mode_byte s) 0 then [rd spl3] else []).

(** The address a return under a suffix restores. *)
Definition return_address (s : machine) : Z :=
  let c := cpu s in
  let r := regs s in
  let rd a := u8 (mem s (cpu_address_mode a (L c) s)) in
  let spl1 := u24 (SPL r + 1) in
  let spl3 := if ADL c then u24 (u24 (spl1 + 1) + 1) else spl1 in
  let low := if ADL c then rd spl1 .| Z.shiftl (rd (u24 (spl1 + 1))) 8
             else rd (SPS r) .| Z.shiftl (rd (u16 (SPS r + 1))) 8 in
  if Z.testbit (saved_mode_byte s) 0
  then low .| cpu_mask_mode (Z.shiftl (rd spl3) 16) (ADL c || L c)
  else low.

(** C2, as amended.  A return under a suffix reads the mode byte first, from
    SPL; the current ADL selects the stack of the low 16 bits (SPL when
    ADL = 1, SPS when ADL = 0); bit 0 of the mode byte decides whether the
    upper byte is read from SPL, and is the mode in which execution resumes
    at the restored address. *)
Theorem cpu_return_suffix (s : machine) :
  SUFFIX (cpu s) = true ->
  exists s' v,
    cpu_return s = Some (tt, s') /\
    bus s' = MemRead (PC (regs s')) v :: rev (return_reads s) ++ bus s /\
    ADL (cpu s') = Z.testbit (saved_mode_byte s) 0 /\
    PC (regs s') = cpu_address_mode (return_address s) (Z.testbit (saved_mode_byte s) 0) s /\
    SPS (regs s') = (if ADL (cpu s) then SPS (regs s) else u16 (u16 (SPS (regs s) + 1) + 1)).
Proof.
  destruct_machine s. cbn [SUFFIX cpu]. intros ->.
  cbv [return_reads return_address saved_mode_byte cpu_address_mode]; run.
  destruct adl, l; run;
    match goal with |- context [Z.testbit ?b 0] => destruct (Z.testbit b 0) eqn:E end;
    do 2 eexists; (split; [reflexivity|]); cbn [rev app];
    cbv [cpu_address_mode]; run; repeat split; reflexivity.
Qed.

(** Two return frames: SPL = 0x100 holds a mode byte 0x02 and above it
    0x34 0x12; SPS = 0x80 holds 0x78 0x56.  The machine runs a return under
    a suffix in the mode [adl]. *)
Definition return_demo (adl : bool) : machine :=
  upd_regs (fun r => set_SPL 0x100 (set_SPS 0x80 r))
    (upd_cpu (fun c => set_SUFFIX true (set_L adl (set_IL adl (set_ADL adl c))))
       (init_machine (fun a => if a <? 0x100
                               then mem_of_list 0x80 [0x78; 0x56] a
                               else mem_of_list 0x100 [0x02; 0x34; 0x12] a))).

Lemma cpu_return_suffix_witness :
  SUFFIX (cpu (return_demo true)) = true /\
  exists s' v,
    cpu_return (return_demo true) = Some (tt, s') /\
    bus s' = MemRead (PC (regs s')) v
               :: rev (return_reads (return_demo true)) ++ bus (return_demo true) /\
    ADL (cpu s') = Z.testbit (saved_mode_byte (return_demo true)) 0 /\
    PC (regs s') = cpu_address_mode (return_address (return_demo true))
                     (Z.testbit (saved_mode_byte (return_demo true)) 0) (return_demo true) /\
    SPS (regs s') = (if ADL (cpu (return_demo true)) then SPS (regs (return_demo true))
                     else u16 (u16 (SPS (regs (return_demo true)) + 1) + 1)).
Proof.
  split; [vm_compute; reflexivity
        | apply (cpu_return_suffix (return_demo true)); vm_compute; reflexivity].
Defined.

(** C2, as stated, fails: with the same stack contents, hence the same saved
    mode byte 0x02, a return under a suffix takes the low 16 bits from SPL
    when it runs with ADL = 1 (restoring 0x1234, SPS untouched) and from SPS
    when it runs with ADL = 0 (restoring 0x5678, SPS advanced by two). *)
Lemma cpu_return_stack_not_decided_by_mode_byte :
  ~ (forall s1 s2 s1' s2',
       SUFFIX (cpu s1) = true -> SUFFIX (cpu s2) = true ->
       cpu_return s1 = Some (tt, s1') -> cpu_return s2 = Some (tt, s2') ->
       saved_mode_byte s1 = saved_mode_byte s2 ->
       (SPS (regs s1') = SPS (regs s1) <-> SPS (regs s2') = SPS (regs s2))).
Proof.
  intro H.
  assert (H1 : cpu_return (return_demo true)
               = Some (tt, final cpu_return (return_demo true)))
    by (apply run_final; vm_compute; reflexivity).
  assert (H2 : cpu_return (return_demo false)
               = Some (tt, final cpu_return (return_demo false)))
    by (apply run_final; vm_compute; reflexivity).
  assert (Hs1 : SUFFIX (cpu (return_demo true)) = true) by (vm_compute; reflexivity).
  assert (Hs2 : SUFFIX (cpu (return_demo false)) = true) by (vm_compute; reflexivity).
  assert (Hm : saved_mode_byte (return_demo true) = saved_mode_byte (return_demo false))
    by (vm_compute; reflexivity).
  destruct (H _ _ _ _ Hs1 Hs2 H1 H2 Hm) as [H3 _].
  assert (H4 : SPS (regs (final cpu_return (return_demo true)))
               = SPS (regs (return_demo true))) by (vm_compute; reflexivity).
  specialize (H3 H4). vm_compute in H3. discriminate H3.
Qed.

Example cpu_return_demo_adl :
  PC (regs (final cpu_return (return_demo true))) = 0x1234 /\
  PC (regs (final cpu_return (return_demo false))) = 0x5678.
Proof. split; vm_compute; reflexivity. Qed.
(** * Flags *)

Lemma testbit_div (n k : Z) : 0 <= k -> Z.testbit n k = Z.odd (n / 2 ^ k).
Proof. intros. rewrite Z.testbit_odd, Z.shiftr_div_pow2 by lia. reflexivity. Qed.

Lemma land_0xF a : Z.land a 0xF = a mod 16.
Proof. change 0xF with (Z.ones 4). rewrite Z.land_ones by lia. reflexivity. Qed.
Lemma u8_mod a : u8 a = a mod 256.
Proof. unfold u8. change 0xFF with (Z.ones 8). rewrite Z.land_ones by lia. reflexivity. Qed.

(** Reading one flag back from a byte or-ed together from the seven flag
    macros. *)
Lemma flags_split (s z p n c h : bool) (f : Z) :
  let F' := __flag_s s .| __flag_z z .| _flag_undef f .| __flag_pv p
            .| __flag_n n .| __flag_c c .| __flag_h h in
  truthy (Z.land F' FLAG_S) = s /\ truthy (Z.land F' FLAG_Z) = z /\
  truthy (Z.land F' FLAG_PV) = p /\ truthy (Z.land F' FLAG_N) = n /\
  truthy (Z.land F' FLAG_C) = c /\ truthy (Z.land F' FLAG_H) = h /\
  _flag_undef F' = _flag_undef f.
Proof.
  cbv zeta. unfold _flag_undef.
  rewrite !Z.land_lor_distr_l, <- !Z.land_assoc.
  cbv [FLAG_S FLAG_Z FLAG_PV FLAG_N FLAG_C FLAG_H FLAG_3 FLAG_5].
  change (8 .| 32) with 40.
  change (Z.land 40 128) with 0; change (Z.land 40 64) with 0;
  change (Z.land 40 4) with 0; change (Z.land 40 2) with 0;
  change (Z.land 40 1) with 0; change (Z.land 40 16) with 0;
  change (Z.land 40 40) with 40.
  rewrite !Z.land_0_r.
  destruct s, z, p, n, c, h; cbn; rewrite ?Z.lor_0_r; repeat split; reflexivity.
Qed.

(** * DAA *)

(** The correction DAA applies: 6 when the low nibble exceeds 9 or H is
    set, plus 0x60 when the upper digit of [a + v] exceeds 9, the 8-bit sum
    carries out, or C is set. *)
Definition daa_correction (a : Z) (h c : bool) : Z :=
  let v := if (9 <? a mod 16) || h then 6 else 0 in
  if (9 <? (a + v) / 16) || (255 <? a + v) || c then v + 0x60 else v.

(** The correction as the specification words it, without the test of C. *)
Definition daa_correction_spec (a : Z) (h : bool) : Z :=
  let v := if (9 <? a mod 16) || h then 6 else 0 in
  if (9 <? (a + v) / 16) || (255 <? a + v) then v + 0x60 else v.

Lemma carry_b_small (x : Z) : 0 <= x < 512 -> truthy (_flag_carry_b x) = (255 <? x).
Proof.
  intros Hx. unfold _flag_carry_b. rewrite testbit_div by lia.
  change (2 ^ 8) with 256.
  destruct (255 <? x) eqn:E.
  - apply Z.ltb_lt in E. replace (x / 256) with 1 by (Z.div_mod_to_equations; lia).
    reflexivity.
  - apply Z.ltb_ge in E. rewrite Z.div_small by lia. reflexivity.
Qed.

Lemma halfcarry_add (a v : Z) :
  truthy (_flag_halfcarry_b_add a v 0) = (15 <? a mod 16 + v mod 16).
Proof.
  unfold _flag_halfcarry_b_add. rewrite !land_0xF, Z.add_0_r, testbit_div by lia.
  change (2 ^ 4) with 16.
  pose proof (Z.mod_pos_bound a 16 eq_refl). pose proof (Z.mod_pos_bound v 16 eq_refl).
  destruct (15 <? a mod 16 + v mod 16) eqn:E.
  - apply Z.ltb_lt in E.
    replace ((a mod 16 + v mod 16) / 16) with 1 by (Z.div_mod_to_equations; lia).
    reflexivity.
  - apply Z.ltb_ge in E. rewrite Z.div_small by lia. reflexivity.
Qed.

Lemma halfcarry_sub (a v : Z) :
  truthy (_flag_halfcarry_b_sub a v 0) = (a mod 16 <? v mod 16).
Proof.
  unfold _flag_halfcarry_b_sub. rewrite !land_0xF, Z.sub_0_r, testbit_div by lia.
  change (2 ^ 4) with 16.
  pose proof (Z.mod_pos_bound a 16 eq_refl). pose proof (Z.mod_pos_bound v 16 eq_refl).
  destruct (a mod 16 <? v mod 16) eqn:E.
  - apply Z.ltb_lt in E.
    replace ((a mod 16 - v mod 16) / 16) with (-1) by (Z.div_mod_to_equations; lia).
    reflexivity.
  - apply Z.ltb_ge in E. rewrite Z.div_small by lia. reflexivity.
Qed.

Lemma truthy_flag_s b : truthy (__flag_s b) = b. Proof. destruct b; reflexivity. Qed.
Lemma truthy_flag_z b : truthy (__flag_z b) = b. Proof. destruct b; reflexivity. Qed.
Lemma truthy_flag_h b : truthy (__flag_h b) = b. Proof. destruct b; reflexivity. Qed.
Lemma truthy_flag_pv b : truthy (__flag_pv b) = b. Proof. destruct b; reflexivity. Qed.
Lemma truthy_flag_n b : truthy (__flag_n b) = b. Proof. destruct b; reflexivity. Qed.
Lemma truthy_flag_c b : truthy (__flag_c b) = b. Proof. destruct b; reflexivity. Qed.
Lemma flag_h_truthy x : __flag_h (truthy (__flag_h x)) = __flag_h x.
Proof. destruct x; reflexivity. Qed.

(** The correction the code computes is [daa_correction]. *)
Lemma daa_v_code (a : Z) (h c : bool) :
  0 <= a < 256 ->
  let v := if (9 <? Z.land a 0xF) || h then u8 (0 + 6) else 0 in
  (if (9 <? Z.shiftr (a + v) 4) || truthy (_flag_carry_b (a + v)) || c
   then u8 (v + 0x60) else v) = daa_correction a h c.
Proof.
  intros Ha. cbv zeta. unfold daa_correction.
  rewrite land_0xF. change (u8 (0 + 6)) with 6.
  destruct ((9 <? a mod 16) || h).
  - rewrite Z.shiftr_div_pow2 by lia. change (2 ^ 4) with 16.
    rewrite carry_b_small by lia.
    destruct ((9 <? (a + 6) / 16) || (255 <? a + 6) || c); reflexivity.
  - rewrite Z.shiftr_div_pow2 by lia. change (2 ^ 4) with 16.
    rewrite carry_b_small by lia.
    destruct ((9 <? (a + 0) / 16) || (255 <? a + 0) || c); reflexivity.
Qed.

(** C3, as amended.  DAA computes the correction [v] as 6 when the low
    nibble of A exceeds 9 or H is set, plus 0x60 when (A + v) >> 4 > 9, the
    8-bit sum A + v carries out, or C is set; it adds [v] to A when N = 0
    and subtracts it when N = 1.  Afterwards C is set iff v >= 0x60, H is
    the half-carry (N = 0) or half-borrow (N = 1) of the adjustment, S, Z
    and P come from the new A, N and the undefined bits are preserved, and
    nothing else changes. *)
Theorem cpu_execute_daa_correct (s : machine) :
  0 <= A (regs s) < 256 ->
  let r := regs s in
  let v := daa_correction (A r) (flag FLAG_H r) (flag FLAG_C r) in
  let a' := if flag FLAG_N r then (A r - v) mod 256 else (A r + v) mod 256 in
  exists f',
    cpu_execute_daa s = Some (tt, upd_regs (fun r => set_F f' (set_A a' r)) s) /\
    flag FLAG_C (set_F f' r) = (0x60 <=? v) /\
    flag FLAG_H (set_F f' r) =
      (if flag FLAG_N r then A r mod 16 <? v mod 16 else 15 <? A r mod 16 + v mod 16) /\
    flag FLAG_S (set_F f' r) = Z.testbit a' 7 /\
    flag FLAG_Z (set_F f' r) = (a' =? 0) /\
    flag FLAG_PV (set_F f' r) = parity_even a' /\
    flag FLAG_N (set_F f' r) = flag FLAG_N r /\
    _flag_undef f' = _flag_undef (F r).
Proof.
  destruct_machine s. cbv [regs]; cbn [cpu registers A F].
  intros Ha. cbv zeta.
  unfold cpu_execute_daa. cbv [bind rget gets regs id]. cbn [cpu registers A F fst snd].
  rewrite (daa_v_code rA _ _ Ha).
  set (v := daa_correction rA _ _).
  unfold flag; cbn [F].
  destruct (truthy (Z.land rF FLAG_N)) eqn:EN.
  - run. rewrite <- u8_mod. eexists. split; [reflexivity|].
    unfold flag; cbv [set_F]; cbn [F].
    unfold _flag_sign_b, _flag_zero, _flag_parity, _flag_subtract,
      _flag_halfcarry_b_sub.
    match goal with |- context [__flag_h ?x] => set (h := x) end.
    match goal with |- context [__flag_pv ?x] => set (p := x) end.
    destruct (flags_split (Z.testbit (u8 (rA - v)) 7) (u8 (rA - v) =? 0) p
                true (96 <=? v) h rF)
      as (Hs & Hz & Hp & Hn & Hc & Hh & Hu).
    rewrite Hs, Hz, Hp, Hn, Hc, Hh, Hu.
    repeat split; try reflexivity.
    subst h. rewrite <- halfcarry_sub. unfold _flag_halfcarry_b_sub.
    rewrite truthy_flag_h. reflexivity.
  - run. rewrite <- u8_mod. eexists. split; [reflexivity|].
    unfold flag; cbv [set_F]; cbn [F].
    unfold _flag_sign_b, _flag_zero, _flag_parity, _flag_subtract,
      _flag_halfcarry_b_add.
    match goal with |- context [__flag_h ?x] => set (h := x) end.
    match goal with |- context [__flag_pv ?x] => set (p := x) end.
    destruct (flags_split (Z.testbit (u8 (rA + v)) 7) (u8 (rA + v) =? 0) p
                false (96 <=? v) h rF)
      as (Hs & Hz & Hp & Hn & Hc & Hh & Hu).
    rewrite Hs, Hz, Hp, Hn, Hc, Hh, Hu.
    repeat split; try reflexivity.
    subst h. rewrite <- halfcarry_add. unfold _flag_halfcarry_b_add.
    rewrite truthy_flag_h. reflexivity.
Qed.

(** A = 0x00 with only C set, as a subtraction-free BCD addition that
    overflowed leaves it. *)
Definition daa_demo : machine :=
  upd_regs (set_F FLAG_C) (init_machine (fun _ => 0)).

Lemma cpu_execute_daa_correct_witness :
  0 <= A (regs daa_demo) < 256 /\
  exists f',
    cpu_execute_daa daa_demo
    = Some (tt, upd_regs (fun r => set_F f' (set_A ((0 + 0x60) mod 256) r)) daa_demo) /\
    flag FLAG_C (set_F f' (regs daa_demo)) = true.
Proof.
  split; [vm_compute; split; [discriminate | reflexivity]|].
  destruct (cpu_execute_daa_correct daa_demo) as (f' & H & Hc & _).
  - vm_compute; split; [discriminate | reflexivity].
  - exists f'. split; [exact H | exact Hc].
Defined.

(** C3, as stated, fails: with A = 0, H = 0, N = 0 and C = 1 the correction
    without the test of C is 0, so A would stay 0; the code adds 0x60. *)
Lemma cpu_execute_daa_tests_carry :
  ~ (forall s s',
       0 <= A (regs s) < 256 ->
       flag FLAG_N (regs s) = false ->
       cpu_execute_daa s = Some (tt, s') ->
       A (regs s') =
         (A (regs s) + daa_correction_spec (A (regs s)) (flag FLAG_H (regs s))) mod 256).
Proof.
  intro H.
  assert (H1 : cpu_execute_daa daa_demo = Some (tt, final cpu_execute_daa daa_demo))
    by (apply run_final; vm_compute; reflexivity).
  assert (H0 : 0 <= A (regs daa_demo) < 256) by (vm_compute; split; [discriminate | reflexivity]).
  assert (Hn : flag FLAG_N (regs daa_demo) = false) by (vm_compute; reflexivity).
  specialize (H _ _ H0 Hn H1). vm_compute in H. discriminate H.
Qed.

Example cpu_execute_daa_demo :
  A (regs (final cpu_execute_daa daa_demo)) = 0x60 /\
  flag FLAG_C (regs (final cpu_execute_daa daa_demo)) = true.
Proof. split; vm_compute; reflexivity. Qed.
Lemma if_some {T} (c : bool) (x : T) (a b : machine) :
  (if c then Some (x, a) else Some (x, b)) = Some (x, if c then a else b).
Proof. destruct c; reflexivity. Qed.

(** * Repeating block instructions *)

(** The repeating block instructions whose loop test is on B or on the
    whole of BC: LDIR, LDDR, CPIR, CPDR, INIR, INDR, OTIR, OTDR and INIMR,
    INDMR, OTIMR, OTDMR. *)
Definition bli_repeating (y z : Z) : bool :=
  (((y =? 6) || (y =? 7)) && ((z =? 0) || (z =? 1) || (z =? 2) || (z =? 3)))
  || (((y =? 2) || (y =? 3)) && ((z =? 2) || (z =? 3))).

(** The loop test on the registers the iteration leaves: BC for LDIR and
    LDDR, BC and no match for CPIR and CPDR, B for the others. *)
Definition bli_again (z : Z) (r : eZ80registers_t) : bool :=
  match z with
  | 0 => truthy (BC r)
  | 1 => truthy (BC r) && negb (flag FLAG_Z r)
  | _ => truthy (B r)
  end.

(** The bus accesses of one iteration, the re-prefetch apart. *)
Definition bli_accesses (z : Z) : nat :=
  match z with 1 => 1%nat | _ => 2%nat end.

(** C4, as amended.  One iteration of LDIR, LDDR, INIR, INDR, OTIR, OTDR,
    INIMR, INDMR, OTIMR or OTDMR re-prefetches the instruction, by
    [cpu_prefetch(PC - 2 - SUFFIX, ADL)], exactly when its loop counter (BC
    for LDIR and LDDR, B for the others) is non-zero after the decrement;
    one iteration of CPIR or CPDR does so exactly when BC is non-zero and
    the comparison did not match (Z = 0).  Otherwise PC and the prefetch
    byte stay, and execution falls through to the next instruction.  The
    re-prefetch is the one bus access beyond those of the iteration. *)
Theorem cpu_execute_bli_repeat (y z : Z) (s : machine) :
  bli_repeating y z = true ->
  exists s',
    cpu_execute_bli y z s = Some (tt, s') /\
    ADL (cpu s') = ADL (cpu s) /\
    if bli_again z (regs s')
    then PC (regs s')
         = cpu_address_mode (PC (regs s) - 2 - Z.b2z (SUFFIX (cpu s))) (ADL (cpu s)) s /\
         (exists rest, bus s' = MemRead (PC (regs s')) (prefetch (cpu s')) :: rest /\
                       length rest = (length (bus s) + bli_accesses z)%nat)
    else PC (regs s') = PC (regs s) /\ prefetch (cpu s') = prefetch (cpu s) /\
         length (bus s') = (length (bus s) + bli_accesses z)%nat.
Proof.
  intros H. unfold bli_repeating in H.
  repeat (rewrite orb_true_iff in H || rewrite andb_true_iff in H || rewrite Z.eqb_eq in H).
  destruct_machine s.
  destruct H as [[[-> | ->] [[[-> | ->] | ->] | ->]] | [[-> | ->] [-> | ->]]].
  all: eexists; split;
    [ cbv [cpu_execute_bli]; run_keep; apply if_some | ].
  all: cbv [bli_again bli_accesses]; run_keep.
  all: match goal with
       | |- context [if ?c then _ else _] => destruct c eqn:E
       end.
  all: run_keep; rewrite E; cbn [length]; repeat split; try reflexivity;
    try (eexists; split; [reflexivity|]); try (cbn [length]; lia).
Qed.

(** A CPIR iteration that finds its byte: HL points at 0x42 = A, BC = 2. *)
Definition cpir_demo : machine :=
  upd_regs (fun r => set_PC 0x202 (set_HL 0x100 (set_BC 2 (set_A 0x42 r))))
    (upd_cpu (fun c => set_L true (set_IL true (set_ADL true c)))
       (init_machine (mem_of_list 0x100 [0x42]))).

(** C4, as stated, fails: CPIR that matches with BC still non-zero does not
    re-prefetch; PC stays where it is. *)
Lemma cpir_match_stops_with_BC_nonzero :
  ~ (forall s s',
       cpu_execute_bli 6 1 s = Some (tt, s') ->
       truthy (BC (regs s')) = true ->
       PC (regs s')
       = cpu_address_mode (PC (regs s) - 2 - Z.b2z (SUFFIX (cpu s))) (ADL (cpu s)) s).
Proof.
  intro H.
  assert (H1 : cpu_execute_bli 6 1 cpir_demo
               = Some (tt, final (cpu_execute_bli 6 1) cpir_demo))
    by (apply run_final; vm_compute; reflexivity).
  assert (H2 : truthy (BC (regs (final (cpu_execute_bli 6 1) cpir_demo))) = true)
    by (vm_compute; reflexivity).
  specialize (H _ _ H1 H2). vm_compute in H. discriminate H.
Qed.

Lemma cpu_execute_bli_repeat_witness :
  bli_repeating 6 1 = true /\
  exists s',
    cpu_execute_bli 6 1 cpir_demo = Some (tt, s') /\
    ADL (cpu s') = ADL (cpu cpir_demo).
Proof.
  split; [reflexivity|].
  destruct (cpu_execute_bli_repeat 6 1 cpir_demo eq_refl) as (s' & H & Hadl & _).
  exists s'. split; [exact H | exact Hadl].
Defined.

(** The eZ80 variants that count in BC through [cpu_dec_bc_partial_mode]
    test only the low byte of the new BC, because [old] is a [uint8_t]:
    OTI2R with BC = 0x0101 leaves BC = 0x0100 and does not repeat. *)
Example oti2r_tests_low_byte_of_BC :
  let s := upd_regs (fun r => set_PC 0x202 (set_BC 0x0101 r))
             (upd_cpu (fun c => set_L true (set_IL true (set_ADL true c)))
                (init_machine (fun _ => 0))) in
  BC (regs (final (cpu_execute_bli 6 4) s)) = 0x0100 /\
  PC (regs (final (cpu_execute_bli 6 4) s)) = 0x202.
Proof. split; vm_compute; reflexivity. Qed.

(** * Frames of the interpreter *)

(** The prefix and suffix bytes, which do not complete an instruction. *)
Definition is_prefix_byte (op : Z) : bool :=
  (op =? 0x40) || (op =? 0x49) || (op =? 0x52) || (op =? 0x5B)
  || (op =? 0xDD) || (op =? 0xFD).

(** How the case of an opcode byte leaves the switch. *)
Definition expected_flow (op : Z) (fl : flow) : Prop :=
  match fl with
  | Break => is_prefix_byte op = false /\ op <> 0xFB
  | Goto_exit_loop => is_prefix_byte op = true
  | Continue _ => op = 0xFB
  end.

Ltac flow_leaf :=
  cbv [expected_flow is_prefix_byte];
  first [ by_fields
        | split; [|by_fields];
          repeat (apply orb_false_intro); apply Z.eqb_neq; by_fields
        | repeat (apply orb_true_iff;
                  first [right; apply Z.eqb_eq; by_fields | left]);
          apply Z.eqb_eq; by_fields ].

Lemma execute_opcode_flow op :
  0 <= op < 256 -> yields (expected_flow op) (execute_opcode op).
Proof.
  intros Hop. yields_walk flow_leaf.
Qed.

(** ** The cycle budget *)

(** The cycle budget is left alone: only EI and the boundary code touch
    [cycle_count_delta]. *)
Definition same_delta (s s' : machine) : Prop :=
  cycle_count_delta s' = cycle_count_delta s.
Lemma same_delta_refl s : same_delta s s.
Proof. reflexivity. Qed.
Lemma same_delta_trans s1 s2 s3 : same_delta s1 s2 -> same_delta s2 s3 -> same_delta s1 s3.
Proof. unfold same_delta. congruence. Qed.

Ltac leaf_or_fields := first [leaf_refl | by_fields].

Lemma execute_opcode_same_delta op :
  0 <= op < 256 -> op <> 0xFB -> stable same_delta (execute_opcode op).
Proof.
  intros Hop Hne.
  stable_walk same_delta_refl same_delta_trans leaf_or_fields.
Qed.

(** ** IEF_wait is only ever set *)

Definition keeps_IEF_wait (s s' : machine) : Prop :=
  IEF_wait (cpu s) = true -> IEF_wait (cpu s') = true.
Lemma keeps_IEF_wait_refl s : keeps_IEF_wait s s.
Proof. intro H; exact H. Qed.
Lemma keeps_IEF_wait_trans s1 s2 s3 :
  keeps_IEF_wait s1 s2 -> keeps_IEF_wait s2 s3 -> keeps_IEF_wait s1 s3.
Proof. unfold keeps_IEF_wait. auto. Qed.

Ltac leaf_keep :=
  leaf_with ltac:(unfold keeps_IEF_wait; run; intro; first [assumption | reflexivity]).

Lemma execute_opcode_keeps_IEF_wait op : stable keeps_IEF_wait (execute_opcode op).
Proof.
  stable_walk keeps_IEF_wait_refl keeps_IEF_wait_trans leaf_keep.
Qed.

(** ** Cycles are only ever added *)

Definition cycles_nonneg (s s' : machine) : Prop :=
  0 <= cycles (cpu s) -> 0 <= cycles (cpu s').
Lemma cycles_nonneg_refl s : cycles_nonneg s s.
Proof. intro H; exact H. Qed.
Lemma cycles_nonneg_trans s1 s2 s3 :
  cycles_nonneg s1 s2 -> cycles_nonneg s2 s3 -> cycles_nonneg s1 s3.
Proof. unfold cycles_nonneg. auto. Qed.

Ltac leaf_cycles :=
  leaf_with ltac:(unfold cycles_nonneg; run; intro;
                  repeat match goal with
                         | H : (_ <? _) = true |- _ => apply Z.ltb_lt in H
                         end;
                  lia).

Lemma execute_opcode_cycles_nonneg op :
  0 <= op < 256 -> op <> 0xFB -> stable cycles_nonneg (execute_opcode op).
Proof.
  intros Hop Hne.
  stable_walk cycles_nonneg_refl cycles_nonneg_trans
    ltac:(first [leaf_cycles | by_fields]).
Qed.

(** ** The refresh register *)

Definition same_R (s s' : machine) : Prop := R (regs s') = R (regs s).
Lemma same_R_refl s : same_R s s.
Proof. reflexivity. Qed.
Lemma same_R_trans s1 s2 s3 : same_R s1 s2 -> same_R s2 s3 -> same_R s1 s3.
Proof. unfold same_R. congruence. Qed.

(** Every ED-prefixed instruction but LD R,A (ED 4F) leaves R alone. *)
Lemma execute_ed_same_R op :
  0 <= op < 256 -> op <> 0x4F -> stable same_R (execute_ed op).
Proof.
  intros Hop Hne.
  stable_walk same_R_refl same_R_trans leaf_or_fields.
Qed.

(** Every other instruction leaves R alone, the CB-prefixed ones included:
    the fetch of their second opcode byte does not touch R. *)
Lemma execute_opcode_same_R op :
  0 <= op < 256 -> op <> 0xED -> stable same_R (execute_opcode op).
Proof.
  intros Hop Hne.
  stable_walk same_R_refl same_R_trans leaf_or_fields.
Qed.

Lemma boundary_same_R off fl : stable same_R (boundary off fl).
Proof. stable_walk same_R_refl same_R_trans leaf_refl. Qed.

(** ** No abort *)

Lemma execute_opcode_total op : total (execute_opcode op).
Proof. total_walk. Qed.

Lemma inner_body_total off : total (inner_body off).
Proof.
  unfold inner_body. apply total_bind; [total_walk|intro].
  apply total_bind; [apply execute_opcode_total|intro].
  total_walk.
Qed.

(** ** The prefetch byte is a byte *)

Definition byte_prefetch (s s' : machine) : Prop :=
  0 <= prefetch (cpu s) < 256 -> 0 <= prefetch (cpu s') < 256.
Lemma byte_prefetch_refl s : byte_prefetch s s.
Proof. intro H; exact H. Qed.
Lemma byte_prefetch_trans s1 s2 s3 :
  byte_prefetch s1 s2 -> byte_prefetch s2 s3 -> byte_prefetch s1 s3.
Proof. unfold byte_prefetch. auto. Qed.

Lemma cpu_prefetch_byte address mode : stable byte_prefetch (cpu_prefetch address mode).
Proof.
  intros s x s' H _. destruct_machine s. revert H. run.
  intros H; injection H as _ <-. run. apply u8_range.
Qed.
#[export] Hint Resolve cpu_prefetch_byte : frame.

Ltac leaf_byte :=
  leaf_with ltac:(unfold byte_prefetch; run; intro; assumption).

Lemma execute_opcode_byte_prefetch op : stable byte_prefetch (execute_opcode op).
Proof. stable_walk byte_prefetch_refl byte_prefetch_trans leaf_byte. Qed.

Lemma boundary_byte_prefetch off fl : stable byte_prefetch (boundary off fl).
Proof. stable_walk byte_prefetch_refl byte_prefetch_trans leaf_byte. Qed.

(** * One pass of the interpreter loop *)

(** The increment of R: bits 0..6 count modulo 128, bit 7 stays. *)
Definition r_inc (r : Z) : Z := Z.land (r + 1) 0x7F .| Z.land r 0x80.

(** The state after the head of the loop body. *)
Definition after_fetch (s : machine) : machine :=
  let pc := cpu_address_mode (PC (regs s) + 1) (ADL (cpu s)) s in
  let v := u8 (mem s pc) in
  upd_regs (fun r => set_R (r_inc (R r)) (set_PC pc r))
    (upd_cpu (fun c => set_prefetch v (set_cycles 0 c))
       (log_event (MemRead pc v) s)).

Lemma fetch_opcode_run s : fetch_opcode s = Some (prefetch (cpu s), after_fetch s).
Proof. destruct_machine s. cbv [after_fetch r_inc]. run. reflexivity. Qed.

(** Between instructions: PREFIX = SUFFIX = 0 and L = IL = ADL. *)
Definition normalized (s : machine) : Prop :=
  PREFIX (cpu s) = 0 /\ SUFFIX (cpu s) = false /\
  L (cpu s) = ADL (cpu s) /\ IL (cpu s) = ADL (cpu s).

(** The boundary code after a [break] out of the switch. *)
Lemma boundary_break off s r s' :
  boundary off Break s = Some (r, s') ->
  normalized s' /\ snd r = off /\
  IEF_wait (cpu s') = IEF_wait (cpu s) /\ R (regs s') = R (regs s) /\
  (0 <= cycles (cpu s) ->
   if fst r then cycle_count_delta s' = 0
   else cycle_count_delta s + 1 <= cycle_count_delta s').
Proof.
  destruct_machine s. run. unfold normalized.
  destruct (truthy (Z.land ev EVENT_DEBUG_STEP)); run.
  - intros H. injection H as <- <-. run. repeat split; reflexivity.
  - destruct (cy =? 0) eqn:E; run; intros H; injection H as <- <-; run;
      repeat split; try reflexivity; cbn [fst]; run; intros;
      first [apply Z.eqb_eq in E | apply Z.eqb_neq in E]; lia.
Qed.

(** A pass over a byte that is neither a prefix nor EI completes an
    instruction: the state is normalised, a pending EI stays pending, and
    at least one cycle is charged to the budget (or the budget is flushed
    by a debugger step). *)
Lemma complete_pass off s r s' :
  0 <= prefetch (cpu s) < 256 ->
  is_prefix_byte (prefetch (cpu s)) = false ->
  prefetch (cpu s) <> 0xFB ->
  inner_body off s = Some (r, s') ->
  normalized s' /\ snd r = off /\
  (IEF_wait (cpu s) = true -> IEF_wait (cpu s') = true) /\
  (if fst r then cycle_count_delta s' = 0
   else cycle_count_delta s + 1 <= cycle_count_delta s').
Proof.
  intros Hop Hpre Hei H. unfold inner_body in H.
  apply bind_inv in H. destruct H as (op & s1 & Hf & H).
  rewrite fetch_opcode_run in Hf. injection Hf as <- <-.
  apply bind_inv in H. destruct H as (fl & s2 & He & Hb).
  pose proof (execute_opcode_flow _ Hop _ _ _ He) as Hfl.
  destruct fl; cbn [expected_flow] in Hfl;
    [ | rewrite Hfl in Hpre; discriminate Hpre | contradiction ].
  pose proof (execute_opcode_same_delta _ Hop Hei _ _ _ He) as Hd.
  pose proof (execute_opcode_cycles_nonneg _ Hop Hei _ _ _ He) as Hc.
  pose proof (execute_opcode_keeps_IEF_wait _ _ _ _ He) as Hw.
  destruct (boundary_break _ _ _ _ Hb) as (Hn & Hoff & Hiw & _ & Hdelta).
  unfold same_delta in Hd. unfold cycles_nonneg in Hc. unfold keeps_IEF_wait in Hw.
  assert (Hc0 : cycles (cpu (after_fetch s)) = 0) by (destruct_machine s; reflexivity).
  assert (Hd0 : cycle_count_delta (after_fetch s) = cycle_count_delta s)
    by (destruct_machine s; reflexivity).
  assert (Hw0 : IEF_wait (cpu (after_fetch s)) = IEF_wait (cpu s))
    by (destruct_machine s; reflexivity).
  split; [exact Hn|]. split; [exact Hoff|]. split.
  - intro Hs. rewrite Hiw. apply Hw. rewrite Hw0. exact Hs.
  - assert (Hc2 : 0 <= cycles (cpu s2)) by (apply Hc; lia).
    specialize (Hdelta Hc2). rewrite Hd, Hd0 in Hdelta. exact Hdelta.
Qed.

(** Decoding a literal opcode: the fields and the tests on them are
    computed, which selects the opcode's case. *)
Ltac eval_lits :=
  repeat match goal with
    | |- context [ctx_x ?n] =>
        is_lit n; let v := eval vm_compute in (ctx_x n) in change (ctx_x n) with v
    | |- context [ctx_y ?n] =>
        is_lit n; let v := eval vm_compute in (ctx_y n) in change (ctx_y n) with v
    | |- context [ctx_z ?n] =>
        is_lit n; let v := eval vm_compute in (ctx_z n) in change (ctx_z n) with v
    | |- context [ctx_p ?n] =>
        is_lit n; let v := eval vm_compute in (ctx_p n) in change (ctx_p n) with v
    | |- context [ctx_q ?n] =>
        is_lit n; let v := eval vm_compute in (ctx_q n) in change (ctx_q n) with v
    | |- context [?a =? ?b] =>
        is_lit a; is_lit b;
        let v := eval vm_compute in (a =? b) in change (a =? b) with v
    | |- context [?a <=? ?b] =>
        is_lit a; is_lit b;
        let v := eval vm_compute in (a <=? b) in change (a <=? b) with v
    | |- context [truthy ?a] =>
        is_lit a; let v := eval vm_compute in (truthy a) in change (truthy a) with v
    | |- context [?a && ?b] =>
        is_lit a; is_lit b;
        let v := eval vm_compute in (a && b) in change (a && b) with v
    end;
  cbv beta iota zeta.
Ltac decode := cbv beta zeta delta [execute_opcode execute_ed execute_cb]; eval_lits.

(** The pass of EI: IEF_wait is set, the budget is parked at -1 and its
    old value kept in [cycle_offset]; IEF1 and IEF2 are not touched. *)
Definition after_ei (s : machine) : machine :=
  set_cycle_count_delta (-1) (upd_cpu (set_IEF_wait true) (after_fetch s)).

Lemma ei_pass off s :
  prefetch (cpu s) = 0xFB ->
  inner_body off s = Some ((false, cycle_count_delta s + 1), after_ei s).
Proof.
  intros Hop. unfold inner_body, bind. rewrite fetch_opcode_run, Hop.
  unfold execute_opcode; eval_lits.
  destruct_machine s. cbv [after_ei after_fetch r_inc]. run.
  rewrite Z.add_0_r. reflexivity.
Qed.

(** A pass over a prefix or suffix byte: one cycle, no boundary code, and
    the loop goes on. *)
Lemma prefix_pass off s r s' :
  is_prefix_byte (prefetch (cpu s)) = true ->
  inner_body off s = Some (r, s') ->
  r = (false, off) /\
  IEF_wait (cpu s') = IEF_wait (cpu s) /\
  cycle_count_delta s' = cycle_count_delta s + 1 /\
  (truthy (PREFIX (cpu s')) = true \/ SUFFIX (cpu s') = true) /\
  exiting s' = exiting s.
Proof.
  intros Hop. unfold is_prefix_byte in Hop.
  repeat (rewrite orb_true_iff in Hop || rewrite Z.eqb_eq in Hop).
  unfold inner_body, bind. rewrite fetch_opcode_run.
  destruct Hop as [[[[[Hop|Hop]|Hop]|Hop]|Hop]|Hop]; rewrite Hop;
    unfold execute_opcode; eval_lits;
    destruct_machine s; cbv [after_fetch r_inc]; run;
    intros H; injection H as <- <-; run; repeat split;
    first [reflexivity | left; reflexivity | right; reflexivity].
Qed.

Lemma after_fetch_byte s : 0 <= prefetch (cpu (after_fetch s)) < 256.
Proof. destruct_machine s. cbv [after_fetch]. run. apply u8_range. Qed.

(** After every pass the prefetch byte is a byte. *)
Lemma inner_body_byte_prefetch off s r s' :
  inner_body off s = Some (r, s') -> 0 <= prefetch (cpu s') < 256.
Proof.
  intros H. unfold inner_body in H.
  apply bind_inv in H. destruct H as (op & s1 & Hf & H).
  rewrite fetch_opcode_run in Hf. injection Hf as <- <-.
  apply bind_inv in H. destruct H as (fl & s2 & He & Hb).
  apply (boundary_byte_prefetch _ _ _ _ _ Hb).
  apply (execute_opcode_byte_prefetch _ _ _ _ He).
  apply after_fetch_byte.
Qed.

(** * EI *)

(** The passes of the inner loop over one instruction: its prefix and
    suffix bytes and then the byte [op] that completes it.  Each pass is
    entered because the loop condition holds. *)
Inductive one_instruction : Z -> machine -> Z -> bool * Z -> machine -> Prop :=
  | instr_last off s r s' :
      inner_cond s = true ->
      is_prefix_byte (prefetch (cpu s)) = false ->
      inner_body off s = Some (r, s') ->
      one_instruction off s (prefetch (cpu s)) r s'
  | instr_prefix off s r1 s1 op r s' :
      inner_cond s = true ->
      is_prefix_byte (prefetch (cpu s)) = true ->
      inner_body off s = Some (r1, s1) ->
      one_instruction (snd r1) s1 op r s' ->
      one_instruction off s op r s'.

Lemma one_instruction_after_ei off s op r s' :
  one_instruction off s op r s' ->
  op <> 0xFB ->
  0 <= prefetch (cpu s) < 256 ->
  IEF_wait (cpu s) = true ->
  -1 <= cycle_count_delta s ->
  (fst r = true \/ inner_cond s' = false) /\ IEF_wait (cpu s') = true.
Proof.
  induction 1 as [off s r s' Hc Hp Hb | off s r1 s1 op r s' Hc Hp Hb Hi IH];
    intros Hei Hbyte Hiw Hd.
  - destruct (complete_pass _ _ _ _ Hbyte Hp Hei Hb) as ((Hn1 & Hn2 & _) & _ & Hw & Hdelta).
    split; [|exact (Hw Hiw)].
    destruct (fst r); [left; reflexivity | right].
    unfold inner_cond. rewrite Hn1, Hn2.
    replace (cycle_count_delta s' <? 0) with false by (symmetry; apply Z.ltb_ge; lia).
    cbn. apply andb_false_r.
  - destruct (prefix_pass _ _ _ _ Hp Hb) as (-> & Hw & Hdelta & _ & _).
    apply IH; try assumption.
    + apply (inner_body_byte_prefetch _ _ _ _ Hb).
    + rewrite Hw. exact Hiw.
    + rewrite Hdelta. lia.
Qed.

(** With IEF_wait set and an interrupt pending, the interrupt check enables
    IEF1 and IEF2 and recognises the interrupt. *)
Lemma interrupt_check_after_ei s :
  IEF_wait (cpu s) = true ->
  intrpt_pending s = true ->
  IEF1 (cpu (final ei_enable s)) = true /\
  IEF2 (cpu (final ei_enable s)) = true /\
  interrupt_check s = interrupt_acknowledge (final ei_enable s).
Proof.
  destruct_machine s. cbv [intrpt_pending]. run. intros -> Hp.
  cbv [final interrupt_check intrpt_pending]. run. rewrite Hp.
  repeat split; reflexivity.
Qed.

(** C5, as amended.  The pass of EI leaves IEF1 and IEF2 as they are: it
    sets IEF_wait, parks the budget at -1 and goes round the inner loop
    again, so that, unless the emulator is exiting, the next instruction
    runs with no interrupt check in between.  When that instruction is
    not EI itself, the inner loop is left after it with IEF_wait still
    set; the interrupt check that follows sets IEF1 and IEF2 and, the
    interrupt being pending, recognises it. *)
Theorem ei_delays_interrupt (s : machine) (off : Z) :
  prefetch (cpu s) = 0xFB ->
  inner_body off s = Some ((false, cycle_count_delta s + 1), after_ei s) /\
  IEF1 (cpu (after_ei s)) = IEF1 (cpu s) /\
  IEF2 (cpu (after_ei s)) = IEF2 (cpu s) /\
  IEF_wait (cpu (after_ei s)) = true /\
  inner_cond (after_ei s) = negb (exiting s) /\
  forall op r s2,
    one_instruction (cycle_count_delta s + 1) (after_ei s) op r s2 ->
    op <> 0xFB ->
    (fst r = true \/ inner_cond s2 = false) /\
    IEF_wait (cpu s2) = true /\
    forall d,
      intrpt_pending s2 = true ->
      let s3 := set_cycle_count_delta d s2 in
      IEF1 (cpu (final ei_enable s3)) = true /\
      IEF2 (cpu (final ei_enable s3)) = true /\
      interrupt_check s3 = interrupt_acknowledge (final ei_enable s3).
Proof.
  intros Hop. split; [apply ei_pass; exact Hop|].
  assert (Hfacts : IEF1 (cpu (after_ei s)) = IEF1 (cpu s) /\
                   IEF2 (cpu (after_ei s)) = IEF2 (cpu s) /\
                   IEF_wait (cpu (after_ei s)) = true /\
                   inner_cond (after_ei s) = negb (exiting s) /\
                   cycle_count_delta (after_ei s) = -1 /\
                   0 <= prefetch (cpu (after_ei s)) < 256).
  { destruct_machine s. cbv [after_ei after_fetch r_inc inner_cond]. run_keep.
    repeat split; try reflexivity.
    - change (-1 <? 0) with true. rewrite orb_true_r, andb_true_r. reflexivity.
    - apply u8_range.
    - apply u8_range. }
  destruct Hfacts as (H1 & H2 & H3 & H4 & H5 & H6).
  repeat (split; [assumption|]).
  intros op r s2 Hi Hne.
  destruct (one_instruction_after_ei _ _ _ _ _ Hi Hne H6 H3 ltac:(lia)) as (Hleft & Hw).
  split; [exact Hleft|]. split; [exact Hw|].
  intros d Hp s3. apply interrupt_check_after_ei.
  - destruct_machine s2. exact Hw.
  - destruct_machine s2. exact Hp.
Qed.
(** * EI followed by an instruction, on a concrete machine *)

(** After reset, with EI; NOP at address 0, a budget of four cycles and an
    interrupt pending throughout. *)
Definition ei_demo : machine :=
  set_intrpt_status 1 (set_intrpt_enabled 1 (boot [0xFB; 0x00; 0x00] 4)).

(** On that machine: the pass of EI, then the NOP as the one instruction,
    then the interrupt check. *)
Lemma ei_delays_interrupt_witness :
  let s := ei_demo in
  let off := cycle_count_delta s + 1 in
  let s2 := final (inner_body off) (after_ei s) in
  let s3 := set_cycle_count_delta (cycle_count_delta s2 + off) s2 in
  prefetch (cpu s) = 0xFB /\
  inner_body 0 s = Some ((false, off), after_ei s) /\
  IEF1 (cpu (after_ei s)) = false /\
  one_instruction off (after_ei s) 0x00 (false, off) s2 /\
  inner_cond s2 = false /\
  IEF_wait (cpu s2) = true /\
  intrpt_pending s2 = true /\
  IEF1 (cpu (final ei_enable s3)) = true /\
  IEF2 (cpu (final ei_enable s3)) = true /\
  interrupt_check s3 = interrupt_acknowledge (final ei_enable s3).
Proof.
  cbv zeta.
  assert (Hp : prefetch (cpu ei_demo) = 0xFB) by (vm_compute; reflexivity).
  destruct (ei_delays_interrupt ei_demo 0 Hp) as (H1 & H2 & _ & _ & _ & H6).
  assert (Hone : one_instruction (cycle_count_delta ei_demo + 1) (after_ei ei_demo)
                   (prefetch (cpu (after_ei ei_demo)))
                   (false, cycle_count_delta ei_demo + 1)
                   (final (inner_body (cycle_count_delta ei_demo + 1)) (after_ei ei_demo))).
  { apply instr_last.
    - vm_compute; reflexivity.
    - vm_compute; reflexivity.
    - apply run_final. vm_compute; reflexivity. }
  assert (E : prefetch (cpu (after_ei ei_demo)) = 0x00) by (vm_compute; reflexivity).
  rewrite E in Hone.
  assert (Hne : 0x00 <> 0xFB) by discriminate.
  destruct (H6 _ _ _ Hone Hne) as (_ & Hw & Hchk).
  assert (Hi : intrpt_pending
                 (final (inner_body (cycle_count_delta ei_demo + 1)) (after_ei ei_demo)) = true)
    by (vm_compute; reflexivity).
  destruct (Hchk (cycle_count_delta
                    (final (inner_body (cycle_count_delta ei_demo + 1)) (after_ei ei_demo))
                  + (cycle_count_delta ei_demo + 1)) Hi) as (K1 & K2 & K3).
  split; [exact Hp|]. split; [exact H1|].
  split; [rewrite H2; vm_compute; reflexivity|].
  split; [exact Hone|].
  split; [vm_compute; reflexivity|].
  split; [exact Hw|]. split; [exact Hi|].
  split; [exact K1|]. split; [exact K2 | exact K3].
Defined.

(** C5, as stated, fails when the instruction after EI is EI: after reset
    on EI; EI; NOP the second EI parks the budget at -1 again, the inner
    loop is not left, and a second instruction runs before the next
    interrupt check. *)
Lemma ei_after_ei_delays_again :
  ~ (forall s op r s2,
       prefetch (cpu s) = 0xFB ->
       one_instruction (cycle_count_delta s + 1) (after_ei s) op r s2 ->
       fst r = true \/ inner_cond s2 = false).
Proof.
  intro H.
  pose (s := boot [0xFB; 0xFB; 0x00] 4).
  pose (off := cycle_count_delta s + 1).
  assert (Hp : prefetch (cpu s) = 0xFB) by (vm_compute; reflexivity).
  assert (Hc : inner_cond (after_ei s) = true) by (vm_compute; reflexivity).
  assert (Hn : is_prefix_byte (prefetch (cpu (after_ei s))) = false)
    by (vm_compute; reflexivity).
  assert (Hb : inner_body off (after_ei s)
               = Some ((false, 0), final (inner_body off) (after_ei s)))
    by (apply run_final; vm_compute; reflexivity).
  destruct (H s _ _ _ Hp (instr_last _ _ _ _ Hc Hn Hb)) as [E|E];
    vm_compute in E; discriminate E.
Qed.

(** The same sequence run through the loops: the first pass of the outer
    loop executes EI and the NOP and recognises nothing; the interrupt
    check of the second pass takes the interrupt, with the address after
    the NOP as return address. *)
Example ei_nop_interrupt_demo :
  let s1 := final (outer_body 5) ei_demo in
  let s2 := final interrupt_check s1 in
  option_map fst (outer_body 5 ei_demo) = Some true /\
  PC (regs s1) = 2 /\ IEF1 (cpu s1) = false /\ IEF_wait (cpu s1) = true /\
  bus s1 = [MemRead 2 0; MemRead 1 0; MemRead 0 0xFB] /\
  cycle_count_delta s1 = -3 /\
  PC (regs s2) = 0x38 /\ IEF1 (cpu s2) = false /\ IEF_wait (cpu s2) = false /\
  bus s2 = [MemRead 0x38 0; MemWrite 0xFFFE 2; MemWrite 0xFFFF 0;
            MemRead 2 0; MemRead 1 0; MemRead 0 0xFB].
Proof.
  cbv zeta.
  repeat match goal with |- _ /\ _ => split end; vm_compute; reflexivity.
Qed.


(** * The refresh register *)

Lemma r_inc_bit7 r : Z.land (r_inc r) 0x80 = Z.land r 0x80.
Proof.
  unfold r_inc. rewrite Z.land_lor_distr_l, <- !Z.land_assoc.
  change (Z.land 0x7F 0x80) with 0. change (Z.land 0x80 0x80) with 0x80.
  rewrite Z.land_0_r. reflexivity.
Qed.
Lemma r_inc_low7 r : Z.land (r_inc r) 0x7F = (Z.land r 0x7F + 1) mod 128.
Proof.
  unfold r_inc. rewrite Z.land_lor_distr_l, <- !Z.land_assoc.
  change (Z.land 0x7F 0x7F) with 0x7F. change (Z.land 0x80 0x7F) with 0.
  rewrite Z.land_0_r, Z.lor_0_r.
  change 0x7F with (Z.ones 7). rewrite !Z.land_ones by lia.
  change (2 ^ 7) with 128. rewrite Zplus_mod_idemp_l. reflexivity.
Qed.

Lemma cpu_fetch_byte_value s v s' :
  cpu_fetch_byte s = Some (v, s') ->
  v = prefetch (cpu s) /\ R (regs s') = R (regs s).
Proof.
  destruct_machine s. run. intros H; injection H as <- <-. run. split; reflexivity.
Qed.

(** The fetch of the second opcode byte of an ED-prefixed instruction does
    not touch R, and neither does the instruction, LD R,A apart. *)
Lemma ed_prefix_same_R s fl s' :
  0 <= prefetch (cpu s) < 256 ->
  prefetch (cpu s) <> 0x4F ->
  execute_opcode 0xED s = Some (fl, s') ->
  R (regs s') = R (regs s).
Proof.
  intros Hb Hne. unfold execute_opcode; eval_lits. intros H.
  apply bind_inv in H. destruct H as ([] & sa & Ha & H).
  apply bind_inv in H. destruct H as ([] & sb & Hsb & H).
  apply bind_inv in H. destruct H as (op2 & sc & Hc & H).
  apply bind_inv in H. destruct H as ([] & sd & Hd & H).
  injection H as _ <-.
  assert (Hab : prefetch (cpu sb) = prefetch (cpu s) /\ R (regs sb) = R (regs s)).
  { destruct_machine s. revert Ha Hsb. run.
    intros Ha; injection Ha as <-. run.
    intros Hsb; injection Hsb as <-. run. split; reflexivity. }
  destruct Hab as (Hpf & Hr).
  destruct (cpu_fetch_byte_value _ _ _ Hc) as (-> & Hrc).
  rewrite Hpf in Hd.
  rewrite (execute_ed_same_R _ Hb Hne _ _ _ Hd), Hrc, Hr. reflexivity.
Qed.

(** What the code does: R is refreshed at the head of the loop only.
    Every pass of the interpreter loop, that is every first opcode byte of
    an instruction and every prefix or suffix byte, increments bits 0..6 of
    R by one modulo 128 and preserves bit 7, and nothing else in the pass
    touches R, LD R,A (ED 4F) apart: the second opcode byte of a CB- or
    ED-prefixed instruction, fetched inside the pass, is not counted. *)
Theorem refresh_once_per_pass (off : Z) (s : machine) :
  0 <= prefetch (cpu s) < 256 ->
  (prefetch (cpu s) = 0xED ->
   u8 (mem s (cpu_address_mode (PC (regs s) + 1) (ADL (cpu s)) s)) <> 0x4F) ->
  exists r s',
    inner_body off s = Some (r, s') /\
    R (regs s') = r_inc (R (regs s)) /\
    Z.land (R (regs s')) 0x80 = Z.land (R (regs s)) 0x80 /\
    Z.land (R (regs s')) 0x7F = (Z.land (R (regs s)) 0x7F + 1) mod 128.
Proof.
  intros Hop Hed.
  destruct (inner_body_total off s) as (r & s' & H).
  exists r, s'. split; [exact H|].
  assert (HR : R (regs s') = r_inc (R (regs s))).
  { unfold inner_body in H.
    apply bind_inv in H. destruct H as (op & s1 & Hf & H).
    rewrite fetch_opcode_run in Hf. injection Hf as <- <-.
    apply bind_inv in H. destruct H as (fl & s2 & He & Hb).
    rewrite (boundary_same_R _ _ _ _ _ Hb).
    assert (H1 : R (regs (after_fetch s)) = r_inc (R (regs s)))
      by (destruct_machine s; reflexivity).
    rewrite <- H1.
    destruct (Z.eq_dec (prefetch (cpu s)) 0xED) as [E|E].
    - rewrite E in He. apply (ed_prefix_same_R _ _ _ (after_fetch_byte s)) in He.
      + exact He.
      + specialize (Hed E). destruct_machine s. exact Hed.
    - exact (execute_opcode_same_R _ Hop E _ _ _ He). }
  rewrite HR. split; [reflexivity|]. split; [apply r_inc_bit7 | apply r_inc_low7].
Qed.

Lemma refresh_once_per_pass_witness :
  let s := boot [0xCB; 0x00] 4 in
  0 <= prefetch (cpu s) < 256 /\
  (prefetch (cpu s) = 0xED ->
   u8 (mem s (cpu_address_mode (PC (regs s) + 1) (ADL (cpu s)) s)) <> 0x4F) /\
  exists r s',
    inner_body 0 s = Some (r, s') /\
    R (regs s') = r_inc (R (regs s)) /\
    Z.land (R (regs s')) 0x80 = Z.land (R (regs s)) 0x80 /\
    Z.land (R (regs s')) 0x7F = (Z.land (R (regs s)) 0x7F + 1) mod 128.
Proof.
  cbv zeta.
  split; [vm_compute; split; [discriminate | reflexivity]|].
  split; [vm_compute; discriminate|].
  apply (refresh_once_per_pass 0 (boot [0xCB; 0x00] 4)).
  - vm_compute; split; [discriminate | reflexivity].
  - vm_compute; discriminate.
Defined.

(** The pass over CB does not refresh R twice: RLC B (CB 00) fetches two
    opcode bytes, PC moves on by two, and R is incremented once. *)
Lemma cb_second_opcode_byte_leaves_R :
  ~ (forall s r s',
       prefetch (cpu s) = 0xCB -> PREFIX (cpu s) = 0 ->
       inner_body 0 s = Some (r, s') ->
       R (regs s') = r_inc (r_inc (R (regs s)))).
Proof.
  intro H.
  assert (H2 : inner_body 0 (boot [0xCB; 0x00] 4)
               = Some ((false, 0), final (inner_body 0) (boot [0xCB; 0x00] 4)))
    by (apply run_final; vm_compute; reflexivity).
  assert (Hp : prefetch (cpu (boot [0xCB; 0x00] 4)) = 0xCB) by (vm_compute; reflexivity).
  assert (Hx : PREFIX (cpu (boot [0xCB; 0x00] 4)) = 0) by (vm_compute; reflexivity).
  specialize (H _ _ _ Hp Hx H2). vm_compute in H. discriminate H.
Qed.

Example cb_00_demo :
  PC (regs (final (inner_body 0) (boot [0xCB; 0x00] 4))) = 2 /\
  R (regs (final (inner_body 0) (boot [0xCB; 0x00] 4))) = 1.
Proof. split; vm_compute; reflexivity. Qed.

(** C8 fails on the code.  After reset, RLC B (CB 00) and NEG (ED 44) are
    each executed in one pass that fetches both opcode bytes: the bus
    shows the reads of the bytes at 1 and 2 and PC ends on 2, but R is 1
    where one increment per opcode byte gives 2.  The CB and ED cases
    assign [context.opcode = cpu_fetch_byte()] without the refresh the
    head of the loop does.  The sibling prefix DD gets it: INC IX (DD 23)
    takes two passes of the loop, one per opcode byte, and leaves R = 2. *)
Theorem second_opcode_byte_is_not_refreshed :
  let cb0 := boot [0xCB; 0x00; 0x00] 4 in
  let cb1 := final (inner_body 0) cb0 in
  let ed0 := boot [0xED; 0x44; 0x00] 4 in
  let ed1 := final (inner_body 0) ed0 in
  let dd0 := boot [0xDD; 0x23; 0x00] 4 in
  let dd1 := final (inner_body 0) dd0 in
  let dd2 := final (inner_body 0) dd1 in
  (inner_body 0 cb0 = Some ((false, 0), cb1) /\
   prefetch (cpu cb0) = 0xCB /\ prefetch (cpu (after_fetch cb0)) = 0x00 /\
   PC (regs cb0) = 0 /\ R (regs cb0) = 0 /\
   bus cb1 = MemRead 2 0x00 :: MemRead 1 0x00 :: bus cb0 /\
   PC (regs cb1) = 2 /\ PREFIX (cpu cb1) = 0 /\
   R (regs cb1) = 1 /\ r_inc (r_inc (R (regs cb0))) = 2) /\
  (inner_body 0 ed0 = Some ((false, 0), ed1) /\
   prefetch (cpu ed0) = 0xED /\ prefetch (cpu (after_fetch ed0)) = 0x44 /\
   PC (regs ed0) = 0 /\ R (regs ed0) = 0 /\
   bus ed1 = MemRead 2 0x00 :: MemRead 1 0x44 :: bus ed0 /\
   PC (regs ed1) = 2 /\ PREFIX (cpu ed1) = 0 /\
   R (regs ed1) = 1 /\ r_inc (r_inc (R (regs ed0))) = 2) /\
  (inner_body 0 dd0 = Some ((false, 0), dd1) /\
   inner_body 0 dd1 = Some ((false, 0), dd2) /\
   prefetch (cpu dd0) = 0xDD /\ prefetch (cpu dd1) = 0x23 /\
   PC (regs dd0) = 0 /\ R (regs dd0) = 0 /\
   PC (regs dd2) = 2 /\ PREFIX (cpu dd2) = 0 /\
   R (regs dd2) = 2).
Proof.
  cbv zeta.
  repeat match goal with |- _ /\ _ => split end;
    try (apply run_final); vm_compute; reflexivity.
Qed.

(** * The boundary normalisation *)

(** Every pass that completes an instruction other than EI ends in a
    normalised state. *)
Lemma normalized_after_instruction off s r s' :
  0 <= prefetch (cpu s) < 256 ->
  is_prefix_byte (prefetch (cpu s)) = false ->
  prefetch (cpu s) <> 0xFB ->
  inner_body off s = Some (r, s') ->
  normalized s'.
Proof. intros Hb Hp He H. exact (proj1 (complete_pass _ _ _ _ Hb Hp He H)). Qed.

(** EI leaves the loop body by [continue], past the boundary code: the
    prefix state it finds is the prefix state it leaves. *)
Lemma ei_keeps_prefix_state s :
  PREFIX (cpu (after_ei s)) = PREFIX (cpu s) /\
  SUFFIX (cpu (after_ei s)) = SUFFIX (cpu s) /\
  L (cpu (after_ei s)) = L (cpu s) /\ IL (cpu (after_ei s)) = IL (cpu s).
Proof. destruct_machine s. repeat split; reflexivity. Qed.

(** C7 fails on the code: after reset, DD FB (EI under a DD prefix) is a
    completed instruction, the next opcode (NOP) is about to be fetched,
    and PREFIX is still 2. *)
Theorem ei_after_prefix_is_not_normalized :
  let s0 := boot [0xDD; 0xFB; 0x00] 4 in
  let s1 := final (inner_body 0) s0 in
  let s2 := final (inner_body 0) s1 in
  normalized s0 /\
  inner_body 0 s0 = Some ((false, 0), s1) /\ is_prefix_byte (prefetch (cpu s0)) = true /\
  inner_body 0 s1 = Some ((false, -2), s2) /\ prefetch (cpu s1) = 0xFB /\
  prefetch (cpu s2) = 0x00 /\ PC (regs s2) = 2 /\
  PREFIX (cpu s2) = 2 /\ ~ normalized s2.
Proof.
  cbv zeta. unfold normalized.
  repeat match goal with |- _ /\ _ => split end;
    try (apply run_final); try (vm_compute; reflexivity).
  intros (H & _). vm_compute in H. discriminate H.
Qed.

(** * Interrupt entry *)

Lemma testbit_small a n : 0 <= a < 2 ^ n -> 0 <= n -> forall k, n <= k -> Z.testbit a k = false.
Proof.
  intros Ha Hn k Hk.
  destruct (Z.eq_dec a 0) as [->|Hz]; [apply Z.bits_0|].
  apply Z.bits_above_log2; [lia|].
  apply Z.log2_lt_pow2; [lia|].
  apply Z.lt_le_trans with (2 ^ n); [lia|]. apply Z.pow_le_mono_r; lia.
Qed.

(** [r->I << 8 | ~r->R]: [~] is applied to the promoted [int], so every bit
    above the low byte is set and the bits of I are lost. *)
Lemma vector_address i r :
  0 <= r < 256 -> u32 (Z.shiftl i 8 .| Z.lnot r) = 0xFFFFFF00 + (255 - r).
Proof.
  intros Hr.
  assert (E : Z.shiftl i 8 .| Z.lnot r = Z.lnot r).
  { apply Z.bits_inj'. intros n Hn.
    rewrite Z.lor_spec, Z.lnot_spec by lia.
    destruct (Z.ltb_spec n 8).
    - rewrite Z.shiftl_spec_low by lia. reflexivity.
    - rewrite (testbit_small r 8) by (change (2 ^ 8) with 256; lia).
      apply orb_true_r. }
  rewrite E. unfold u32. change 0xFFFFFFFF with (Z.ones 32).
  rewrite Z.land_ones by lia. unfold Z.lnot.
  change (2 ^ 32) with 4294967296.
  symmetry. apply Z.mod_unique with (-1); lia.
Qed.

(** In interrupt mode 3 the vector is read from the address whose low byte
    is ~R and whose other bits are all set, whatever I holds. *)
Lemma interrupt_mode_3_vector_read s :
  IM (cpu s) = 3 -> 0 <= R (regs s) < 256 ->
  exists s' v later,
    interrupt_acknowledge s = Some (tt, s') /\
    rev (bus s') = rev (bus s)
                   ++ MemRead (cpu_address_mode (0xFFFFFF00 + (255 - R (regs s)))
                                 (L (cpu s)) s) v :: later.
Proof.
  destruct_machine s. cbn [IM cpu R regs registers]. intros -> Hr.
  unfold interrupt_acknowledge.
  repeat (unfold bind at 1; unfold cset at 1; unfold modify at 1).
  unfold bind at 1; unfold add_delta at 1; unfold modify at 1.
  unfold bind at 1; unfold cget at 1; unfold gets at 1.
  cbn [IM cpu upd_cpu set_cpu set_halted set_IEF2 set_IEF1 set_cycle_count_delta].
  change (negb (3 =? 3)) with false. cbv iota.
  destruct l, madl, adl, il; run;
    rewrite (vector_address rI rR Hr);
    do 3 eexists; (split; [reflexivity|]); cbn [rev]; rewrite <- !app_assoc; cbn [app];
    reflexivity.
Qed.

(** An interrupt in mode 3 with I = 0x12 and R = 0x34.  The vector table
    entry at 0x12CB holds 0x004000; the bytes at 0xFFFFCB hold 0x332211. *)
Definition im3_demo : machine :=
  upd_regs (fun r => set_I_reg 0x12 (set_R 0x34 (set_SPL 0x1000 r)))
    (upd_cpu (fun c => set_IM 3 (set_IEF1 true (set_L true (set_IL true (set_ADL true c)))))
       (set_intrpt_status 1 (set_intrpt_enabled 1
          (init_machine (fun a => if a <? 0x10000
                                  then mem_of_list 0x12CB [0x00; 0x40; 0x00] a
                                  else mem_of_list 0xFFFFCB [0x11; 0x22; 0x33] a))))).

(** C6 fails on the code: the vector is read at 0xFFFFCB, not at
    (I << 8) | (~R & 0xFF) = 0x12CB, and the call goes to 0x332211. *)
Theorem interrupt_mode_3_ignores_I :
  let s' := final interrupt_check im3_demo in
  Z.shiftl (I_reg (regs im3_demo)) 8 .| Z.land (Z.lnot (R (regs im3_demo))) 0xFF = 0x12CB /\
  interrupt_check im3_demo = Some (tt, s') /\
  last (bus s') (MemRead 0 0) = MemRead 0xFFFFCB 0x11 /\
  PC (regs s') = 0x332211.
Proof.
  cbv zeta. repeat match goal with |- _ /\ _ => split end;
    try (apply run_final); vm_compute; reflexivity.
Qed.

(** In the other interrupt modes the call goes to 0x38, with [mixed] = MADL. *)
Lemma interrupt_other_modes s :
  IM (cpu s) <> 3 ->
  interrupt_acknowledge s
  = (cset set_halted false ;; cset set_IEF2 false ;; cset set_IEF1 false ;;
     add_delta 1 ;; cpu_call 0x38 (MADL (cpu s))) s.
Proof.
  intros H. apply Z.eqb_neq in H.
  unfold interrupt_acknowledge, bind, cset, cget, modify, gets, add_delta.
  destruct_machine s. cbn [IM cpu MADL] in *. run_keep.
  cbn [IM cpu upd_cpu set_cpu set_halted set_IEF2 set_IEF1 set_cycle_count_delta MADL].
  rewrite H. reflexivity.
Qed.
(** * Opcode traps *)

Lemma opcode_trap_run s : opcode_trap s = Some (tt, upd_cpu (set_IEF_wait true) s).
Proof. reflexivity. Qed.

(** The rot table entry y = 6 traps, whatever the operand. *)
Lemma cpu_execute_rot_trap z w value s :
  cpu_execute_rot 6 z w value s = opcode_trap s.
Proof. reflexivity. Qed.

(** The second bytes of 0xED prefixed opcodes whose case is marked
    OPCODETRAP in the decoder. *)
Definition ed_trap (opcode : Z) : bool :=
  let x := ctx_x opcode in
  let y := ctx_y opcode in
  let z := ctx_z opcode in
  let q := ctx_q opcode in
  match x with
  | 0 =>
      match z with
      | 0 => y =? 6
      | 2 | 3 => truthy q
      | 5 => true
      | 6 => negb (y =? 7)
      | _ => false
      end
  | 1 =>
      match z with
      | 0 | 1 => y =? 6
      | 5 => (y =? 3) || (y =? 6)
      | 6 => y =? 1
      | 7 => 6 <=? y
      | _ => false
      end
  | 2 => negb (z <=? 4)
  | _ =>
      negb (existsb (Z.eqb opcode) [0xC2; 0xC3; 0xC7; 0xD7; 0xCA; 0xCB; 0xEE])
  end.

(** The second bytes in the block instruction range for which
    [cpu_execute_bli] has no case. *)
Definition bli_gap : list Z := [0x80; 0x81; 0x88; 0x89; 0x90; 0x91; 0x98; 0x99].

Lemma byte_cases (P : Z -> Prop) :
  Forall P (map Z.of_nat (seq 0 256)) -> forall n, 0 <= n < 256 -> P n.
Proof.
  intros H n Hn. rewrite Forall_forall in H. apply H.
  apply in_map_iff. exists (Z.to_nat n). split; [lia|].
  apply in_seq. lia.
Qed.

(** On each of them the decoder sets IEF_wait and does nothing else. *)
Lemma execute_ed_trap opcode s :
  0 <= opcode < 256 -> ed_trap opcode = true ->
  execute_ed opcode s = opcode_trap s.
Proof.
  intros Hb. revert s. pattern opcode. revert opcode Hb. apply byte_cases.
  cbv [seq map Z.of_nat Pos.of_succ_nat Pos.succ].
  repeat (apply Forall_cons;
          [ intros s Ht; vm_compute in Ht;
            first [discriminate Ht | reflexivity] | ]).
  apply Forall_nil.
Qed.

(** A pass over ED and a trapping second byte: IEF_wait is set, the pass
    costs the prefix's one cycle, and of the registers only R and PC
    change; memory is not written. *)
Lemma ed_trap_pass off s :
  prefetch (cpu s) = 0xED ->
  ed_trap (prefetch (cpu (after_fetch s))) = true ->
  exists r s',
    inner_body off s = Some (r, s') /\
    IEF_wait (cpu s') = true /\
    cycles (cpu s') = 1 /\
    regs s' = set_PC (PC (regs s')) (set_R (r_inc (R (regs s))) (regs s)) /\
    mem s' = mem s /\
    IEF1 (cpu s') = IEF1 (cpu s) /\ IEF2 (cpu s') = IEF2 (cpu s) /\
    ADL (cpu s') = ADL (cpu s) /\ MADL (cpu s') = MADL (cpu s) /\
    IM (cpu s') = IM (cpu s) /\
    (fst r = false -> cycle_count_delta s' = cycle_count_delta s + 1).
Proof.
  intros Hop Ht. unfold inner_body, bind. rewrite fetch_opcode_run, Hop.
  unfold execute_opcode; eval_lits.
  pose proof (after_fetch_byte s) as Hb.
  revert Ht Hb. destruct_machine s. cbv [after_fetch r_inc]. run. intros Ht Hb.
  rewrite (execute_ed_trap _ _ Hb Ht). run.
  destruct (truthy (Z.land ev EVENT_DEBUG_STEP)); run;
    do 2 eexists; (split; [reflexivity|]); run;
    repeat match goal with |- _ /\ _ => split end;
    try reflexivity; cbn [fst]; intros; try discriminate; lia.
Qed.

(** The bytes of [bli_gap] pass the guard in front of [cpu_execute_bli]. *)
Lemma bli_gap_not_trap : forallb (fun op => negb (ed_trap op)) bli_gap = true.
Proof. vm_compute. reflexivity. Qed.

(** C9 fails on the code.  The guard in front of [cpu_execute_bli] is
    [y >= 0 && z <= 4], which every y passes; for ED 80, 81, 88, 89, 90,
    91, 98, 99 the block instruction table has no case, so these
    unassigned encodings are executed as a no-operation of one cycle and
    IEF_wait stays clear.  Run after reset on ED 80. *)
Theorem ed_80_is_not_trapped :
  Forall (fun opcode => forall s, execute_ed opcode s = Some (tt, s)) bli_gap /\
  let s0 := boot [0xED; 0x80; 0x00] 4 in
  let s1 := final (inner_body 0) s0 in
  inner_body 0 s0 = Some ((false, 0), s1) /\
  prefetch (cpu s0) = 0xED /\ prefetch (cpu (after_fetch s0)) = 0x80 /\
  IEF_wait (cpu s0) = false /\ IEF_wait (cpu s1) = false /\
  PC (regs s1) = 2 /\ cycles (cpu s1) = 1 /\
  cycle_count_delta s0 = -4 /\ cycle_count_delta s1 = -3.
Proof.
  split.
  - unfold bli_gap. repeat (apply Forall_cons; [intros s; reflexivity|]).
    apply Forall_nil.
  - cbv zeta.
    repeat match goal with |- _ /\ _ => split end;
      try (apply run_final); vm_compute; reflexivity.
Qed.

(** * LD MB,A *)

(** The case of LD MB,A in the 0xED table: two cycles, and MBASE := A in
    ADL mode only. *)
Lemma execute_ed_ld_mb_a s :
  execute_ed 0x6D s =
  Some (tt, upd_regs (fun r => if ADL (cpu s) then set_MBASE (A r) r else r)
              (upd_cpu (fun c => set_cycles (cycles c + 2) c) s)).
Proof.
  unfold execute_ed; eval_lits. destruct_machine s. run.
  destruct adl; reflexivity.
Qed.

(** C10.  A pass over ED 6D (LD MB,A): in ADL mode MBASE := A; in Z80 mode
    MBASE keeps its value; in both modes every other register but R and PC
    is unchanged and memory is not written.  The pass costs three cycles:
    one of the ED prefix and the two of LD MB,A, in ADL mode or not. *)
Theorem ld_mb_a_only_in_adl (s : machine) (off : Z) :
  prefetch (cpu s) = 0xED ->
  prefetch (cpu (after_fetch s)) = 0x6D ->
  exists r s',
    inner_body off s = Some (r, s') /\
    MBASE (regs s') = (if ADL (cpu s) then A (regs s) else MBASE (regs s)) /\
    regs s' = set_MBASE (MBASE (regs s'))
                (set_PC (PC (regs s')) (set_R (r_inc (R (regs s))) (regs s))) /\
    mem s' = mem s /\
    cycles (cpu s') = 1 + 2 /\
    (fst r = false -> cycle_count_delta s' = cycle_count_delta s + 3).
Proof.
  intros Hop H2. unfold inner_body, bind. rewrite fetch_opcode_run, Hop.
  unfold execute_opcode; eval_lits.
  revert H2. destruct_machine s. cbv [after_fetch r_inc]. run. intros H2.
  rewrite H2, execute_ed_ld_mb_a. run.
  destruct (truthy (Z.land ev EVENT_DEBUG_STEP)), adl; run;
    do 2 eexists; (split; [reflexivity|]); run;
    repeat match goal with |- _ /\ _ => split end;
    try reflexivity; cbn [fst]; intros; try discriminate; lia.
Qed.

(** After reset, with A = 0xD0, MBASE = 0x12 and ED 6D at address 0; the
    mode is set by hand. *)
Definition ld_mb_demo (adl : bool) : machine :=
  upd_cpu (set_ADL adl)
    (upd_regs (fun r => set_A 0xD0 (set_MBASE 0x12 r)) (boot [0xED; 0x6D] 4)).

Lemma ld_mb_a_only_in_adl_witness :
  let s := ld_mb_demo true in
  prefetch (cpu s) = 0xED /\
  prefetch (cpu (after_fetch s)) = 0x6D /\
  exists r s',
    inner_body 0 s = Some (r, s') /\
    MBASE (regs s') = (if ADL (cpu s) then A (regs s) else MBASE (regs s)) /\
    regs s' = set_MBASE (MBASE (regs s'))
                (set_PC (PC (regs s')) (set_R (r_inc (R (regs s))) (regs s))) /\
    mem s' = mem s /\
    cycles (cpu s') = 1 + 2 /\
    (fst r = false -> cycle_count_delta s' = cycle_count_delta s + 3).
Proof.
  cbv zeta. split; [vm_compute; reflexivity|]. split; [vm_compute; reflexivity|].
  apply (ld_mb_a_only_in_adl (ld_mb_demo true) 0); vm_compute; reflexivity.
Defined.

(** The same in Z80 mode: the instruction is fetched through MBASE, so
    ED 6D lies at 0x120000. *)
Definition ld_mb_demo_short : machine :=
  set_mem (mem_of_list 0x120000 [0xED; 0x6D]) (ld_mb_demo false).

Example ld_mb_a_demo :
  let long := final (inner_body 0) (ld_mb_demo true) in
  let short := final (inner_body 0) ld_mb_demo_short in
  MBASE (regs long) = 0xD0 /\ cycles (cpu long) = 3 /\
  prefetch (cpu ld_mb_demo_short) = 0xED /\
  prefetch (cpu (after_fetch ld_mb_demo_short)) = 0x6D /\
  MBASE (regs short) = 0x12 /\ cycles (cpu short) = 3 /\
  PC (regs short) = 0x120002 /\ cycle_count_delta short = -1.
Proof. cbv zeta. repeat split; vm_compute; reflexivity. Qed.
(** * The loops of [cpu_execute] *)

(** ** No abort *)

Lemma interrupt_check_total : total interrupt_check.
Proof. total_walk. Qed.

Lemma inner_loop_total fuel : forall off, total (inner_loop fuel off).
Proof.
  induction fuel as [|fuel IH]; intros off s; cbn [inner_loop];
    destruct (inner_cond s); eauto.
  unfold bind. destruct (inner_body_total off s) as ([stop off'] & s1 & H).
  rewrite H. destruct stop; [unfold ret; eauto | apply IH].
Qed.

Lemma outer_body_total fuel : total (outer_body fuel).
Proof.
  unfold outer_body. apply total_bind; [apply interrupt_check_total|intros _].
  apply total_bind; [apply inner_loop_total|intros [off|]]; total_walk.
Qed.

(** No byte sequence and no state makes [cpu_execute] reach one of the
    [abort()] calls of the register decoders: whatever the budget of loop
    passes, the run returns. *)
Theorem cpu_execute_never_aborts (passes fuel : nat) (s : machine) :
  exists ok s', cpu_execute passes fuel s = Some (ok, s').
Proof.
  revert s. induction passes as [|passes IH]; intros s; cbn [cpu_execute];
    destruct (outer_cond s); eauto.
  unfold bind. destruct (outer_body_total fuel s) as (ok & s1 & H).
  rewrite H. destruct ok; [apply IH | unfold ret; eauto].
Qed.

(** ** The cycle budget *)

(** EI is the only opcode byte whose pass can lower the budget: the pass
    over any other byte, prefixes included, charges at least one cycle,
    or stops for the debugger with the budget flushed to 0. *)
Theorem pass_charges_budget (off : Z) (s : machine) :
  0 <= prefetch (cpu s) < 256 ->
  prefetch (cpu s) <> 0xFB ->
  exists r s',
    inner_body off s = Some (r, s') /\
    if fst r then cycle_count_delta s' = 0
    else cycle_count_delta s + 1 <= cycle_count_delta s'.
Proof.
  intros Hb Hei.
  destruct (inner_body_total off s) as (r & s' & H).
  exists r, s'. split; [exact H|].
  destruct (is_prefix_byte (prefetch (cpu s))) eqn:Hp.
  - destruct (prefix_pass _ _ _ _ Hp H) as (-> & _ & Hd & _). cbn [fst]. lia.
  - exact (proj2 (proj2 (proj2 (complete_pass _ _ _ _ Hb Hp Hei H)))).
Qed.

Lemma pass_charges_budget_witness :
  let s := boot [0x00; 0x00] 4 in
  0 <= prefetch (cpu s) < 256 /\
  prefetch (cpu s) <> 0xFB /\
  exists r s',
    inner_body 0 s = Some (r, s') /\
    if fst r then cycle_count_delta s' = 0
    else cycle_count_delta s + 1 <= cycle_count_delta s'.
Proof.
  cbv zeta.
  split; [vm_compute; split; [discriminate | reflexivity]|].
  split; [vm_compute; discriminate|].
  apply (pass_charges_budget 0 (boot [0x00; 0x00] 4)).
  - vm_compute; split; [discriminate | reflexivity].
  - vm_compute; discriminate.
Defined.

(** ** HALT *)

(** The pass of HALT (0x76) with budget left: the CPU is halted, PC has
    moved past the opcode, the whole remaining budget is consumed and the
    inner loop is left. *)
Theorem halt_consumes_budget (off : Z) (s : machine) :
  prefetch (cpu s) = 0x76 ->
  cycle_count_delta s < 0 ->
  exists r s',
    inner_body off s = Some (r, s') /\
    halted (cpu s') = true /\
    PC (regs s') = cpu_address_mode (PC (regs s) + 1) (ADL (cpu s)) s /\
    cycle_count_delta s' = 0 /\
    inner_cond s' = false.
Proof.
  intros Hop Hd. unfold inner_body, bind. rewrite fetch_opcode_run, Hop.
  unfold execute_opcode; eval_lits.
  revert Hd. destruct_machine s. cbv [after_fetch r_inc inner_cond]. run_keep. intros Hd.
  replace (delta + 0 <? 0) with true by (symmetry; apply Z.ltb_lt; lia).
  run_keep.
  destruct (truthy (Z.land ev EVENT_DEBUG_STEP)); run_keep.
  - do 2 eexists. split; [reflexivity|]. run_keep.
    repeat match goal with |- _ /\ _ => split end; try reflexivity.
    cbn. apply andb_false_r.
  - replace (- delta =? 0) with false by (symmetry; apply Z.eqb_neq; lia).
    run_keep.
    do 2 eexists. split; [reflexivity|]. run_keep.
    assert (E : delta + - delta = 0) by lia.
    repeat match goal with |- _ /\ _ => split end; try reflexivity; try exact E.
    rewrite E. cbn. apply andb_false_r.
Qed.

Lemma halt_consumes_budget_witness :
  let s := boot [0x76; 0x00] 4 in
  prefetch (cpu s) = 0x76 /\
  cycle_count_delta s < 0 /\
  exists r s',
    inner_body 0 s = Some (r, s') /\
    halted (cpu s') = true /\
    PC (regs s') = cpu_address_mode (PC (regs s) + 1) (ADL (cpu s)) s /\
    cycle_count_delta s' = 0 /\
    inner_cond s' = false.
Proof.
  cbv zeta.
  split; [vm_compute; reflexivity|].
  split; [vm_compute; reflexivity|].
  apply (halt_consumes_budget 0 (boot [0x76; 0x00] 4)); vm_compute; reflexivity.
Defined.

Lemma interrupt_check_halted s :
  halted (cpu s) = true -> IEF_wait (cpu s) = false ->
  IEF1 (cpu s) && intrpt_pending s = false ->
  interrupt_check s = Some (tt, set_cycle_count_delta 0 s).
Proof.
  intros Hh Hw Hi.
  unfold interrupt_check, bind, cget, gets, when.
  rewrite Hw, Hi, Hh. reflexivity.
Qed.

(** A halted CPU between instructions, with no interrupt it may take,
    executes nothing: [cpu_execute] drops the budget to 0 and returns,
    with no bus access and every register as it was. *)
Theorem halted_cpu_idles (passes fuel : nat) (s : machine) :
  halted (cpu s) = true ->
  IEF_wait (cpu s) = false ->
  IEF1 (cpu s) && intrpt_pending s = false ->
  PREFIX (cpu s) = 0 -> SUFFIX (cpu s) = false ->
  exiting s = false -> cycle_count_delta s < 0 ->
  cpu_execute (S passes) fuel s = Some (true, set_cycle_count_delta 0 s).
Proof.
  intros Hh Hw Hi Hp Hs He Hd.
  assert (Hc : inner_cond (set_cycle_count_delta 0 s) = false).
  { unfold inner_cond. destruct_machine s. cbn in *. subst. reflexivity. }
  assert (Ho : outer_cond (set_cycle_count_delta 0 s) = false).
  { unfold outer_cond. destruct_machine s. cbn. apply andb_false_r. }
  cbn [cpu_execute]. unfold outer_cond. rewrite He.
  replace (cycle_count_delta s <? 0) with true by (symmetry; apply Z.ltb_lt; lia).
  cbn [negb andb]. unfold outer_body, bind.
  rewrite (interrupt_check_halted s Hh Hw Hi).
  assert (Hl : inner_loop fuel 0 (set_cycle_count_delta 0 s)
               = Some (Some 0, set_cycle_count_delta 0 s)).
  { destruct fuel; cbn [inner_loop]; rewrite Hc; reflexivity. }
  rewrite Hl. unfold add_delta, modify, ret.
  assert (E : set_cycle_count_delta (cycle_count_delta (set_cycle_count_delta 0 s) + 0)
                (set_cycle_count_delta 0 s) = set_cycle_count_delta 0 s).
  { destruct_machine s. reflexivity. }
  rewrite E.
  destruct passes; cbn [cpu_execute]; rewrite Ho; reflexivity.
Qed.

(** A halted machine: the state HALT leaves after reset. *)
Definition halted_demo : machine :=
  set_cycle_count_delta (-10) (final (inner_body 0) (boot [0x76; 0x00] 4)).

Lemma halted_cpu_idles_witness :
  halted (cpu halted_demo) = true /\
  IEF_wait (cpu halted_demo) = false /\
  IEF1 (cpu halted_demo) && intrpt_pending halted_demo = false /\
  PREFIX (cpu halted_demo) = 0 /\ SUFFIX (cpu halted_demo) = false /\
  exiting halted_demo = false /\ cycle_count_delta halted_demo < 0 /\
  cpu_execute 1 5 halted_demo = Some (true, set_cycle_count_delta 0 halted_demo).
Proof.
  repeat match goal with |- _ /\ _ => split end;
    try (apply (halted_cpu_idles 0 5 halted_demo)); vm_compute; reflexivity.
Defined.

(** ** Interrupts disabled *)

(** With IEF1 clear and no EI pending, the interrupt check takes no
    interrupt, whatever the controller requests: a running CPU is left
    exactly as it was. *)
Theorem masked_interrupt_is_not_taken (s : machine) :
  IEF1 (cpu s) = false -> IEF_wait (cpu s) = false -> halted (cpu s) = false ->
  interrupt_check s = Some (tt, s).
Proof.
  intros H1 Hw Hh.
  unfold interrupt_check, bind, cget, gets, when.
  rewrite Hw, H1. cbn [andb]. rewrite Hh. reflexivity.
Qed.

Lemma masked_interrupt_is_not_taken_witness :
  let s := set_intrpt_status 1 (set_intrpt_enabled 1 (boot [0x00] 4)) in
  IEF1 (cpu s) = false /\ IEF_wait (cpu s) = false /\ halted (cpu s) = false /\
  intrpt_pending s = true /\
  interrupt_check s = Some (tt, s).
Proof.
  cbv zeta.
  repeat match goal with |- _ /\ _ => split end;
    try (apply masked_interrupt_is_not_taken); vm_compute; reflexivity.
Defined.

(** The pass of DI (0xF3) clears IEF1 and IEF2 and leaves IEF_wait alone.
    So a DI that is the instruction after EI does not keep interrupts
    off: IEF_wait is still set, and the interrupt check that follows sets
    IEF1 and IEF2 again. *)
Theorem di_after_ei_is_undone (off : Z) (s : machine) :
  prefetch (cpu s) = 0xF3 ->
  exists r s',
    inner_body off s = Some (r, s') /\
    IEF1 (cpu s') = false /\ IEF2 (cpu s') = false /\
    IEF_wait (cpu s') = IEF_wait (cpu s) /\
    (IEF_wait (cpu s) = true ->
     IEF1 (cpu (final ei_enable s')) = true /\
     IEF2 (cpu (final ei_enable s')) = true /\
     (intrpt_pending s' = true ->
      interrupt_check s' = interrupt_acknowledge (final ei_enable s'))).
Proof.
  intros Hop.
  destruct (inner_body_total off s) as (r & s' & H).
  exists r, s'. split; [exact H|].
  assert (K : IEF1 (cpu s') = false /\ IEF2 (cpu s') = false /\
              IEF_wait (cpu s') = IEF_wait (cpu s)).
  { revert H. unfold inner_body, bind. rewrite fetch_opcode_run, Hop.
    unfold execute_opcode; eval_lits.
    destruct_machine s. cbv [after_fetch r_inc]. run.
    destruct (truthy (Z.land ev EVENT_DEBUG_STEP)); run;
      [|destruct (1 =? 0); run]; intros H; injection H as _ <-;
      repeat split; reflexivity. }
  destruct K as (K1 & K2 & K3).
  repeat (split; [assumption|]).
  intros Hw. rewrite <- K3 in Hw. clear - Hw.
  destruct_machine s'. cbn [IEF_wait cpu] in Hw. subst.
  cbv [final ei_enable interrupt_check intrpt_pending]. run.
  repeat split; try reflexivity. intros Hp. rewrite Hp. reflexivity.
Qed.

(** EI; DI after reset with an interrupt pending, the EI executed. *)
Definition ei_di_demo : machine :=
  after_ei (set_intrpt_status 1 (set_intrpt_enabled 1 (boot [0xFB; 0xF3; 0x00] 4))).

Lemma di_after_ei_is_undone_witness :
  prefetch (cpu ei_di_demo) = 0xF3 /\
  IEF_wait (cpu ei_di_demo) = true /\
  exists r s',
    inner_body 0 ei_di_demo = Some (r, s') /\
    IEF1 (cpu s') = false /\ IEF2 (cpu s') = false /\
    IEF1 (cpu (final ei_enable s')) = true /\
    IEF2 (cpu (final ei_enable s')) = true.
Proof.
  split; [vm_compute; reflexivity|]. split; [vm_compute; reflexivity|].
  assert (Hp : prefetch (cpu ei_di_demo) = 0xF3) by (vm_compute; reflexivity).
  assert (Hw : IEF_wait (cpu ei_di_demo) = true) by (vm_compute; reflexivity).
  destruct (di_after_ei_is_undone 0 ei_di_demo Hp) as (r & s' & H & K1 & K2 & K3 & K4).
  destruct (K4 Hw) as (J1 & J2 & _).
  exists r, s'. repeat split; assumption.
Defined.
(** * Instruction boundaries, traps and interrupt entry *)

(** The pass over a byte that completes an instruction, any byte but the
    prefixes, the suffixes and EI, ends with PREFIX = 0, SUFFIX = 0 and
    L = IL = ADL, whatever prefix or suffix was in force when it began. *)
Theorem completed_instruction_is_normalized (off : Z) (s : machine) :
  0 <= prefetch (cpu s) < 256 ->
  is_prefix_byte (prefetch (cpu s)) = false ->
  prefetch (cpu s) <> 0xFB ->
  exists r s', inner_body off s = Some (r, s') /\ normalized s'.
Proof.
  intros Hb Hp He.
  destruct (inner_body_total off s) as (r & s' & H).
  exists r, s'. split; [exact H|].
  exact (proj1 (complete_pass _ _ _ _ Hb Hp He H)).
Qed.

(** LD HL,0x3412 after a DD prefix and a .LIL suffix, in Z80 mode. *)
Definition prefixed_demo : machine :=
  final (inner_body 0) (final (inner_body 0) (boot [0xDD; 0x5B; 0x21; 0x12; 0x34; 0x00] 8)).

Lemma completed_instruction_is_normalized_witness :
  0 <= prefetch (cpu prefixed_demo) < 256 /\
  is_prefix_byte (prefetch (cpu prefixed_demo)) = false /\
  prefetch (cpu prefixed_demo) <> 0xFB /\
  PREFIX (cpu prefixed_demo) = 2 /\ SUFFIX (cpu prefixed_demo) = true /\
  IL (cpu prefixed_demo) = true /\ ADL (cpu prefixed_demo) = false /\
  exists r s', inner_body 0 prefixed_demo = Some (r, s') /\ normalized s'.
Proof.
  split; [vm_compute; split; [discriminate | reflexivity]|].
  split; [vm_compute; reflexivity|].
  split; [vm_compute; discriminate|].
  repeat (split; [vm_compute; reflexivity|]).
  apply (completed_instruction_is_normalized 0 prefixed_demo).
  - vm_compute; split; [discriminate | reflexivity].
  - vm_compute; reflexivity.
  - vm_compute; discriminate.
Defined.

(** ED 77 after reset: a trap of the 0xED table. *)
Lemma ed_trap_pass_witness :
  let s := boot [0xED; 0x77; 0x00] 4 in
  prefetch (cpu s) = 0xED /\
  ed_trap (prefetch (cpu (after_fetch s))) = true /\
  exists r s',
    inner_body 0 s = Some (r, s') /\
    IEF_wait (cpu s') = true /\
    cycles (cpu s') = 1 /\
    regs s' = set_PC (PC (regs s')) (set_R (r_inc (R (regs s))) (regs s)) /\
    mem s' = mem s /\
    IEF1 (cpu s') = IEF1 (cpu s) /\ IEF2 (cpu s') = IEF2 (cpu s) /\
    ADL (cpu s') = ADL (cpu s) /\ MADL (cpu s') = MADL (cpu s) /\
    IM (cpu s') = IM (cpu s) /\
    (fst r = false -> cycle_count_delta s' = cycle_count_delta s + 1).
Proof.
  cbv zeta. split; [vm_compute; reflexivity|]. split; [vm_compute; reflexivity|].
  apply (ed_trap_pass 0 (boot [0xED; 0x77; 0x00] 4)); vm_compute; reflexivity.
Defined.

(** In the interrupt modes 0, 1 and 2 a recognised interrupt clears IEF1
    and IEF2, ends a HALT, charges one cycle and continues at 0x38 in the
    mode IL selects. *)
Theorem interrupt_enters_at_0x38 (s : machine) :
  IM (cpu s) <> 3 ->
  exists s',
    interrupt_acknowledge s = Some (tt, s') /\
    IEF1 (cpu s') = false /\ IEF2 (cpu s') = false /\ halted (cpu s') = false /\
    PC (regs s') = cpu_address_mode 0x38 (IL (cpu s)) s /\
    ADL (cpu s') = IL (cpu s) /\
    cycle_count_delta s' = cycle_count_delta s + 1.
Proof.
  intros H. rewrite (interrupt_other_modes s H).
  destruct_machine s. destruct madl, adl, il, l; run;
    eexists; (split; [reflexivity|]); run; repeat split; reflexivity.
Qed.

Lemma interrupt_enters_at_0x38_witness :
  let s := upd_cpu (set_IEF1 true) (boot [0x00] 4) in
  IM (cpu s) <> 3 /\
  exists s',
    interrupt_acknowledge s = Some (tt, s') /\
    IEF1 (cpu s') = false /\ IEF2 (cpu s') = false /\ halted (cpu s') = false /\
    PC (regs s') = cpu_address_mode 0x38 (IL (cpu s)) s /\
    ADL (cpu s') = IL (cpu s) /\
    cycle_count_delta s' = cycle_count_delta s + 1.
Proof.
  cbv zeta. split; [vm_compute; discriminate|].
  apply (interrupt_enters_at_0x38 (upd_cpu (set_IEF1 true) (boot [0x00] 4))).
  vm_compute; discriminate.
Defined.
(** * Arithmetic on the accumulator *)

(** ** Checking a property of bytes on every byte *)

Definition bytes : list Z := map Z.of_nat (seq 0 256).

Lemma forallb_bytes (P : Z -> bool) :
  forallb P bytes = true -> forall n, 0 <= n < 256 -> P n = true.
Proof.
  intros H n Hn. rewrite forallb_forall in H. apply H.
  apply in_map_iff. exists (Z.to_nat n). split; [lia|]. apply in_seq. lia.
Qed.

Lemma forallb2_bytes (P : Z -> Z -> bool) :
  forallb (fun a => forallb (P a) bytes) bytes = true ->
  forall a b, 0 <= a < 256 -> 0 <= b < 256 -> P a b = true.
Proof.
  intros H a b Ha Hb.
  apply (forallb_bytes (P a)); [|exact Hb].
  exact (forallb_bytes (fun a => forallb (P a) bytes) H a Ha).
Qed.

(** A goal [e = e'] on integers or Booleans, with [a] and [b] bytes of
    the context, is decided by evaluating it on all bytes. *)
Ltac by_bytes2 a b :=
  first [apply Z.eqb_eq | apply eqb_true_iff];
  match goal with
  | |- ?G = true =>
      let P := eval pattern a, b in G in
      match P with
      | ?Q _ _ => change (Q a b = true); apply (forallb2_bytes Q);
                  [vm_compute; reflexivity | assumption | assumption]
      end
  end.
Ltac by_bytes a :=
  first [apply Z.eqb_eq | apply eqb_true_iff];
  match goal with
  | |- ?G = true =>
      let P := eval pattern a in G in
      match P with
      | ?Q _ => change (Q a = true); apply (forallb_bytes Q);
                [vm_compute; reflexivity | assumption]
      end
  end.

(** ** Compare and subtract *)

Lemma lor_rotate3 (x n c o h : Z) : x .| n .| c .| o .| h = x .| o .| n .| c .| h.
Proof.
  apply Z.bits_inj'. intros k _. rewrite !Z.lor_spec.
  destruct (Z.testbit x k), (Z.testbit n k), (Z.testbit c k), (Z.testbit o k);
    reflexivity.
Qed.

(** CP v computes exactly the flags SUB v computes and leaves A alone:
    its result is the result of SUB v with the old A put back. *)
Theorem cp_is_sub_without_store (v : Z) (s : machine) :
  exists s1,
    cpu_execute_alu 2 v s = Some (tt, s1) /\
    cpu_execute_alu 7 v s = Some (tt, upd_regs (set_A (A (regs s))) s1).
Proof.
  destruct_machine s. unfold cpu_execute_alu. run. eexists. split; [reflexivity|]. run.
  rewrite lor_rotate3. reflexivity.
Qed.

(** With the carry flag clear, ADC is ADD and SBC is SUB. *)
Theorem adc_sbc_without_carry (v : Z) (s : machine) :
  flag FLAG_C (regs s) = false ->
  cpu_execute_alu 1 v s = cpu_execute_alu 0 v s /\
  cpu_execute_alu 3 v s = cpu_execute_alu 2 v s.
Proof.
  destruct_machine s. unfold flag. cbn [regs cpu registers F]. intros Hc.
  unfold cpu_execute_alu, bind, rget, gets, id.
  cbv beta iota zeta. unfold flagz, flag. cbn [regs cpu registers F A].
  rewrite Hc. cbn [Z.b2z]. rewrite !Z.add_0_r, !Z.sub_0_r. split; reflexivity.
Qed.

Lemma adc_sbc_without_carry_witness :
  let s := upd_regs (set_A 0x7F) (init_machine (fun _ => 0)) in
  flag FLAG_C (regs s) = false /\
  cpu_execute_alu 1 1 s = cpu_execute_alu 0 1 s /\
  cpu_execute_alu 3 1 s = cpu_execute_alu 2 1 s.
Proof.
  cbv zeta. split; [vm_compute; reflexivity|].
  apply (adc_sbc_without_carry 1). vm_compute; reflexivity.
Defined.

(** ** Rotates of the accumulator *)

(** RLCA and RRCA undo each other on A, in either order. *)
Theorem rlca_rrca_round_trip (s : machine) :
  0 <= A (regs s) < 256 ->
  (exists s1 s2,
     cpu_execute_rot_acc 0 s = Some (tt, s1) /\
     cpu_execute_rot_acc 1 s1 = Some (tt, s2) /\
     A (regs s2) = A (regs s)) /\
  (exists s1 s2,
     cpu_execute_rot_acc 1 s = Some (tt, s1) /\
     cpu_execute_rot_acc 0 s1 = Some (tt, s2) /\
     A (regs s2) = A (regs s)).
Proof.
  destruct_machine s. cbn [regs cpu registers A]. intros Ha.
  split; do 2 eexists; (split; [unfold cpu_execute_rot_acc; run; reflexivity|]);
    (split; [unfold cpu_execute_rot_acc; run; reflexivity|]); run; cbv [truthy]; by_bytes rA.
Qed.

Lemma rlca_rrca_round_trip_witness :
  let s := upd_regs (set_A 0x81) (init_machine (fun _ => 0)) in
  0 <= A (regs s) < 256 /\
  exists s1 s2,
    cpu_execute_rot_acc 0 s = Some (tt, s1) /\
    cpu_execute_rot_acc 1 s1 = Some (tt, s2) /\
    A (regs s1) = 0x03 /\ A (regs s2) = 0x81.
Proof.
  cbv zeta.
  split; [vm_compute; split; [discriminate | reflexivity]|].
  destruct (rlca_rrca_round_trip (upd_regs (set_A 0x81) (init_machine (fun _ => 0))))
    as ((s1 & s2 & H1 & H2 & H3) & _).
  - vm_compute; split; [discriminate | reflexivity].
  - exists s1, s2. split; [exact H1|]. split; [exact H2|]. split.
    + vm_compute in H1. injection H1 as <-. reflexivity.
    + rewrite H3. reflexivity.
Defined.

(** RLA and RRA rotate through the carry flag: each undoes the other on
    the nine bits of A and C. *)
Theorem rla_rra_round_trip (s : machine) :
  0 <= A (regs s) < 256 -> 0 <= F (regs s) < 256 ->
  (exists s1 s2,
     cpu_execute_rot_acc 2 s = Some (tt, s1) /\
     cpu_execute_rot_acc 3 s1 = Some (tt, s2) /\
     A (regs s2) = A (regs s) /\
     flag FLAG_C (regs s2) = flag FLAG_C (regs s)) /\
  (exists s1 s2,
     cpu_execute_rot_acc 3 s = Some (tt, s1) /\
     cpu_execute_rot_acc 2 s1 = Some (tt, s2) /\
     A (regs s2) = A (regs s) /\
     flag FLAG_C (regs s2) = flag FLAG_C (regs s)).
Proof.
  destruct_machine s. cbn [regs cpu registers A F]. intros Ha Hf.
  split; do 2 eexists; (split; [unfold cpu_execute_rot_acc; run; reflexivity|]);
    (split; [unfold cpu_execute_rot_acc; run; reflexivity|]); run; cbv [truthy flagz];
    (split; by_bytes2 rA rF).
Qed.

Lemma rla_rra_round_trip_witness :
  let s := upd_regs (fun r => set_A 0x81 (set_F FLAG_C r)) (init_machine (fun _ => 0)) in
  0 <= A (regs s) < 256 /\ 0 <= F (regs s) < 256 /\
  exists s1 s2,
    cpu_execute_rot_acc 2 s = Some (tt, s1) /\
    cpu_execute_rot_acc 3 s1 = Some (tt, s2) /\
    A (regs s2) = A (regs s) /\
    flag FLAG_C (regs s2) = flag FLAG_C (regs s).
Proof.
  cbv zeta.
  split; [vm_compute; split; [discriminate | reflexivity]|].
  split; [vm_compute; split; [discriminate | reflexivity]|].
  apply (rla_rra_round_trip
           (upd_regs (fun r => set_A 0x81 (set_F FLAG_C r)) (init_machine (fun _ => 0))));
    vm_compute; split; first [discriminate | reflexivity].
Defined.

(** CPL is its own inverse on A, and so is NEG (ED 44). *)
Theorem cpl_neg_involutions (s : machine) :
  0 <= A (regs s) < 256 ->
  (exists s1 s2,
     cpu_execute_rot_acc 5 s = Some (tt, s1) /\
     cpu_execute_rot_acc 5 s1 = Some (tt, s2) /\
     A (regs s2) = A (regs s)) /\
  (exists s1 s2,
     execute_ed 0x44 s = Some (tt, s1) /\
     execute_ed 0x44 s1 = Some (tt, s2) /\
     A (regs s2) = A (regs s)).
Proof.
  destruct_machine s. cbn [regs cpu registers A]. intros Ha.
  split; do 2 eexists.
  - split; [unfold cpu_execute_rot_acc; run; reflexivity|]. split; [unfold cpu_execute_rot_acc; run; reflexivity|]. run. by_bytes rA.
  - unfold execute_ed; eval_lits.
    split; [run; reflexivity|]. split; [run; reflexivity|]. run. by_bytes rA.
Qed.

Lemma cpl_neg_involutions_witness :
  let s := upd_regs (set_A 0x5A) (init_machine (fun _ => 0)) in
  0 <= A (regs s) < 256 /\
  exists s1 s2,
    cpu_execute_rot_acc 5 s = Some (tt, s1) /\
    cpu_execute_rot_acc 5 s1 = Some (tt, s2) /\
    A (regs s1) = 0xA5 /\ A (regs s2) = 0x5A.
Proof.
  cbv zeta.
  split; [vm_compute; split; [discriminate | reflexivity]|].
  destruct (cpl_neg_involutions (upd_regs (set_A 0x5A) (init_machine (fun _ => 0))))
    as ((s1 & s2 & H1 & H2 & H3) & _).
  - vm_compute; split; [discriminate | reflexivity].
  - exists s1, s2. split; [exact H1|]. split; [exact H2|]. split.
    + vm_compute in H1. injection H1 as <-. reflexivity.
    + rewrite H3. reflexivity.
Defined.
(** * Immediate operands and counters *)

(** ** The two ways to fetch an immediate word *)

(** A state with the bus log dropped: what two runs that differ only in
    their bus accesses agree on. *)
Definition without_bus (s : machine) : machine := set_bus [] s.

(** [cpu_fetch_word_no_prefetch], which jumps and calls use, returns the
    word [cpu_fetch_word] returns and spares the read of the byte after
    the operand: up to that one bus read, a prefetch of the jump target
    from either state gives the same machine. *)
Theorem fetch_word_no_prefetch_same_word (s : machine) :
  exists v s1 s2,
    cpu_fetch_word s = Some (v, s1) /\
    cpu_fetch_word_no_prefetch s = Some (v, s2) /\
    bus s1 = MemRead (PC (regs s1)) (prefetch (cpu s1)) :: bus s2 /\
    forall address mode,
      option_map (fun p => without_bus (snd p)) (cpu_prefetch address mode s1)
      = option_map (fun p => without_bus (snd p)) (cpu_prefetch address mode s2).
Proof.
  destruct_machine s. unfold cpu_fetch_word, cpu_fetch_word_no_prefetch.
  destruct il; run; do 3 eexists;
    (split; [reflexivity|]); (split; [reflexivity|]); run;
    (split; [reflexivity|]); intros address mode; destruct mode; reflexivity.
Qed.

(** ** INC and DEC of a register pair *)

Lemma mask_inc_dec (x : Z) (l : bool) :
  cpu_mask_mode (cpu_mask_mode (cpu_mask_mode x l + 1) l - 1) l = cpu_mask_mode x l.
Proof.
  unfold cpu_mask_mode. destruct l.
  - change 0xFFFFFF with (Z.ones 24). rewrite !Z.land_ones by lia.
    change (2 ^ 24) with 16777216. Z.div_mod_to_equations. lia.
  - change 0xFFFF with (Z.ones 16). rewrite !Z.land_ones by lia.
    change (2 ^ 16) with 65536. Z.div_mod_to_equations. lia.
Qed.

Lemma mask_mask (x : Z) (l : bool) :
  cpu_mask_mode (cpu_mask_mode x l) l = cpu_mask_mode x l.
Proof.
  unfold cpu_mask_mode. rewrite <- Z.land_assoc, Z.land_diag. reflexivity.
Qed.

Lemma u24_mask (x : Z) (l : bool) : u24 (cpu_mask_mode x l) = cpu_mask_mode x l.
Proof.
  unfold u24, cpu_mask_mode. rewrite <- Z.land_assoc. destruct l; reflexivity.
Qed.

Lemma u16_mask_short (x : Z) : u16 (cpu_mask_mode x false) = cpu_mask_mode x false.
Proof. unfold u16, cpu_mask_mode. rewrite <- Z.land_assoc. reflexivity. Qed.

(** INC rr followed by DEC rr (BC, DE, HL or the index register in its
    place, SP) brings every register back, up to the data width: the pair
    ends as writing its own value back leaves it, so in Z80 mode a 24-bit
    pair keeps its low 16 bits and loses its upper byte.  No flag
    changes. *)
Theorem inc_dec_rp_round_trip (p : Z) (s : machine) :
  0 <= p < 4 ->
  exists v s1 s2 s',
    cpu_read_rp p s = Some (v, s) /\
    execute_opcode (0x03 + 16 * p) s = Some (Break, s1) /\
    execute_opcode (0x0B + 16 * p) s1 = Some (Break, s2) /\
    cpu_write_rp p v s = Some (tt, s') /\
    regs s2 = regs s' /\
    cpu_read_rp p s2 = Some (v, s2).
Proof.
  intros Hp.
  assert (H : p = 0 \/ p = 1 \/ p = 2 \/ p = 3) by lia.
  destruct_machine s.
  destruct H as [-> | [-> | [-> | ->]]]; cbn [Z.add Z.mul Pos.add Pos.mul Pos.succ Pos.add_carry];
    unfold execute_opcode; eval_lits;
    unfold cpu_read_rp, cpu_write_rp;
    destruct l; run;
    repeat match goal with |- context [match ?x with _ => _ end] => destruct x end;
    do 4 eexists;
    (split; [reflexivity|]); (split; [reflexivity|]); run;
    rewrite ?u24_mask, ?u16_mask_short, ?mask_mask, ?mask_inc_dec;
    (split; [reflexivity|]); (split; [reflexivity|]); run;
    rewrite ?u24_mask, ?u16_mask_short, ?mask_mask, ?mask_inc_dec;
    split; reflexivity.
Qed.

(** HL = 0xFFFF in Z80 mode with the upper byte 0x12 set: INC HL wraps to
    0 and clears the upper byte, DEC HL gives 0x00FFFF. *)
Lemma inc_dec_rp_round_trip_witness :
  let s := upd_regs (set_HL 0x12FFFF) (boot [0x23; 0x2B] 4) in
  0 <= 2 < 4 /\
  exists s1 s2,
    execute_opcode 0x23 s = Some (Break, s1) /\
    execute_opcode 0x2B s1 = Some (Break, s2) /\
    HL (regs s1) = 0 /\ HL (regs s2) = 0xFFFF.
Proof.
  cbv zeta. split; [lia|].
  destruct (inc_dec_rp_round_trip 2 (upd_regs (set_HL 0x12FFFF) (boot [0x23; 0x2B] 4)))
    as (v & s1 & s2 & s' & H0 & H1 & H2 & H3 & H4 & H5); [lia|].
  exists s1, s2. split; [exact H1|]. split; [exact H2|]. split.
  - vm_compute in H1. injection H1 as <-. reflexivity.
  - change (HL (regs s2)) with (HL (regs s2)). rewrite H4.
    vm_compute in H0. injection H0 as <-.
    vm_compute in H3. injection H3 as <-. reflexivity.
Defined.

(** ** DJNZ *)

Lemma byte_h_with_h (w v : Z) : byte_h (with_h w v) = u8 v.
Proof.
  unfold byte_h, with_h, u8.
  rewrite Z.shiftr_lor, Z.shiftr_land, Z.shiftr_shiftl_l by lia.
  change (Z.shiftr 0xFF00FF 8) with 0xFF00. change (8 - 8) with 0.
  rewrite Z.shiftl_0_r, Z.land_lor_distr_l, <- !Z.land_assoc.
  change (Z.land 0xFF00 0xFF) with 0. change (Z.land 0xFF 0xFF) with 0xFF.
  rewrite Z.land_0_r. reflexivity.
Qed.

Lemma byte_h_range (w : Z) : 0 <= byte_h w < 256.
Proof.
  unfold byte_h. change 0xFF with (Z.ones 8). rewrite Z.land_ones by lia.
  apply Z.mod_pos_bound. reflexivity.
Qed.

Lemma dec_byte_zero (b : Z) : 0 <= b < 256 -> truthy (u8 (b + -1)) = negb (b =? 1).
Proof. intros Hb. by_bytes b. Qed.

(** The pass of DJNZ d (0x10): B is decremented modulo 256 with the rest
    of BC untouched, and the jump is taken unless B was 1.  B = 0 on
    entry wraps to 0xFF and jumps, so the loop then runs 256 times.  The
    pass costs two cycles when it jumps and one when it falls through. *)
Theorem djnz_counts_in_B (off : Z) (s : machine) :
  prefetch (cpu s) = 0x10 ->
  let d := prefetch (cpu (after_fetch s)) in
  let next := cpu_address_mode (PC (regs (after_fetch s)) + 1) (ADL (cpu s)) s in
  exists r s',
    inner_body off s = Some (r, s') /\
    BC (regs s') = with_h (BC (regs s)) (B (regs s) - 1) /\
    PC (regs s') =
      (if B (regs s) =? 1 then next
       else cpu_address_mode (cpu_mask_mode (next + s8 d) (L (cpu s))) (ADL (cpu s)) s) /\
    cycles (cpu s') = (if B (regs s) =? 1 then 1 else 2).
Proof.
  intros Hop. cbv zeta. unfold inner_body, bind. rewrite fetch_opcode_run, Hop.
  unfold execute_opcode; eval_lits.
  destruct_machine s. cbv [after_fetch r_inc jump_relative]. run_keep.
  rewrite byte_h_with_h, (dec_byte_zero _ (byte_h_range rBC)).
  destruct (byte_h rBC =? 1); cbn [negb]; run_keep;
    destruct (truthy (Z.land ev EVENT_DEBUG_STEP)); run_keep;
    try (destruct (0 + 1 =? 0) eqn:E1; [discriminate E1|]);
    try (destruct (0 + 1 + 1 =? 0) eqn:E2; [discriminate E2|]);
    run_keep;
    do 2 eexists; (split; [reflexivity|]); run_keep;
    repeat match goal with |- _ /\ _ => split end; reflexivity.
Qed.

(** DJNZ -2 at address 0 with B = 0: the jump is taken and B is 0xFF. *)
Lemma djnz_counts_in_B_witness :
  let s := boot [0x10; 0xFE] 4 in
  prefetch (cpu s) = 0x10 /\ B (regs s) = 0 /\
  exists r s',
    inner_body 0 s = Some (r, s') /\
    BC (regs s') = 0xFF00 /\ PC (regs s') = 0 /\ cycles (cpu s') = 2.
Proof.
  cbv zeta. split; [vm_compute; reflexivity|]. split; [vm_compute; reflexivity|].
  destruct (djnz_counts_in_B 0 (boot [0x10; 0xFE] 4)) as (r & s' & H & H1 & H2 & H3).
  - vm_compute; reflexivity.
  - exists r, s'. split; [exact H|]. split; [|split].
    + rewrite H1. vm_compute; reflexivity.
    + rewrite H2. vm_compute; reflexivity.
    + rewrite H3. vm_compute; reflexivity.
Defined.
(** * The stack *)

(** ** Wrap-around of stack pointers and addresses *)

Lemma u24_mod (x : Z) : u24 x = x mod 16777216.
Proof. unfold u24. change 0xFFFFFF with (Z.ones 24). rewrite Z.land_ones by lia. reflexivity. Qed.
Lemma u16_mod (x : Z) : u16 x = x mod 65536.
Proof. unfold u16. change 0xFFFF with (Z.ones 16). rewrite Z.land_ones by lia. reflexivity. Qed.

Ltac wrap_lia :=
  rewrite ?u24_mod, ?u16_mod in *;
  repeat match goal with
         | |- (_ =? _) = false => apply Z.eqb_neq
         | |- (_ =? _) = true => apply Z.eqb_eq
         end;
  Z.div_mod_to_equations; lia.

Lemma land_u24 (x : Z) : Z.land x 0xFFFFFF = u24 x.
Proof. reflexivity. Qed.
Lemma land_u16 (x : Z) : Z.land x 0xFFFF = u16 x.
Proof. reflexivity. Qed.
Lemma u24_idem (x : Z) : u24 (u24 x) = u24 x.
Proof. wrap_lia. Qed.
Lemma u16_idem (x : Z) : u16 (u16 x) = u16 x.
Proof. wrap_lia. Qed.
Lemma u24_dec_inc (x : Z) : u24 (u24 (x - 1) + 1) = u24 x.
Proof. wrap_lia. Qed.
Lemma u16_dec_inc (x : Z) : u16 (u16 (x - 1) + 1) = u16 x.
Proof. wrap_lia. Qed.
Lemma u24_below (x : Z) : (u24 x =? u24 (u24 x - 1)) = false.
Proof. wrap_lia. Qed.
Lemma u24_below2 (x : Z) : (u24 x =? u24 (u24 (u24 x - 1) - 1)) = false.
Proof. wrap_lia. Qed.
Lemma u24_below3 (x : Z) : (u24 x =? u24 (u24 (u24 (u24 x - 1) - 1) - 1)) = false.
Proof. wrap_lia. Qed.
Lemma u16_below (x : Z) : (u16 x =? u16 (u16 x - 1)) = false.
Proof. wrap_lia. Qed.
Lemma u16_below2 (x : Z) : (u16 x =? u16 (u16 (u16 x - 1) - 1)) = false.
Proof. wrap_lia. Qed.

(** In Z80 mode the address is MBASE:offset; two addresses are the same
    exactly when their offsets are. *)
Lemma short_address_low (mb a : Z) :
  u16 (Z.shiftl mb 16 .| u16 a) = u16 a.
Proof.
  unfold u16. rewrite Z.land_lor_distr_l, <- Z.land_assoc, Z.land_diag.
  change 0xFFFF with (Z.ones 16). rewrite (Z.land_ones (Z.shiftl mb 16)) by lia.
  rewrite Z.shiftl_mul_pow2 by lia. rewrite Z.mod_mul by lia. reflexivity.
Qed.

Lemma short_address_eqb (mb a b : Z) :
  (Z.shiftl mb 16 .| u16 a =? Z.shiftl mb 16 .| u16 b) = (u16 a =? u16 b).
Proof.
  destruct (Z.eqb_spec (u16 a) (u16 b)) as [E|E].
  - rewrite E. apply Z.eqb_refl.
  - apply Z.eqb_neq. intros H. apply E.
    rewrite <- (short_address_low mb a), <- (short_address_low mb b), H. reflexivity.
Qed.

(** The bytes of a word, put together again. *)
Lemma testbit_u8 (x k : Z) : 0 <= k -> Z.testbit (u8 x) k = Z.testbit x k && (k <? 8).
Proof.
  intros Hk. unfold u8. change 0xFF with (Z.ones 8).
  rewrite Z.land_spec, Z.testbit_ones_nonneg by lia. reflexivity.
Qed.

Lemma word_bytes (v : Z) :
  u8 (u8 v) .| Z.shiftl (u8 (u8 (Z.shiftr v 8))) 8 = Z.land v 0xFFFF /\
  u8 (u8 v) .| Z.shiftl (u8 (u8 (Z.shiftr v 8))) 8
    .| Z.shiftl (u8 (u8 (Z.shiftr v 16))) 16 = Z.land v 0xFFFFFF.
Proof.
  split; apply Z.bits_inj'; intros k Hk;
    [change 0xFFFF with (Z.ones 16) | change 0xFFFFFF with (Z.ones 24)];
    rewrite !Z.lor_spec, Z.land_spec, Z.testbit_ones_nonneg by lia;
    rewrite !u8_u8, testbit_u8 by lia.
  - destruct (Z.ltb_spec k 8).
    + rewrite Z.shiftl_spec_low by lia.
      replace (k <? 16) with true by (symmetry; apply Z.ltb_lt; lia).
      rewrite orb_false_r, !andb_true_r. reflexivity.
    + rewrite Z.shiftl_spec, testbit_u8, Z.shiftr_spec by lia.
      replace (k - 8 + 8) with k by lia.
      rewrite andb_false_r. cbn [orb].
      destruct (Z.ltb_spec k 16);
        [replace (k - 8 <? 8) with true by (symmetry; apply Z.ltb_lt; lia)
        |replace (k - 8 <? 8) with false by (symmetry; apply Z.ltb_ge; lia)];
        reflexivity.
  - destruct (Z.ltb_spec k 8).
    + rewrite !Z.shiftl_spec_low by lia.
      replace (k <? 24) with true by (symmetry; apply Z.ltb_lt; lia).
      rewrite !orb_false_r, !andb_true_r. reflexivity.
    + rewrite (Z.shiftl_spec _ 8), testbit_u8, Z.shiftr_spec by lia.
      replace (k - 8 + 8) with k by lia.
      rewrite andb_false_r. cbn [orb].
      destruct (Z.ltb_spec k 16).
      * rewrite Z.shiftl_spec_low by lia.
        replace (k - 8 <? 8) with true by (symmetry; apply Z.ltb_lt; lia).
        replace (k <? 24) with true by (symmetry; apply Z.ltb_lt; lia).
        rewrite orb_false_r. reflexivity.
      * rewrite Z.shiftl_spec, testbit_u8, Z.shiftr_spec by lia.
        replace (k - 16 + 16) with k by lia.
        replace (k - 8 <? 8) with false by (symmetry; apply Z.ltb_ge; lia).
        rewrite andb_false_r. cbn [orb].
        destruct (Z.ltb_spec k 24);
          [replace (k - 16 <? 8) with true by (symmetry; apply Z.ltb_lt; lia)
          |replace (k - 16 <? 8) with false by (symmetry; apply Z.ltb_ge; lia)];
          reflexivity.
Qed.

(** ** Push and pop *)

(** A word pushed is the word popped, cut to the 16 or 24 bits of the
    data width, and the stack pointer of the mode (SPL in long mode, SPS
    with MBASE in short mode) is back where it was, wrap-around of the
    stack included; on memory that keeps what is written. *)
Theorem push_pop_round_trip (value : Z) (s : machine) :
  exists s1 s2,
    cpu_push_word value s = Some (tt, s1) /\
    cpu_pop_word s1 = Some (cpu_mask_mode value (L (cpu s)), s2) /\
    cpu s2 = cpu (upd_regs (set_stack (L (cpu s)) (stack (L (cpu s)) (regs s))) s).
Proof.
  destruct_machine s. destruct l.
  - run. do 2 eexists. split; [reflexivity|]. run.
    rewrite !land_u24.
    repeat first [rewrite u24_dec_inc | rewrite u24_idem | rewrite Z.eqb_refl
                 | rewrite u24_below | rewrite u24_below2].
    rewrite (proj2 (word_bytes value)).
    split; reflexivity.
  - run. do 2 eexists. split; [reflexivity|]. run.
    rewrite !land_u16.
    repeat first [rewrite u16_dec_inc | rewrite u16_idem | rewrite short_address_eqb
                 | rewrite Z.eqb_refl | rewrite u16_below].
    rewrite (proj1 (word_bytes value)).
    split; reflexivity.
Qed.

(** ** Call and return *)

Lemma mode_bit (madl adl : bool) :
  Z.testbit (u8 (u8 (Z.shiftl (Z.b2z madl) 1 .| Z.b2z adl))) 0 = adl.
Proof. destruct madl, adl; reflexivity. Qed.

Lemma pc_bytes (pc : Z) :
  u8 (u8 (byte_l pc)) .| Z.shiftl (u8 (u8 (byte_h pc))) 8 = u16 pc /\
  u8 (u8 (byte_l pc)) .| Z.shiftl (u8 (u8 (byte_h pc))) 8
    .| Z.shiftl (u8 (u8 (byte_u pc))) 16 = u24 pc.
Proof.
  destruct (word_bytes pc) as (H16 & H24).
  change (byte_l pc) with (u8 pc). change (byte_h pc) with (u8 (Z.shiftr pc 8)).
  change (byte_u pc) with (u8 (Z.shiftr pc 16)).
  rewrite !u8_u8 in *. split; [exact H16 | exact H24].
Qed.

(** Every comparison of two addresses left in the goal is decided by the
    arithmetic of the wrap-around. *)
Ltac decide_addresses :=
  repeat match goal with
         | |- context [?a =? ?b] =>
             first [ rewrite (Z.eqb_refl a)
                   | let E := fresh "E" in
                     assert (E : (a =? b) = false) by wrap_lia; rewrite E; clear E
                   | let E := fresh "E" in
                     assert (E : (a =? b) = true) by wrap_lia; rewrite E; clear E ]
         end.

Ltac settle :=
  rewrite ?land_u24, ?land_u16;
  repeat first [ rewrite u24_idem | rewrite u16_idem | rewrite u24_dec_inc
               | rewrite u16_dec_inc | rewrite short_address_eqb ];
  decide_addresses; rewrite ?mode_bit; run.

Lemma mask_upper_byte (x : Z) (l : bool) :
  cpu_mask_mode (Z.shiftl (u8 x) 16) (true || l) = Z.shiftl (u8 x) 16.
Proof.
  cbn [orb]. unfold cpu_mask_mode. change 0xFFFFFF with (Z.ones 24).
  rewrite Z.land_ones, Z.shiftl_mul_pow2 by lia.
  pose proof (u8_range x). apply Z.mod_small. lia.
Qed.

(** Between instructions (L = IL = ADL), a call followed by the return
    that matches it (with the suffix when the call was mixed) resumes at
    the address PC held, in the mode the call was made in, with both
    stack pointers back where they were; on memory that keeps what is
    written.  A mixed call in Z80 mode writes through both stack
    pointers into the MBASE page: the two frames must not overlap. *)
Theorem call_return_round_trip (address : Z) (mixed : bool) (s : machine) :
  L (cpu s) = ADL (cpu s) -> IL (cpu s) = ADL (cpu s) ->
  (mixed = true -> ADL (cpu s) = false ->
   u16 (SPL (regs s) - 1) <> u16 (SPS (regs s) - 1) /\
   u16 (SPL (regs s) - 1) <> u16 (SPS (regs s) - 2)) ->
  exists s1 s2,
    cpu_call address mixed s = Some (tt, s1) /\
    cpu_return (upd_cpu (set_SUFFIX mixed) s1) = Some (tt, s2) /\
    PC (regs s2) = cpu_address_mode (PC (regs s)) (ADL (cpu s)) s /\
    ADL (cpu s2) = ADL (cpu s) /\
    u24 (SPL (regs s2)) = u24 (SPL (regs s)) /\
    u16 (SPS (regs s2)) = u16 (SPS (regs s)).
Proof.
  destruct_machine s. cbn [L IL ADL cpu regs registers SPL SPS]. intros -> -> Hs.
  destruct mixed, adl;
    [ clear Hs | destruct (Hs eq_refl eq_refl) as (Hs1 & Hs2); clear Hs
    | clear Hs | clear Hs ];
    run; do 2 eexists; (split; [reflexivity|]); run;
    do 3 settle;
    (split; [reflexivity|]); run;
    rewrite ?(mask_upper_byte _ true), ?(mask_upper_byte _ false);
    rewrite ?(proj2 (pc_bytes rPC)), ?(proj1 (pc_bytes rPC));
    rewrite ?(proj2 (word_bytes rPC)), ?(proj1 (word_bytes rPC));
    rewrite ?land_u24, ?land_u16, ?u24_idem, ?u16_idem;
    repeat split; reflexivity.
Qed.

(** A call frame in Z80 mode: SPS = 0x100 and SPL = 0x200. *)
Definition call_demo : machine :=
  upd_regs (fun r => set_PC 0x1234 (set_SPL 0x200 (set_SPS 0x100 r))) (boot [0x00] 4).

Lemma call_return_round_trip_witness :
  let s := call_demo in
  L (cpu s) = ADL (cpu s) /\ IL (cpu s) = ADL (cpu s) /\
  (u16 (SPL (regs s) - 1) <> u16 (SPS (regs s) - 1) /\
   u16 (SPL (regs s) - 1) <> u16 (SPS (regs s) - 2)) /\
  exists s1 s2,
    cpu_call 0x4000 true s = Some (tt, s1) /\
    cpu_return (upd_cpu (set_SUFFIX true) s1) = Some (tt, s2) /\
    PC (regs s2) = cpu_address_mode (PC (regs s)) (ADL (cpu s)) s /\
    ADL (cpu s2) = ADL (cpu s) /\
    u24 (SPL (regs s2)) = u24 (SPL (regs s)) /\
    u16 (SPS (regs s2)) = u16 (SPS (regs s)).
Proof.
  cbv zeta.
  split; [vm_compute; reflexivity|]. split; [vm_compute; reflexivity|].
  split; [split; vm_compute; discriminate|].
  apply (call_return_round_trip 0x4000 true call_demo).
  - vm_compute; reflexivity.
  - vm_compute; reflexivity.
  - intros _ _. split; vm_compute; discriminate.
Defined.

(** Without the hypothesis on the two frames the round trip fails: after
    reset SPL = SPS = 0, the mode byte of a mixed call lands on the high
    byte of the return address, and the return goes to 0x0034. *)
Example call_return_overlapping_frames :
  let s := upd_regs (set_PC 0x1234) (boot [0x00] 4) in
  let s1 := final (cpu_call 0x4000 true) s in
  let s2 := final cpu_return (upd_cpu (set_SUFFIX true) s1) in
  SPL (regs s) = SPS (regs s) /\ PC (regs s2) = 0x0034.
Proof. cbv zeta. split; vm_compute; reflexivity. Qed.
(** * Decimal arithmetic *)

(** Packed BCD: two decimal digits in a byte. *)
Definition bcd_valid (x : Z) : bool :=
  (0 <=? x) && (x / 16 <=? 9) && (x mod 16 <=? 9).
Definition bcd_value (x : Z) : Z := 10 * (x / 16) + x mod 16.
Definition bcd_of (n : Z) : Z := 16 * (n / 10) + n mod 10.

Lemma bcd_valid_byte (x : Z) : bcd_valid x = true -> 0 <= x < 256.
Proof.
  unfold bcd_valid. rewrite !andb_true_iff, !Z.leb_le. intros ((H0 & H1) & H2).
  Z.div_mod_to_equations. lia.
Qed.

(** The bits 3 and 5 of F take one of four values. *)
Lemma flag_undef_cases (f : Z) : In (_flag_undef f) [0; 8; 32; 40].
Proof.
  assert (E : _flag_undef f
              = (if Z.testbit f 3 then 8 else 0) + (if Z.testbit f 5 then 32 else 0)).
  { unfold _flag_undef. apply Z.bits_inj'. intros k Hk.
    rewrite Z.land_spec.
    destruct (Z.eq_dec k 3) as [->|H3]; [destruct (Z.testbit f 3), (Z.testbit f 5); reflexivity|].
    destruct (Z.eq_dec k 5) as [->|H5]; [destruct (Z.testbit f 3), (Z.testbit f 5); reflexivity|].
    assert (H40 : Z.testbit (FLAG_3 .| FLAG_5) k = false).
    { destruct (Z.ltb_spec k 6).
      - assert (Hc : k = 0 \/ k = 1 \/ k = 2 \/ k = 4) by lia.
        destruct Hc as [-> | [-> | [-> | ->]]]; reflexivity.
      - apply Z.bits_above_log2; [vm_compute; discriminate | change (Z.log2 (FLAG_3 .| FLAG_5)) with 5; lia]. }
    rewrite H40, andb_false_r.
    destruct (Z.testbit f 3), (Z.testbit f 5); cbn [Z.add];
      first [ apply Z.bits_0
            | symmetry;
              destruct (Z.ltb_spec k 6);
              [ assert (Hc : k = 0 \/ k = 1 \/ k = 2 \/ k = 4) by lia;
                destruct Hc as [-> | [-> | [-> | ->]]]; reflexivity
              | apply Z.bits_above_log2; [vm_compute; discriminate | cbn; lia] ] ]. }
  rewrite E. destruct (Z.testbit f 3), (Z.testbit f 5); cbn; tauto.
Qed.

Definition bcd_bytes : list Z := filter bcd_valid bytes.

Lemma forallb2_bcd (P : Z -> Z -> bool) :
  forallb (fun a => forallb (P a) bcd_bytes) bcd_bytes = true ->
  forall a b, bcd_valid a = true -> bcd_valid b = true -> P a b = true.
Proof.
  intros H a b Ha Hb.
  assert (In_bcd : forall x, bcd_valid x = true -> In x bcd_bytes).
  { intros x Hx. apply filter_In. split; [|exact Hx].
    pose proof (bcd_valid_byte x Hx).
    apply in_map_iff. exists (Z.to_nat x). split; [lia|]. apply in_seq. lia. }
  rewrite forallb_forall in H. specialize (H a (In_bcd a Ha)).
  rewrite forallb_forall in H. exact (H b (In_bcd b Hb)).
Qed.

(** A goal on two packed BCD bytes of the context is decided by
    evaluating it on all pairs of them. *)
Ltac by_bcd2 a b :=
  first [apply Z.eqb_eq | apply eqb_true_iff];
  match goal with
  | |- ?G = true =>
      let P := eval pattern a, b in G in
      match P with
      | ?Q _ _ => change (Q a b = true); apply (forallb2_bcd Q);
                  [vm_compute; reflexivity | assumption | assumption]
      end
  end.

(** The two branches of DAA, on the N flag an addition or a subtraction
    has just left: the impossible one is closed, the other one is run. *)
Ltac daa_branch a b :=
  let EN := fresh "EN" in
  match goal with
  | |- (if ?c then _ else _) _ = _ /\ _ => destruct c eqn:EN
  end;
  try (exfalso; revert EN;
       match goal with
       | |- ?X = ?t -> False =>
           let K := fresh "K" in
           assert (K : X = negb t) by (by_bcd2 a b);
           rewrite K; discriminate
       end);
  (split; [reflexivity|]); run; cbv [truthy];
  (split; by_bcd2 a b).

(** ADD A,v on two packed BCD bytes followed by DAA leaves in A the
    packed BCD sum modulo 100, and C tells whether the sum reached 100;
    SUB v followed by DAA leaves the packed BCD difference modulo 100,
    and C tells whether it borrowed. *)
Theorem daa_makes_decimal_arithmetic (v : Z) (s : machine) :
  bcd_valid (A (regs s)) = true -> bcd_valid v = true ->
  (exists s1 s2,
     cpu_execute_alu 0 v s = Some (tt, s1) /\
     cpu_execute_daa s1 = Some (tt, s2) /\
     A (regs s2) = bcd_of ((bcd_value (A (regs s)) + bcd_value v) mod 100) /\
     flag FLAG_C (regs s2) = (100 <=? bcd_value (A (regs s)) + bcd_value v)) /\
  (exists s1 s2,
     cpu_execute_alu 2 v s = Some (tt, s1) /\
     cpu_execute_daa s1 = Some (tt, s2) /\
     A (regs s2) = bcd_of ((bcd_value (A (regs s)) - bcd_value v) mod 100) /\
     flag FLAG_C (regs s2) = (bcd_value (A (regs s)) <? bcd_value v)).
Proof.
  destruct_machine s. cbn [regs cpu registers A]. intros Ha Hv.
  pose proof (flag_undef_cases rF) as Hu.
  split; unfold cpu_execute_alu; run; revert Hu;
    generalize (_flag_undef rF); intros u Hu;
    destruct Hu as [<- | [<- | [<- | [<- | []]]]];
    do 2 eexists; (split; [reflexivity|]);
    unfold cpu_execute_daa; run; daa_branch rA v.
Qed.

Lemma daa_makes_decimal_arithmetic_witness :
  let s := upd_regs (set_A 0x38) (init_machine (fun _ => 0)) in
  bcd_valid (A (regs s)) = true /\ bcd_valid 0x45 = true /\
  (exists s1 s2,
     cpu_execute_alu 0 0x45 s = Some (tt, s1) /\
     cpu_execute_daa s1 = Some (tt, s2) /\
     A (regs s1) = 0x7D /\ A (regs s2) = 0x83 /\ flag FLAG_C (regs s2) = false) /\
  (exists s1 s2,
     cpu_execute_alu 2 0x45 s = Some (tt, s1) /\
     cpu_execute_daa s1 = Some (tt, s2) /\
     A (regs s1) = 0xF3 /\ A (regs s2) = 0x93 /\ flag FLAG_C (regs s2) = true).
Proof.
  cbv zeta. split; [vm_compute; reflexivity|]. split; [vm_compute; reflexivity|].
  destruct (daa_makes_decimal_arithmetic 0x45 (upd_regs (set_A 0x38) (init_machine (fun _ => 0))))
    as ((a1 & a2 & A1 & A2 & A3 & A4) & (b1 & b2 & B1 & B2 & B3 & B4));
    [vm_compute; reflexivity | vm_compute; reflexivity |].
  split.
  - exists a1, a2. split; [exact A1|]. split; [exact A2|]. split; [|split].
    + vm_compute in A1. injection A1 as <-. reflexivity.
    + rewrite A3. vm_compute; reflexivity.
    + rewrite A4. vm_compute; reflexivity.
  - exists b1, b2. split; [exact B1|]. split; [exact B2|]. split; [|split].
    + vm_compute in B1. injection B1 as <-. reflexivity.
    + rewrite B3. vm_compute; reflexivity.
    + rewrite B4. vm_compute; reflexivity.
Defined.
(** * LDIR as a block copy *)

Lemma pv_after_ld (f : Z) (b : bool) :
  truthy (Z.land (Z.land (if b then f .| FLAG_PV else Z.land f (0xFF - FLAG_PV))
                         (0xFF - FLAG_N)) FLAG_PV) = b.
Proof.
  rewrite <- Z.land_assoc. change (Z.land (0xFF - FLAG_N) FLAG_PV) with 4.
  destruct b.
  - rewrite Z.land_lor_distr_l. change (Z.land FLAG_PV 4) with 4.
    unfold truthy. apply negb_true_iff, Z.eqb_neq. intros E.
    apply (f_equal (fun x => Z.testbit x 2)) in E.
    rewrite Z.lor_spec, orb_true_r in E. discriminate E.
  - rewrite <- Z.land_assoc. change (Z.land (0xFF - FLAG_PV) 4) with 0.
    rewrite Z.land_0_r. reflexivity.
Qed.

Lemma mask_long (x : Z) : cpu_mask_mode x true = u24 x.
Proof. reflexivity. Qed.

(** One pass over LDIR (ED B0) in ADL mode: the byte at HL is copied to
    DE, HL and DE step up, BC steps down; while BC is not 0 the pass ends
    on the instruction itself, prefetched again from memory after the
    store. *)
Lemma ldir_pass off s :
  prefetch (cpu s) = 0xED ->
  u8 (mem s (u24 (PC (regs s) + 1))) = 0xB0 ->
  ADL (cpu s) = true -> L (cpu s) = true -> SUFFIX (cpu s) = false ->
  exists r s',
    inner_body off s = Some (r, s') /\
    (forall a, mem s' a = if a =? u24 (DE (regs s)) then u8 (mem s (u24 (HL (regs s))))
                          else mem s a) /\
    HL (regs s') = u24 (HL (regs s) + 1) /\
    DE (regs s') = u24 (DE (regs s) + 1) /\
    BC (regs s') = u24 (BC (regs s) - 1) /\
    ADL (cpu s') = true /\ L (cpu s') = true /\ SUFFIX (cpu s') = false /\
    flag FLAG_PV (regs s') = negb (u24 (BC (regs s) - 1) =? 0) /\
    (if u24 (BC (regs s) - 1) =? 0
     then PC (regs s') = u24 (u24 (PC (regs s) + 1) + 1)
     else PC (regs s') = u24 (u24 (u24 (PC (regs s) + 1) + 1) - 2) /\
          prefetch (cpu s') = u8 (mem s' (PC (regs s')))).
Proof.
  intros Hop H2. unfold inner_body, bind. rewrite fetch_opcode_run, Hop.
  unfold execute_opcode; eval_lits.
  revert H2. destruct_machine s. cbv [after_fetch r_inc]. run. intros H2 -> -> ->.
  run. rewrite !land_u24, H2. unfold execute_ed; eval_lits.
  unfold cpu_execute_bli; eval_lits. run_keep.
  rewrite ?mask_long, ?land_u24, ?u24_idem. cbn [Z.b2z]. rewrite ?Z.sub_0_r.
  unfold truthy.
  destruct (u24 (rBC + -1) =? 0) eqn:EB; cbn [negb]; run_keep;
    destruct (negb (Z.land ev EVENT_DEBUG_STEP =? 0)); run_keep;
    try (destruct (0 + 1 + 1 =? 0) eqn:E1; [discriminate E1|]); run_keep;
    do 2 eexists; (split; [reflexivity|]); run_keep;
    rewrite ?mask_long, ?land_u24, ?u24_idem; cbn [Z.b2z]; rewrite ?Z.sub_0_r;
    change (rBC - 1) with (rBC + -1); rewrite EB;
    repeat match goal with |- _ /\ _ => split end;
    try reflexivity;
    try (intros a; rewrite u8_u8; reflexivity);
    first [exact (pv_after_ld rF false) | exact (pv_after_ld rF true)].
Qed.

(** Successive passes of the loop body, each from the state the previous
    one left. *)
Fixpoint run_passes (n : nat) (s : machine) : option machine :=
  match n with
  | O => Some s
  | S k => match inner_body 0 s with
           | Some (_, s') => run_passes k s'
           | None => None
           end
  end.

Lemma u24_small (x : Z) : 0 <= x < 16777216 -> u24 x = x.
Proof. intros H. rewrite u24_mod. apply Z.mod_small. exact H. Qed.

(** LDIR in ADL mode with BC = n + 1, on a source and a destination that
    lie apart and do not wrap, the instruction itself outside the
    destination: after n + 1 passes of the loop body the n + 1 bytes at HL
    are at DE and no other byte of memory has changed; HL and DE have
    advanced past the blocks, BC is 0, P/V is clear and PC is on the
    instruction after LDIR.  Each pass but the last ends on the LDIR
    itself, so the copy can be interrupted between any two bytes. *)
Theorem ldir_copies_block (n : nat) (s : machine) :
  let pc := PC (regs s) in
  let hl := HL (regs s) in
  let de := DE (regs s) in
  let len := Z.of_nat (S n) in
  prefetch (cpu s) = 0xED -> u8 (mem s pc) = 0xED -> u8 (mem s (pc + 1)) = 0xB0 ->
  ADL (cpu s) = true -> L (cpu s) = true -> SUFFIX (cpu s) = false ->
  BC (regs s) = len ->
  0 <= pc -> pc + 2 < 16777216 ->
  0 <= hl -> hl + len <= 16777216 ->
  0 <= de -> de + len <= 16777216 ->
  (de + len <= hl \/ hl + len <= de) ->
  (de + len <= pc \/ pc + 2 <= de) ->
  exists s',
    run_passes (S n) s = Some s' /\
    (forall i, 0 <= i < len -> mem s' (de + i) = u8 (mem s (hl + i))) /\
    (forall a, ~ (de <= a < de + len) -> mem s' a = mem s a) /\
    HL (regs s') = u24 (hl + len) /\ DE (regs s') = u24 (de + len) /\
    BC (regs s') = 0 /\
    PC (regs s') = pc + 2 /\ flag FLAG_PV (regs s') = false.
Proof.
  cbv zeta. revert s.
  induction n as [|n IH]; intros s Hop Hm0 Hm1 Hadl Hl Hsuf Hbc Hpc0 Hpc1 Hhl0 Hhl1 Hde0 Hde1 Hsd Hpd.
  - (* the last byte *)
    change (Z.of_nat 1) with 1 in *.
    destruct (ldir_pass 0 s Hop) as (r & s' & Hrun & Hmem & Hhl & Hde & Hb & _ & _ & _ & Hpv & Hpc);
      try assumption.
    { rewrite u24_small by lia. exact Hm1. }
    rewrite Hbc in Hb, Hpv, Hpc. change (u24 (1 - 1)) with 0 in Hb, Hpv, Hpc.
    cbn [Z.eqb negb] in Hpv, Hpc.
    rewrite (u24_small (PC (regs s) + 1)), (u24_small (PC (regs s) + 1 + 1)) in Hpc by lia.
    exists s'. cbn [run_passes]. rewrite Hrun.
    split; [reflexivity|]. split; [|split].
    + intros i Hi. replace i with 0 by lia. rewrite !Z.add_0_r, Hmem.
      rewrite (u24_small (DE (regs s))), (u24_small (HL (regs s))) by lia.
      rewrite Z.eqb_refl. reflexivity.
    + intros a Ha. rewrite Hmem, (u24_small (DE (regs s))) by lia.
      replace (a =? DE (regs s)) with false by (symmetry; apply Z.eqb_neq; lia).
      reflexivity.
    + repeat split; try assumption. lia.
  - (* a byte, and the rest of the block *)
    set (len := Z.of_nat (S (S n))) in *.
    assert (Hlen : len = Z.of_nat (S n) + 1) by (unfold len; lia).
    assert (Hpos : 0 < Z.of_nat (S n)) by lia.
    destruct (ldir_pass 0 s Hop) as (r & s1 & Hrun & Hmem & Hhl & Hde & Hb & Hadl1 & Hl1 & Hsuf1 & _ & Hpc);
      try assumption.
    { rewrite u24_small by lia. exact Hm1. }
    rewrite Hbc in Hb, Hpc.
    replace (len - 1) with (Z.of_nat (S n)) in Hb, Hpc by lia.
    rewrite (u24_small (Z.of_nat (S n))) in Hb, Hpc by lia.
    replace (Z.of_nat (S n) =? 0) with false in Hpc by (symmetry; apply Z.eqb_neq; lia).
    destruct Hpc as (Hpc & Hpre).
    rewrite (u24_small (PC (regs s) + 1)), (u24_small (PC (regs s) + 1 + 1)) in Hpc by lia.
    replace (PC (regs s) + 1 + 1 - 2) with (PC (regs s)) in Hpc by lia.
    rewrite (u24_small (PC (regs s))) in Hpc by lia.
    rewrite (u24_small (HL (regs s) + 1)) in Hhl by lia.
    rewrite (u24_small (DE (regs s) + 1)) in Hde by lia.
    assert (Hm : forall a, mem s1 a = if a =? DE (regs s) then u8 (mem s (HL (regs s)))
                                      else mem s a).
    { intros a. rewrite Hmem, (u24_small (DE (regs s))), (u24_small (HL (regs s))) by lia.
      reflexivity. }
    assert (Hk0 : u8 (mem s1 (PC (regs s))) = 0xED).
    { rewrite Hm. replace (PC (regs s) =? DE (regs s)) with false
        by (symmetry; apply Z.eqb_neq; lia). exact Hm0. }
    assert (Hk1 : u8 (mem s1 (PC (regs s) + 1)) = 0xB0).
    { rewrite Hm. replace (PC (regs s) + 1 =? DE (regs s)) with false
        by (symmetry; apply Z.eqb_neq; lia). exact Hm1. }
    destruct (IH s1) as (s' & Hrest & Hcopy & Hframe & Hhl' & Hde' & Hbc' & Hpc' & Hpv');
      rewrite ?Hpc, ?Hhl, ?Hde; try assumption; try lia.
    { rewrite Hpre, Hpc. exact Hk0. }
    exists s'. change (run_passes (S (S n)) s) with
      (match inner_body 0 s with
       | Some (_, s'0) => run_passes (S n) s'0
       | None => None
       end).
    rewrite Hrun. split; [exact Hrest|].
    rewrite Hpc, Hhl, Hde in *.
    split; [|split].
    + intros i Hi. destruct (Z.eq_dec i 0) as [->|Hne].
      * rewrite !Z.add_0_r, Hframe by lia. rewrite Hm, Z.eqb_refl. reflexivity.
      * replace (DE (regs s) + i) with (DE (regs s) + 1 + (i - 1)) by lia.
        rewrite Hcopy by lia. rewrite Hm.
        replace (HL (regs s) + 1 + (i - 1) =? DE (regs s)) with false
          by (symmetry; apply Z.eqb_neq; lia).
        replace (HL (regs s) + 1 + (i - 1)) with (HL (regs s) + i) by lia.
        reflexivity.
    + intros a Ha. rewrite Hframe by lia. rewrite Hm.
      replace (a =? DE (regs s)) with false by (symmetry; apply Z.eqb_neq; lia).
      reflexivity.
    + replace (HL (regs s) + len) with (HL (regs s) + 1 + Z.of_nat (S n)) by lia.
      replace (DE (regs s) + len) with (DE (regs s) + 1 + Z.of_nat (S n)) by lia.
      repeat split; assumption.
Qed.

(** LDIR at address 0 in ADL mode, copying the three bytes at 0x100 to
    0x200. *)
Definition ldir_demo : machine :=
  upd_regs (fun r => set_HL 0x100 (set_DE 0x200 (set_BC 3 r)))
    (upd_cpu (fun c => set_ADL true (set_L true (set_IL true c)))
       (final cpu_reset
          (init_machine (fun a => if a <? 0x100 then mem_of_list 0 [0xED; 0xB0; 0x00] a
                                  else mem_of_list 0x100 [0x11; 0x22; 0x33] a)))).

Lemma ldir_copies_block_witness :
  let s := ldir_demo in
  let pc := PC (regs s) in
  let hl := HL (regs s) in
  let de := DE (regs s) in
  prefetch (cpu s) = 0xED /\ u8 (mem s pc) = 0xED /\ u8 (mem s (pc + 1)) = 0xB0 /\
  ADL (cpu s) = true /\ L (cpu s) = true /\ SUFFIX (cpu s) = false /\
  BC (regs s) = 3 /\ pc = 0 /\ hl = 0x100 /\ de = 0x200 /\
  exists s',
    run_passes 3 s = Some s' /\
    (forall i, 0 <= i < 3 -> mem s' (de + i) = u8 (mem s (hl + i))) /\
    (forall a, ~ (de <= a < de + 3) -> mem s' a = mem s a) /\
    HL (regs s') = u24 (hl + 3) /\ DE (regs s') = u24 (de + 3) /\ BC (regs s') = 0 /\
    PC (regs s') = pc + 2 /\ flag FLAG_PV (regs s') = false.
Proof.
  cbv zeta.
  do 10 (split; [vm_compute; reflexivity|]).
  apply (ldir_copies_block 2 ldir_demo).
  - vm_compute; reflexivity.
  - vm_compute; reflexivity.
  - vm_compute; reflexivity.
  - vm_compute; reflexivity.
  - vm_compute; reflexivity.
  - vm_compute; reflexivity.
  - vm_compute; reflexivity.
  - vm_compute; discriminate.
  - vm_compute; reflexivity.
  - vm_compute; discriminate.
  - vm_compute; discriminate.
  - vm_compute; discriminate.
  - vm_compute; discriminate.
  - right. vm_compute; discriminate.
  - right. vm_compute; discriminate.
Defined.

Example ldir_demo_memory :
  option_map (fun s' => (mem s' 0x200, mem s' 0x201, mem s' 0x202, mem s' 0x203))
    (run_passes 3 ldir_demo) = Some (0x11, 0x22, 0x33, 0).
Proof. vm_compute. reflexivity. Qed.
(** * Sixteen-bit addition and indexed loads *)

(** ** ADD HL,rr *)

(** ADD HL,rr (or IX, IY in the place of HL under a prefix) adds within
    the data width, takes C from the bit above it, clears N and keeps S,
    Z, P/V: the expression [_flag_zero(!r->flags.Z)] hands Z through. *)
Theorem add_hl_keeps_szp (p : Z) (s : machine) :
  0 <= p < 4 ->
  exists v w s',
    cpu_read_index s = Some (v, s) /\
    cpu_read_rp p s = Some (w, s) /\
    execute_opcode (0x09 + 16 * p) s = Some (Break, s') /\
    cpu_read_index s'
    = Some (cpu_mask_mode (cpu_mask_mode v (L (cpu s)) + w) (L (cpu s)), s') /\
    flag FLAG_C (regs s') = Z.testbit (cpu_mask_mode v (L (cpu s)) + w) (word_bits (L (cpu s))) /\
    flag FLAG_S (regs s') = flag FLAG_S (regs s) /\
    flag FLAG_Z (regs s') = flag FLAG_Z (regs s) /\
    flag FLAG_PV (regs s') = flag FLAG_PV (regs s) /\
    flag FLAG_N (regs s') = false.
Proof.
  intros Hp.
  assert (H : p = 0 \/ p = 1 \/ p = 2 \/ p = 3) by lia.
  destruct_machine s.
  destruct H as [-> | [-> | [-> | ->]]]; cbn [Z.add Z.mul Pos.add Pos.mul Pos.succ Pos.add_carry];
    unfold execute_opcode; eval_lits;
    unfold cpu_read_rp, cpu_read_index;
    destruct l; run_keep;
    repeat match goal with |- context [match ?x with _ => _ end] => destruct x end;
    do 3 eexists;
    (split; [reflexivity|]); (split; [reflexivity|]); (split; [reflexivity|]); run_keep;
    rewrite ?u24_mask, ?mask_mask;
    (split; [reflexivity|]);
    unfold _flag_zero, _flag_subtract, _flag_carry_w, _flag_halfcarry_w_add;
    match goal with
    | |- context [__flag_s ?fs .| __flag_z ?fz .| _flag_undef ?f .| __flag_pv ?fp
                  .| __flag_n ?fn .| __flag_c ?fc .| __flag_h ?fh] =>
        destruct (flags_split fs fz fp fn fc fh f) as (Hs & Hz & Hpv & Hn & Hc & _ & _)
    end;
    rewrite Hs, Hz, Hpv, Hn, Hc;
    repeat split; try reflexivity;
    match goal with |- context [negb ?b] => destruct b; reflexivity end.
Qed.

(** HL = 0xFFFF, BC = 1 in Z80 mode with Z set: the sum wraps to 0 with
    carry, and Z stays as it was. *)
Lemma add_hl_keeps_szp_witness :
  let s := upd_regs (fun r => set_HL 0xFFFF (set_BC 1 (set_F FLAG_Z r))) (boot [0x09] 4) in
  0 <= 0 < 4 /\
  exists s',
    execute_opcode 0x09 s = Some (Break, s') /\
    HL (regs s') = 0 /\ flag FLAG_C (regs s') = true /\ flag FLAG_Z (regs s') = true.
Proof.
  cbv zeta. split; [lia|].
  destruct (add_hl_keeps_szp 0
              (upd_regs (fun r => set_HL 0xFFFF (set_BC 1 (set_F FLAG_Z r))) (boot [0x09] 4)))
    as (v & w & s' & H0 & H1 & H2 & H3 & H4 & H5 & H6 & H7 & H8); [lia|].
  exists s'. split; [exact H2|]. split; [|split].
  - vm_compute in H2. injection H2 as <-. reflexivity.
  - vm_compute in H2. injection H2 as <-. reflexivity.
  - rewrite H6. vm_compute; reflexivity.
Defined.

(** ** Loads between registers under an index prefix *)

(** Under the DD prefix a load between registers uses IXH in the place of
    H (LD H,E becomes LD IXH,E), but when one operand is the memory
    operand (IX+d) the other one is the plain register: LD H,(IX+d) loads
    H and leaves IX alone, because [cpu_read_write_reg] clears the prefix
    for the operand that is not the memory one. *)
Theorem indexed_load_targets_plain_register (s : machine) :
  PREFIX (cpu s) = 2 ->
  (exists s',
     execute_opcode 0x63 s = Some (Break, s') /\
     IX (regs s') = u24 (with_h (IX (regs s)) (E (regs s))) /\
     HL (regs s') = HL (regs s)) /\
  (exists s',
     execute_opcode 0x66 s = Some (Break, s') /\
     HL (regs s')
     = u24 (with_h (HL (regs s))
              (u8 (mem s (cpu_address_mode
                            (cpu_mask_mode (IX (regs s) + s8 (prefetch (cpu s))) (L (cpu s)))
                            (L (cpu s)) s)))) /\
     IX (regs s') = IX (regs s)).
Proof.
  destruct_machine s. cbn [cpu PREFIX regs registers]. intros ->.
  split; unfold execute_opcode; eval_lits; unfold cpu_read_write_reg; eval_lits.
  - run. eexists. split; [reflexivity|]. run. split; reflexivity.
  - unfold cpu_index_address.
    destruct l, adl; run; eexists; (split; [reflexivity|]); run;
      split; reflexivity.
Qed.

(** IX = 0x001000, HL = 0x123456, displacement 2 and the byte 0xAB at
    0x1002: DD 66 02 leaves HL = 0x12AB56 and IX as it was. *)
Lemma indexed_load_targets_plain_register_witness :
  let s := set_mem (fun a => if a =? 0x1002 then 0xAB else 0)
             (upd_cpu (fun c => set_prefetch 2 (set_PREFIX 2 c))
                (upd_regs (fun r => set_IX 0x1000 (set_HL 0x123456 r))
                   (init_machine (fun _ => 0)))) in
  PREFIX (cpu s) = 2 /\
  exists s',
    execute_opcode 0x66 s = Some (Break, s') /\
    HL (regs s') = 0x12AB56 /\ IX (regs s') = 0x1000.
Proof.
  cbv zeta. split; [reflexivity|].
  destruct (indexed_load_targets_plain_register
              (set_mem (fun a => if a =? 0x1002 then 0xAB else 0)
                 (upd_cpu (fun c => set_prefetch 2 (set_PREFIX 2 c))
                    (upd_regs (fun r => set_IX 0x1000 (set_HL 0x123456 r))
                       (init_machine (fun _ => 0))))))
    as (_ & s' & H1 & H2 & H3); [reflexivity|].
  exists s'. split; [exact H1|]. split.
  - rewrite H2. vm_compute. reflexivity.
  - rewrite H3. vm_compute. reflexivity.
Defined.
(** ** SUB after ADD *)

(** SUB v undoes ADD v on the accumulator, and the borrow it reports is
    the carry the addition reported: a sum that overflowed the byte is the
    only one the subtraction brings back below zero. *)
Theorem sub_undoes_add (v : Z) (s : machine) :
  0 <= A (regs s) < 256 -> 0 <= v < 256 ->
  exists s1 s2,
    cpu_execute_alu 0 v s = Some (tt, s1) /\
    cpu_execute_alu 2 v s1 = Some (tt, s2) /\
    A (regs s2) = A (regs s) /\
    flag FLAG_C (regs s2) = flag FLAG_C (regs s1) /\
    flag FLAG_C (regs s1) = (256 <=? A (regs s) + v) /\
    flag FLAG_Z (regs s2) = (A (regs s) =? 0).
Proof.
  destruct_machine s. cbn [regs cpu registers A]. intros Ha Hv.
  do 2 eexists. unfold cpu_execute_alu.
  split; [run; reflexivity|]. split; [run; reflexivity|]. run.
  unfold _flag_sign_b, _flag_zero, _flag_overflow_b_add, _flag_overflow_b_sub,
    _flag_subtract, _flag_carry_b, _flag_halfcarry_b_add, _flag_halfcarry_b_sub.
  repeat match goal with
    | |- context [Z.land (__flag_s ?fs .| __flag_z ?fz .| _flag_undef ?f .| __flag_pv ?fp
                          .| __flag_n ?fn .| __flag_c ?fc .| __flag_h ?fh) _] =>
        let Hz := fresh "Hz" in
        let Hc := fresh "Hc" in
        destruct (flags_split fs fz fp fn fc fh f) as (_ & Hz & _ & _ & Hc & _ & _);
        rewrite ?Hz, ?Hc; clear Hz Hc
    end.
  repeat split; by_bytes2 rA v.
Qed.

Lemma sub_undoes_add_witness :
  let s := upd_regs (set_A 0xF0) (init_machine (fun _ => 0)) in
  0 <= A (regs s) < 256 /\ 0 <= 0x20 < 256 /\
  exists s1 s2,
    cpu_execute_alu 0 0x20 s = Some (tt, s1) /\
    cpu_execute_alu 2 0x20 s1 = Some (tt, s2) /\
    A (regs s1) = 0x10 /\ A (regs s2) = 0xF0 /\
    flag FLAG_C (regs s1) = true /\ flag FLAG_C (regs s2) = true.
Proof.
  cbv zeta.
  split; [vm_compute; split; [discriminate | reflexivity]|].
  split; [lia|].
  destruct (sub_undoes_add 0x20 (upd_regs (set_A 0xF0) (init_machine (fun _ => 0))))
    as (s1 & s2 & H1 & H2 & H3 & H4 & H5 & H6).
  - vm_compute; split; [discriminate | reflexivity].
  - lia.
  - exists s1, s2. split; [exact H1|]. split; [exact H2|].
    assert (Ha : A (regs s1) = 0x10)
      by (clear - H1; vm_compute in H1; injection H1 as <-; reflexivity).
    assert (Hc : flag FLAG_C (regs s1) = true) by (rewrite H5; vm_compute; reflexivity).
    split; [exact Ha|]. split; [rewrite H3; reflexivity|].
    split; [exact Hc|]. rewrite H4. exact Hc.
Defined.
